(** * RAGTrust: the deterministic decision core

    A shallow embedding of the Python package [ragtrust]:
    evidence fusion ([indexing/hybrid.py]), the poison injector
    ([data/synthetic.py], [poisoning/strategies.py]), the multi-source
    verifier ([verification/verifier.py]), the decision engine and the
    query pipeline ([experiment.py]), the metrics and their aggregator
    ([evaluation/metrics.py], [evaluation/runner.py]), the experiment
    drivers ([evaluation/run_experiment.py]), the threshold ablation
    ([ablation/ablation.py]), the prompt ([generation/prompts.py]) and the
    HotpotQA corpus ([data/hotpotqa.py]).

    Python [float] is IEEE binary64 and is embedded as Rocq's primitive
    [float]; Python [dict]s with string keys are [gmap string _]; code that
    can raise returns in the [Result] monad. *)

From Stdlib Require Import ZArith Floats.
From stdpp Require Import gmap strings list fin_maps sorting pretty.

Set Warnings "-inexact-float".
Local Open Scope Z_scope.

(** ** Python floats *)

Module PyFloat.

(** [a >= b], [a > b], [a <= b] and [a < b] on Python floats. *)
Definition ge (a b : float) : bool := PrimFloat.leb b a.
Definition gt (a b : float) : bool := PrimFloat.ltb b a.
Definition le (a b : float) : bool := PrimFloat.leb a b.
Definition lt (a b : float) : bool := PrimFloat.ltb a b.

Definition is_nan (a : float) : bool := PrimFloat.is_nan a.

(** [float(z)] for a Python int [z]: the nearest binary64 value (exact
    below 2^53 in magnitude). *)
Definition of_int (z : Z) : float :=
  SF2Prim (binary_normalize prec emax z 0 false).

(** [a / b] on two Python ints with [b] nonzero: true division, the
    correctly rounded quotient when both operands are exactly
    representable. *)
Definition truediv (a b : Z) : float :=
  PrimFloat.div (of_int a) (of_int b).

(** [sum(vals)] on a list of floats as CPython up to 3.11 computes it:
    the additions from left to right, starting from the integer [0]. *)
Definition sum (vals : list float) : float :=
  fold_left PrimFloat.add vals (of_int 0).

(** [sum(vals)] as CPython 3.12 and later compute it: the first float is
    added to the integer [0]; from there on the rounding error of each
    addition is collected in a compensation term (Neumaier's variant of
    Kahan's summation), which is added at the end unless it is zero or
    not finite. *)
Definition neumaier_step (st : float * float) (x : float) : float * float :=
  let t := PrimFloat.add st.1 x in
  let c :=
    if ge (PrimFloat.abs st.1) (PrimFloat.abs x)
    then PrimFloat.add st.2 (PrimFloat.add (PrimFloat.sub st.1 t) x)
    else PrimFloat.add st.2 (PrimFloat.add (PrimFloat.sub x t) st.1) in
  (t, c).

Definition sum_compensated (vals : list float) : float :=
  match vals with
  | [] => of_int 0
  | x :: rest =>
      let st :=
        fold_left neumaier_step rest (PrimFloat.add (of_int 0) x, 0.0%float) in
      if negb (PrimFloat.eqb st.2 0.0%float) && PrimFloat.is_finite st.2
      then PrimFloat.add st.1 st.2
      else st.1
  end.

(** The position of a non-NaN float on a three-level lexicographic scale:
    sign class, then exponent, then mantissa (both mirrored for negative
    numbers). *)
Definition sf_rank (x : spec_float) : Z * Z * Z :=
  match x with
  | S754_nan => (0, 0, 0)
  | S754_zero _ => (0, 0, 0)
  | S754_infinity true => (-2, 0, 0)
  | S754_infinity false => (2, 0, 0)
  | S754_finite true m e => (-1, - e, Z.neg m)
  | S754_finite false m e => (1, e, Z.pos m)
  end.

Definition lex3_lt (a b : Z * Z * Z) : Prop :=
  a.1.1 < b.1.1 ∨
  (a.1.1 = b.1.1 ∧ (a.1.2 < b.1.2 ∨ (a.1.2 = b.1.2 ∧ a.2 < b.2))).

Definition rank (a : float) : Z * Z * Z := sf_rank (Prim2SF a).

Definition sf_is_nan (x : spec_float) : bool :=
  match x with
  | S754_nan => true
  | _ => false
  end.

End PyFloat.

(** ** Results of code that can raise *)

Inductive PyError : Type :=
  | KeyError (key : string)
  | TypeError
  | ValueError
  | OverflowError
  | AttributeError
  | IndexError.

Inductive Result (A : Type) : Type :=
  | Ok (a : A)
  | Raise (e : PyError).
Arguments Ok {A} a.
Arguments Raise {A} e.

#[global] Instance Result_ret : MRet Result := λ A a, Ok a.
#[global] Instance Result_bind : MBind Result := λ A B k r,
  match r with
  | Ok a => k a
  | Raise e => Raise e
  end.

(** ** Data model *)

(** The values held by the fields of a passage dictionary: strings
    ([doc_id], [title], [sent_id], [text], [source], the rendered [score],
    the corpus-level poison marker) and booleans (the retrieval-set poison
    marker). On these Python's [==] is structural equality. *)
Inductive PyVal : Type :=
  | VStr (s : string)
  | VBool (b : bool).

#[global] Instance PyVal_eq_dec : EqDecision PyVal.
Proof. solve_decision. Defined.

(** Truth value of a field value ([if p.get("text")]). *)
Definition truthy (v : PyVal) : bool :=
  match v with
  | VStr s => negb (String.eqb s "")
  | VBool b => b
  end.

(** A passage is a [dict] from field names to values. *)
Abbreviation Passage := (gmap string PyVal).

(** [p.get(k, d)] and [p[k]]. *)
Definition get (p : Passage) (k : string) (d : PyVal) : PyVal :=
  default d (p !! k).

Definition getitem (p : Passage) (k : string) : Result PyVal :=
  match p !! k with
  | Some v => Ok v
  | None => Raise (KeyError k)
  end.

(** A field that the callee uses as a [str]. *)
Definition as_str (v : PyVal) (e : PyError) : Result string :=
  match v with
  | VStr s => Ok s
  | VBool _ => Raise e
  end.

(** [l[:n]] for a Python int [n]. *)
Definition slice_to {A : Type} (l : list A) (n : Z) : list A :=
  if 0 <=? n then take (Z.to_nat n) l
  else take (Z.to_nat (Z.of_nat (length l) + n)) l.

Inductive Vote : Type := entail | contradict | neutral.

Record Votes : Type := mkVotes {
  votes_entail : nat;
  votes_contradict : nat;
  votes_neutral : nat;
}.

(** The verification dictionary as the decision engine reads it: every key
    may be absent ([verification.get(key, default)]). *)
Record Verification (D : Type) : Type := mkVerification {
  votes : option Votes;
  conflict : option bool;
  support_strength : option float;
  contradiction_strength : option float;
  details : option (list D);
}.
Arguments mkVerification {D}.
Arguments votes {D}.
Arguments conflict {D}.
Arguments support_strength {D}.
Arguments contradiction_strength {D}.
Arguments details {D}.


(** ** Decision engine ([experiment.py]) *)

(** The [decision_params] dictionary; each key may be absent. *)
Record DecisionParams : Type := mkDecisionParams {
  min_strength : option float;
  margin : option float;
  conflict_nei : option bool;
}.

Definition default_decision_params : DecisionParams :=
  {| min_strength := Some 0.3%float;
     margin := Some 0.10%float;
     conflict_nei := Some true |}.

(** [predict_label_from_verification]: [decision_params] is the attribute
    of the pipeline object, [None] when the attribute was never set
    ([getattr(self, "decision_params", default)]). *)
Definition predict_label_from_verification {D : Type}
    (decision_params : option DecisionParams)
    (verification : Verification D) : string :=
  let params := default default_decision_params decision_params in
  let s_ent := default 0.0%float (support_strength verification) in
  let s_con := default 0.0%float (contradiction_strength verification) in
  let conflict := default false (conflict verification) in
  let min_strength := default 0.3%float (min_strength params) in
  let margin := default 0.10%float (margin params) in
  let conflict_nei := default true (conflict_nei params) in
  if conflict && conflict_nei then "NOT ENOUGH INFO"
  else if PyFloat.ge s_con min_strength
          && PyFloat.gt (PrimFloat.sub s_con s_ent) margin then "REFUTES"
  else if PyFloat.ge s_ent min_strength
          && PyFloat.gt (PrimFloat.sub s_ent s_con) margin then "SUPPORTS"
  else "NOT ENOUGH INFO".

(** The three labels of the specification and the strings the code returns
    for them. *)
Inductive Label : Type := SUPPORTS | REFUTES | NOT_ENOUGH_INFO.

Definition label_text (l : Label) : string :=
  match l with
  | SUPPORTS => "SUPPORTS"
  | REFUTES => "REFUTES"
  | NOT_ENOUGH_INFO => "NOT ENOUGH INFO"
  end.

(** The resolution order in the specification's words: an ordered table of
    guarded rules, the first rule whose guard holds wins, with a default. *)
Fixpoint first_matching_rule (rules : list (bool * Label)) (dflt : Label) : Label :=
  match rules with
  | [] => dflt
  | (guard, l) :: rest => if guard then l else first_matching_rule rest dflt
  end.

Definition resolution_order (s c : float) (conflict : bool)
    (min_strength margin : float) (conflict_nei : bool) : list (bool * Label) :=
  [ (conflict && conflict_nei, NOT_ENOUGH_INFO);
    (PyFloat.ge c min_strength && PyFloat.gt (PrimFloat.sub c s) margin, REFUTES);
    (PyFloat.ge s min_strength && PyFloat.gt (PrimFloat.sub s c) margin, SUPPORTS) ].

(** ** Multi-source verifier ([verification/verifier.py]) *)

Module NLI.

(** The dictionary returned by [NLIModel.score]. *)
Record scores : Type := mkScores {
  contradiction : float;
  neutral : float;
  entailment : float;
}.

End NLI.

(** The verifier object. [nli] stands for [self.nli.score], the external
    entailment scorer, applied to a premise and a hypothesis. *)
Record MultiSourceVerifier : Type := mkVerifier {
  nli : string → string → NLI.scores;
  thr_con : float;
  thr_ent : float;
  top_n_multi : Z;
}.

(** One record of [details]; the keys [title], [sent_id] and [is_poison]
    exist in single mode only. *)
Record Detail : Type := mkDetail {
  mode : string;
  title : option PyVal;
  sent_id : option PyVal;
  text : PyVal;
  nli_scores : NLI.scores;
  vote : Vote;
  is_poison : option PyVal;
}.

Definition _vote_from_score (self : MultiSourceVerifier) (sc : NLI.scores) : Vote :=
  let e := NLI.entailment sc in
  let c := NLI.contradiction sc in
  if PyFloat.ge c (thr_con self) && PyFloat.gt c e then contradict
  else if PyFloat.ge e (thr_ent self) && PyFloat.gt e c then entail
  else neutral.

(** [votes[vote] += 1] *)
Definition add_vote (v : Votes) (x : Vote) : Votes :=
  match x with
  | entail => mkVotes (S (votes_entail v)) (votes_contradict v) (votes_neutral v)
  | contradict => mkVotes (votes_entail v) (S (votes_contradict v)) (votes_neutral v)
  | neutral => mkVotes (votes_entail v) (votes_contradict v) (S (votes_neutral v))
  end.

Definition no_votes : Votes := mkVotes 0 0 0.

(** The body of the loop of [_analyze_single] for one passage: the scorer
    is called on [p["text"]], which must exist and be a string. *)
Definition single_step (self : MultiSourceVerifier) (query : string)
    (st : Votes * list Detail) (p : Passage) : Result (Votes * list Detail) :=
  v ← getitem p "text";
  premise ← as_str v TypeError;
  let sc := nli self premise query in
  let vote := _vote_from_score self sc in
  Ok (add_vote st.1 vote,
      st.2 ++ [ {| mode := "single";
                   title := Some (get p "title" (VStr ""));
                   sent_id := Some (get p "sent_id" (VStr ""));
                   text := get p "text" (VStr "");
                   nli_scores := sc;
                   vote := vote;
                   is_poison := Some (get p "is_poison" (VStr "0")) |} ]).

Fixpoint single_loop (self : MultiSourceVerifier) (query : string)
    (passages : list Passage) (st : Votes * list Detail)
    : Result (Votes * list Detail) :=
  match passages with
  | [] => Ok st
  | p :: rest =>
      st' ← single_step self query st p;
      single_loop self query rest st'
  end.

Definition _analyze_single (self : MultiSourceVerifier) (query : string)
    (passages : list Passage) : Result (Verification Detail) :=
  st ← single_loop self query passages (no_votes, []);
  let votes := st.1 in
  let conflict := (0 <? votes_entail votes)%nat && (0 <? votes_contradict votes)%nat in
  let n := Z.max 1 (Z.of_nat (length passages)) in
  Ok {| votes := Some votes;
        conflict := Some conflict;
        support_strength := Some (PyFloat.truediv (Z.of_nat (votes_entail votes)) n);
        contradiction_strength := Some (PyFloat.truediv (Z.of_nat (votes_contradict votes)) n);
        details := Some st.2 |}.

(** The texts joined in multi mode: the non-empty [text] fields of the
    first [top_n_multi] passages; [join] needs strings. *)
Fixpoint multi_texts (top : list Passage) : Result (list string) :=
  match top with
  | [] => Ok []
  | p :: rest =>
      match p !! "text" with
      | Some v =>
          if truthy v then
            s ← as_str (get p "text" (VStr "")) TypeError;
            l ← multi_texts rest;
            Ok (s :: l)
          else multi_texts rest
      | None => multi_texts rest
      end
  end.

(** In multi mode the code stores the integer counters [votes["entail"]]
    and [votes["contradict"]] as strengths; the decision engine reads them
    through [float(...)], which is the conversion applied here. *)
Definition _analyze_multi (self : MultiSourceVerifier) (query : string)
    (passages : list Passage) : Result (Verification Detail) :=
  let top := slice_to passages (top_n_multi self) in
  texts ← multi_texts top;
  let aggregated_text := String.concat " " texts in
  let sc := nli self aggregated_text query in
  let vote := _vote_from_score self sc in
  let votes := add_vote no_votes vote in
  let conflict := (0 <? votes_entail votes)%nat && (0 <? votes_contradict votes)%nat in
  Ok {| votes := Some votes;
        conflict := Some conflict;
        support_strength := Some (PyFloat.of_int (Z.of_nat (votes_entail votes)));
        contradiction_strength := Some (PyFloat.of_int (Z.of_nat (votes_contradict votes)));
        details := Some [ {| mode := "multi";
                             title := None;
                             sent_id := None;
                             text := VStr aggregated_text;
                             nli_scores := sc;
                             vote := vote;
                             is_poison := None |} ] |}.

Definition analyze (self : MultiSourceVerifier) (query : string)
    (passages : list Passage) (mode : string) : Result (Verification Detail) :=
  if String.eqb mode "multi" then _analyze_multi self query passages
  else _analyze_single self query passages.

(** ** Evidence fusion ([indexing/hybrid.py]) *)

(** The composite key of a passage. *)
Definition Key : Type := PyVal * PyVal * PyVal.

Definition passage_key (p : Passage) : Key :=
  (get p "title" (VStr ""), get p "sent_id" (VStr ""), get p "text" (VStr "")).

(** The dictionary [best], in insertion order (the order in which
    [best.values()] lists it): assigning to a key that is present keeps its
    position, assigning to a new key appends. *)
Abbreviation Best := (list (Key * (float * Passage))).

Fixpoint best_lookup (best : Best) (key : Key) : option (float * Passage) :=
  match best with
  | [] => None
  | (k', v) :: rest => if decide (k' = key) then Some v else best_lookup rest key
  end.

Fixpoint best_assign (best : Best) (key : Key) (v : float * Passage) : Best :=
  match best with
  | [] => [(key, v)]
  | (k', v') :: rest =>
      if decide (k' = key) then (k', v) :: rest
      else (k', v') :: best_assign rest key v
  end.

(** One iteration of [for s, p in scored]. *)
Definition best_step (best : Best) (sp : float * Passage) : Best :=
  let key := passage_key sp.2 in
  match best_lookup best key with
  | None => best_assign best key sp
  | Some old => if PyFloat.gt sp.1 old.1 then best_assign best key sp else best
  end.

Definition best_of (scored : list (float * Passage)) : Best :=
  fold_left best_step scored [].

(** [sorted(values, key=lambda x: x[0], reverse=True)]: a stable sort into
    descending order, entries of equal score keeping their relative order.
    An entry is placed in front of the sorted rest unless the head of the
    rest is strictly greater. *)
Fixpoint insert_desc (x : float * Passage) (l : list (float * Passage))
    : list (float * Passage) :=
  match l with
  | [] => [x]
  | y :: rest =>
      if PyFloat.lt x.1 y.1 then y :: insert_desc x rest else x :: y :: rest
  end.

Fixpoint sorted_desc (l : list (float * Passage)) : list (float * Passage) :=
  match l with
  | [] => []
  | x :: rest => insert_desc x (sorted_desc rest)
  end.

Section Fusion.

(** [str(s)] on a float, the shortest decimal string that reads back as
    [s]. *)
Variable str : float → string.

(** A retrieval source: [retrieve(query, k)]. *)
Definition Source : Type := string → Z → list (float * Passage).

Record HybridRetriever : Type := mkHybrid {
  bm25 : option Source;
  dense : option Source;
}.

Definition merged_of (scored : list (float * Passage)) (k : Z)
    : list (float * Passage) :=
  slice_to (sorted_desc (best_of scored).*2) k.

Definition attach_score (sp : float * Passage) : Passage :=
  <["score" := VStr (str sp.1)]> sp.2.

(** The part of [retrieve] that follows the collection of [scored]. *)
Definition fuse (scored : list (float * Passage)) (k : Z) : list Passage :=
  attach_score <$> merged_of scored k.

Definition scored_of (self : HybridRetriever) (query : string) (k : Z)
    : list (float * Passage) :=
  from_option (λ src, src query k) [] (bm25 self)
  ++ from_option (λ src, src query k) [] (dense self).

Definition retrieve (self : HybridRetriever) (query : string) (k : Z)
    : list Passage :=
  fuse (scored_of self query k) k.

End Fusion.

(** ** Poison injector ([data/synthetic.py], [poisoning/strategies.py]) *)

(** [int(x)] on a float: truncation toward zero; NaN and the infinities
    raise. *)
Definition py_int (x : float) : Result Z :=
  match Prim2SF x with
  | S754_zero _ => Ok 0
  | S754_finite s m e =>
      let mag := if 0 <=? e then Z.shiftl (Z.pos m) e
                 else Z.shiftr (Z.pos m) (- e) in
      Ok (if s then - mag else mag)
  | S754_infinity _ => Raise OverflowError
  | S754_nan => Raise ValueError
  end.

(** [round(x)] on a float, named by the specification and absent from the
    code: the nearest integer, halves going to the even neighbour. *)
Definition py_round (x : float) : Result Z :=
  match Prim2SF x with
  | S754_zero _ => Ok 0
  | S754_finite s m e =>
      let mag :=
        if 0 <=? e then Z.shiftl (Z.pos m) e
        else
          let q := Z.shiftr (Z.pos m) (- e) in
          let r := Z.pos m - Z.shiftl q (- e) in
          let half := Z.shiftl 1 (- e - 1) in
          if (half <? r) || ((r =? half) && Z.odd q) then q + 1 else q in
      Ok (if s then - mag else mag)
  | S754_infinity _ => Raise OverflowError
  | S754_nan => Raise ValueError
  end.

Record Poisoner : Type := mkPoisoner {
  strategy : string;
  rate : float;
  seed : Z;
}.

Module Cfg.

(** The [poisoning] section of the run configuration. *)
Record PoisonCfg : Type := mkPoisonCfg {
  enabled : bool;
  rate : float;
  strategy : string;
  target : string;
}.

End Cfg.

(** [for i in idxs: out[i] = f(out[i])], the list updated in place. *)
Fixpoint poison_loop (f : Passage → Result Passage) (idxs : list nat)
    (out : list Passage) : Result (list Passage) :=
  match idxs with
  | [] => Ok out
  | i :: rest =>
      match out !! i with
      | None => Raise IndexError
      | Some p =>
          p' ← f p;
          poison_loop f rest (<[i := p']> out)
      end
  end.

Section Poisoning.

(** The text heuristic of [data/synthetic.py] (strip, drop an explicit
    negation or prefix a generic one); the properties below do not depend
    on the text it produces. *)
Variable make_contradictory_passage : string → string.

(** [random.Random(seed).sample(range(n), k)]: the sampler of the Python
    standard library, freshly seeded. *)
Variable sample : Z → nat → nat → list nat.

(** The body of the loop of [inject_synthetic_poison]. *)
Definition poison_retrieved_at (p : Passage) : Result Passage :=
  t ← getitem p "text";
  s ← as_str t AttributeError;
  let p := <["text" := VStr (make_contradictory_passage s)]> p in
  let p := <["is_poison" := VBool true]> p in
  let p := <["source" := VStr "poison"]> p in
  d ← getitem p "doc_id";
  ds ← as_str d TypeError;
  Ok (<["doc_id" := VStr (ds +:+ "__POISON")]> p).

(** The number of indices requested from the sampler by
    [inject_synthetic_poison] for [n] passages. *)
Definition sample_size_retrieved (n : nat) (rate : float) : Result nat :=
  t ← py_int (PrimFloat.mul (PyFloat.of_int (Z.of_nat n)) rate);
  let n_poison := Z.max 1 t in
  Ok (Z.to_nat (Z.max 0 (Z.min n_poison (Z.of_nat n)))).

Definition inject_synthetic_poison (retrieved : list Passage) (rate : float)
    (seed : Z) : Result (list Passage) :=
  let out := (λ p : Passage, <["is_poison" := VBool false]> p) <$> retrieved in
  k ← sample_size_retrieved (length out) rate;
  let idxs := sample seed (length out) k in
  poison_loop poison_retrieved_at idxs out.

Definition apply (self : Poisoner) (retrieved : list Passage)
    : Result (list Passage) :=
  if PyFloat.le (rate self) (PyFloat.of_int 0) then Ok retrieved
  else if String.eqb (strategy self) "contradictory_passage" then
    inject_synthetic_poison retrieved (rate self) (seed self)
  else Ok retrieved.

(** The body of the loop of [apply_to_corpus]. *)
Definition poison_corpus_at (p : Passage) : Result Passage :=
  s ← as_str (get p "text" (VStr "")) AttributeError;
  let p := <["text" := VStr (make_contradictory_passage s)]> p in
  let p := <["is_poison" := VStr "1"]> p in
  ds ← as_str (get p "doc_id" (VStr "")) TypeError;
  Ok (<["doc_id" := VStr (ds +:+ "__POISON")]> p).

(** The number of indices requested from the sampler by [apply_to_corpus]
    for [n] passages. *)
Definition sample_size_corpus (n : nat) (rate : float) : Result nat :=
  n_poison ← py_int (PrimFloat.mul (PyFloat.of_int (Z.of_nat n)) rate);
  Ok (Z.to_nat (Z.max 0 (Z.min n_poison (Z.of_nat n)))).

Definition apply_to_corpus (self : Poisoner) (corpus : list Passage)
    : Result (list Passage) :=
  if PyFloat.le (rate self) (PyFloat.of_int 0) then Ok corpus
  else
    let out := corpus in
    k ← sample_size_corpus (length out) (rate self);
    let idxs := sample (seed self) (length out) k in
    poison_loop poison_corpus_at idxs out.

(** The poisoning part of [RAGTrustPipeline.__init__]: the poisoner it
    builds and the corpus it hands to the retriever. *)
Definition pipeline_poisoner (cfg : Cfg.PoisonCfg) (seed : Z) : Poisoner :=
  {| strategy := Cfg.strategy cfg;
     rate := if Cfg.enabled cfg then Cfg.rate cfg else 0.0%float;
     seed := seed |}.

Definition pipeline_init (cfg : Cfg.PoisonCfg) (seed : Z) (corpus : list Passage)
    : Result (Poisoner * list Passage) :=
  let poisoner := pipeline_poisoner cfg seed in
  corpus ← (if Cfg.enabled cfg && String.eqb (Cfg.target cfg) "corpus"
            then apply_to_corpus poisoner corpus else Ok corpus);
  Ok (poisoner, corpus).

(** The poisoning step of [run_one]. *)
Definition run_one_poisoned (cfg : Cfg.PoisonCfg) (poisoner : Poisoner)
    (retrieved : list Passage) : Result (list Passage) :=
  if Cfg.enabled cfg && String.eqb (Cfg.target cfg) "retrieval_set"
  then apply poisoner retrieved else Ok retrieved.

End Poisoning.

(** ** Metrics aggregator ([evaluation/runner.py]) *)

(** The metric fields of a result row; [r.get(k)] is [None] exactly when
    [k] has no value in the row. *)
Abbreviation Row := (gmap string float).

Definition metric_keys : list string := ["acc"; "hallucination"; "self_consistency"].

Definition metric_vals (results : list Row) (k : string) : list float :=
  omap (λ r : Row, r !! k) results.

Section Aggregator.

(** The built-in [sum] of the interpreter on a list of floats:
    [PyFloat.sum] up to CPython 3.11, [PyFloat.sum_compensated] from 3.12
    on. *)
Variable sum : list float → float.

(** [sum(vals) / len(vals)]. *)
Definition mean (vals : list float) : float :=
  PrimFloat.div (sum vals) (PyFloat.of_int (Z.of_nat (length vals))).

Definition aggregate_step (results : list Row) (out : gmap string float)
    (k : string) : gmap string float :=
  let vals := metric_vals results k in
  match vals with
  | [] => out
  | _ => <[k := mean vals]> out
  end.

Definition aggregate (results : list Row) : gmap string float :=
  match results with
  | [] => ∅
  | _ => fold_left (aggregate_step results) metric_keys ∅
  end.

End Aggregator.

(** ** Evaluation metrics ([evaluation/metrics.py]) *)

Definition fever_accuracy (pred gold : string) : float :=
  if String.eqb pred gold then 1.0%float else 0.0%float.

(** [hallucination_proxy]: [verification["votes"]] is read first, and
    raises when the key is absent, though the value is not used. *)
Definition hallucination_proxy {D : Type} (verification : Verification D)
    : Result float :=
  match votes verification with
  | None => Raise (KeyError "votes")
  | Some v =>
      Ok (if PyFloat.ge
               (default 0.0%float (contradiction_strength verification))
               0.4%float
          then 1.0%float else 0.0%float)
  end.

(** [Counter(norm)]: a dictionary of counts, in order of first
    occurrence. *)
Fixpoint counter_add (c : list (string * nat)) (x : string)
    : list (string * nat) :=
  match c with
  | [] => [(x, 1%nat)]
  | (y, n) :: rest =>
      if String.eqb y x then (y, S n) :: rest else (y, n) :: counter_add rest x
  end.

Definition Counter (l : list string) : list (string * nat) :=
  foldl counter_add [] l.

(** [max(x :: rest, key=key)]: the first element whose key is maximal. *)
Definition py_max_by {A : Type} (key : A → nat) (x : A) (rest : list A) : A :=
  foldl (λ best y, if (key best <? key y)%nat then y else best) x rest.

(** [c.most_common(1)], which the standard library computes as
    [max(c.items(), key=itemgetter(1))] on a non-empty counter. *)
Definition most_common_1 (c : list (string * nat)) : list (string * nat) :=
  match c with
  | [] => []
  | x :: rest => [py_max_by snd x rest]
  end.

Section Text.

(** [s.strip()] and [s.lower()] of the Python standard library. *)
Variable strip : string → string.
Variable lower : string → string.

(** On strings, [pred or ""] is [pred]. *)
Definition hotpot_exact_match (pred gold : string) : float :=
  if String.eqb (lower (strip pred)) (lower (strip gold))
  then 1.0%float else 0.0%float.

Definition self_consistency_score (generations : list string) : Result float :=
  match generations with
  | [] => Ok 0.0%float
  | _ =>
      let norm := (λ g, lower (strip g)) <$> generations in
      let c := Counter norm in
      match most_common_1 c with
      | [] => Raise IndexError
      | (_, top) :: _ =>
          Ok (PyFloat.truediv (Z.of_nat top) (Z.of_nat (length norm)))
      end
  end.

End Text.

(** ** Prompt construction ([generation/prompts.py]) *)

(** A field value inside an f-string. *)
Definition format_value (v : PyVal) : string :=
  match v with
  | VStr s => s
  | VBool true => "True"
  | VBool false => "False"
  end.

Definition newline : string := String (Ascii.ascii_of_nat 10) EmptyString.

Definition build_meta_prompt (query : string) (passages : list Passage)
    : Result string :=
  texts ← mapM (λ p : Passage, getitem p "text") (slice_to passages 6);
  let context :=
    String.concat newline ((λ v, "- " +:+ format_value v) <$> texts) in
  Ok ("Answer the question using ONLY the evidence bullets." +:+ newline
      +:+ "If the answer is not directly stated, output: UNKNOWN." +:+ newline
      +:+ "Return a short answer (1-5 words)." +:+ newline +:+ newline
      +:+ "QUESTION: " +:+ query +:+ newline
      +:+ "EVIDENCE:" +:+ newline +:+ context +:+ newline +:+ newline
      +:+ "ANSWER:").

(** ** The pipeline ([config.py], [experiment.py]) *)

(** The fields of the run configuration that the pipeline reads. *)
Record RunCfg : Type := mkRunCfg {
  cfg_seed : Z;
  retrieval_k : Z;
  poisoning : Cfg.PoisonCfg;
  contradiction_threshold : float;
  entailment_threshold : float;
  top_n_verify : Z;
  generation_enabled : bool;
  num_samples : Z;
  compute_self_consistency : bool;
}.

(** The pipeline object; [generator] is [HFGenerator.generate], [None]
    when generation is disabled, and [decision_params] the attribute that
    the decision engine looks up. *)
Record RAGTrustPipeline : Type := mkPipeline {
  cfg : RunCfg;
  poisoner : Poisoner;
  retriever : HybridRetriever;
  verifier : MultiSourceVerifier;
  generator : option (string → Z → list string);
  decision_params : option DecisionParams;
}.

(** The verifier that [RAGTrustPipeline.__init__] builds: the thresholds of
    the configuration, [top_n_multi] left at its default. *)
Definition pipeline_verifier (nli : string → string → NLI.scores)
    (cfg : RunCfg) : MultiSourceVerifier :=
  {| nli := nli;
     thr_con := contradiction_threshold cfg;
     thr_ent := entailment_threshold cfg;
     top_n_multi := 5 |}.

(** The dictionary returned by [run_one]. *)
Record RunOut : Type := mkRunOut {
  out_claim : string;
  out_retrieved : list Passage;
  out_poisoned : list Passage;
  out_verification : Verification Detail;
  out_generations : list string;
}.

(** [sum(1 for p in poisoned if p.get("is_poison"))], the count that
    [run_one] reports in verbose mode. *)
Definition is_marked (p : Passage) : bool :=
  from_option truthy false (p !! "is_poison").

Definition injected (poisoned : list Passage) : nat :=
  length (filter (λ p, is_marked p = true) poisoned).

Section Pipeline.

Variable str : float → string.

(** [float(s)] on a string: [None] where Python raises [ValueError]. *)
Variable parse_float : string → option float.

Variable make_contradictory_passage : string → string.
Variable sample : Z → nat → nat → list nat.

(** The sort key of the rerank: [float(p.get("score", 0.0))], and [0.0]
    when the conversion raises. *)
Definition _score (p : Passage) : float :=
  match p !! "score" with
  | None => 0.0%float
  | Some (VStr s) => default 0.0%float (parse_float s)
  | Some (VBool b) => if b then 1.0%float else 0.0%float
  end.

(** [sorted(poisoned, key=_score, reverse=True)]. *)
Definition ranked (poisoned : list Passage) : list Passage :=
  (sorted_desc ((λ p : Passage, (_score p, p)) <$> poisoned)).*2.

Definition to_verify (top_n_verify : Z) (poisoned : list Passage)
    : list Passage :=
  let ranked := ranked poisoned in
  let n := Z.min top_n_verify (Z.of_nat (length ranked)) in
  slice_to ranked n.

Definition run_one (self : RAGTrustPipeline) (claim : string)
    (verifier_mode : string) : Result RunOut :=
  let retrieved := retrieve str (retriever self) claim (retrieval_k (cfg self)) in
  poisoned ← run_one_poisoned make_contradictory_passage sample
                (poisoning (cfg self)) (poisoner self) retrieved;
  let to_verify := to_verify (top_n_verify (cfg self)) poisoned in
  verification ← analyze (verifier self) claim to_verify verifier_mode;
  generations ←
    match generator self with
    | None => Ok []
    | Some generate =>
        prompt ← build_meta_prompt claim to_verify;
        Ok (generate prompt (num_samples (cfg self)))
    end;
  Ok {| out_claim := claim;
        out_retrieved := retrieved;
        out_poisoned := poisoned;
        out_verification := verification;
        out_generations := generations |}.

End Pipeline.

(** ** Experiment drivers ([evaluation/run_experiment.py]) *)

Record FeverExample : Type := mkFeverExample {
  fever_id : Z;
  claim : string;
  label : string;
}.

Record HotpotExample : Type := mkHotpotExample {
  hotpot_id : string;
  question : string;
  answer : string;
  context : list (string * list string);
}.

(** A result row: the prediction and the metric fields. *)
Record ResultRow : Type := mkResultRow {
  row_pred : string;
  row_gold : string;
  row_metrics : Row;
}.

Definition hotpot_yesno_from_verifier_label (label : string) : string :=
  if String.eqb label "SUPPORTS" then "yes"
  else if String.eqb label "REFUTES" then "no"
  else "unknown".

Section Drivers.

Variable str : float → string.
Variable parse_float : string → option float.
Variable make_contradictory_passage : string → string.
Variable sample : Z → nat → nat → list nat.
Variable strip : string → string.
Variable lower : string → string.
Variable sum : list float → float.

(** The optional [self_consistency] field of a row. *)
Definition with_self_consistency (cfg : RunCfg) (generations : list string)
    (row : Row) : Result Row :=
  if compute_self_consistency cfg && bool_decide (generations ≠ []) then
    sc ← self_consistency_score strip lower generations;
    Ok (<["self_consistency" := sc]> row)
  else Ok row.

(** The body of the loop of [run_fever]. *)
Definition fever_row (cfg : RunCfg) (pipeline : RAGTrustPipeline)
    (ex : FeverExample) : Result ResultRow :=
  out ← run_one str parse_float make_contradictory_passage sample
          pipeline (claim ex) "single";
  let pred :=
    predict_label_from_verification (decision_params pipeline)
      (out_verification out) in
  let acc := fever_accuracy pred (label ex) in
  h ← hallucination_proxy (out_verification out);
  metrics ← with_self_consistency cfg (out_generations out)
              {[ "acc" := acc; "hallucination" := h ]};
  Ok {| row_pred := pred; row_gold := label ex; row_metrics := metrics |}.

Definition run_fever (cfg : RunCfg) (pipeline : RAGTrustPipeline)
    (examples : list FeverExample) : Result (gmap string float * list ResultRow) :=
  rows ← mapM (fever_row cfg pipeline) examples;
  Ok (aggregate sum (row_metrics <$> rows), rows).

(** The answer that most generations give: the first one, stripped, with
    the largest number of occurrences. *)
Definition majority_answer (generations : list string) : string :=
  match strip <$> generations with
  | [] => ""
  | g :: rest =>
      py_max_by
        (λ s, length (filter (λ x, s = x) (strip <$> generations))) g rest
  end.

(** The body of the loop of [run_hotpot]. The answer derived from the
    verifier label, or from the generations, is assigned first and then
    overwritten. *)
Definition hotpot_row (cfg : RunCfg) (pipeline : RAGTrustPipeline)
    (ex : HotpotExample) : Result ResultRow :=
  out ← run_one str parse_float make_contradictory_passage sample
          pipeline (question ex) "multi";
  let pred_answer :=
    if negb (generation_enabled cfg) then
      hotpot_yesno_from_verifier_label
        (predict_label_from_verification (decision_params pipeline)
           (out_verification out))
    else majority_answer (out_generations out) in
  let pred_answer := "" in
  let pred_answer :=
    match out_generations out with
    | [] => ""
    | _ => majority_answer (out_generations out)
    end in
  let acc := hotpot_exact_match strip lower pred_answer (answer ex) in
  h ← hallucination_proxy (out_verification out);
  metrics ← with_self_consistency cfg (out_generations out)
              {[ "acc" := acc; "hallucination" := h ]};
  Ok {| row_pred := pred_answer; row_gold := answer ex; row_metrics := metrics |}.

Definition run_hotpot (cfg : RunCfg) (pipeline : RAGTrustPipeline)
    (examples : list HotpotExample) : Result (gmap string float * list ResultRow) :=
  rows ← mapM (hotpot_row cfg pipeline) examples;
  Ok (aggregate sum (row_metrics <$> rows), rows).

End Drivers.

(** ** Threshold ablation ([ablation/ablation.py]) *)

(** [DECISION_RULES]: the entailment and the contradiction threshold of
    each named rule. *)
Definition DECISION_RULES : list (string * (float * float)) :=
  [ ("strict", (0.40%float, 0.40%float));
    ("balanced", (0.30%float, 0.30%float));
    ("conservative", (0.40%float, 0.45%float)) ].

(** [replace(cfg, verification=replace(cfg.verification, ...))]. *)
Definition cfg_rule (cfg : RunCfg) (params : float * float) : RunCfg :=
  {| cfg_seed := cfg_seed cfg;
     retrieval_k := retrieval_k cfg;
     poisoning := poisoning cfg;
     contradiction_threshold := params.2;
     entailment_threshold := params.1;
     top_n_verify := top_n_verify cfg;
     generation_enabled := generation_enabled cfg;
     num_samples := num_samples cfg;
     compute_self_consistency := compute_self_consistency cfg |}.

(** ** The HotpotQA corpus ([data/hotpotqa.py]) *)

Definition hotpot_passage (title : string) (i : nat) (sent : string) : Passage :=
  {[ "title" := VStr title;
     "text" := VStr sent;
     "doc_id" := VStr (title +:+ "__" +:+ pretty i);
     "source" := VStr "hotpot" ]}.

Definition build_hotpot_corpus (examples : list HotpotExample) : list Passage :=
  ex ← examples;
  '(title, sentences) ← context ex;
  imap (hotpot_passage title) sentences.

(** ** Specification-side vocabulary *)

#[global] Instance Vote_eq_dec : EqDecision Vote.
Proof. solve_decision. Defined.

(** A passage whose [text] field holds a string. *)
Definition has_text (p : Passage) : Prop :=
  ∃ s : string, p !! "text" = Some (VStr s).

Definition passage_text (p : Passage) : string :=
  match p !! "text" with
  | Some (VStr s) => s
  | _ => ""
  end.

(** The [details] record of one passage in single mode. *)
Definition single_detail (self : MultiSourceVerifier) (query : string)
    (p : Passage) : Detail :=
  let sc := nli self (passage_text p) query in
  {| mode := "single";
     title := Some (get p "title" (VStr ""));
     sent_id := Some (get p "sent_id" (VStr ""));
     text := get p "text" (VStr "");
     nli_scores := sc;
     vote := _vote_from_score self sc;
     is_poison := Some (get p "is_poison" (VStr "0")) |}.

(** The number of records of [ds] that carry the vote [x]. *)
Definition tally (x : Vote) (ds : list Detail) : nat :=
  length (filter (λ d, vote d = x) ds).

(** A passage that the retrieval-set injector can corrupt: [text] and
    [doc_id] hold strings. *)
Definition poisonable (p : Passage) : Prop :=
  (∃ s : string, p !! "text" = Some (VStr s))
  ∧ (∃ d : string, p !! "doc_id" = Some (VStr d)).

(** A passage that the corpus injector can corrupt: [text] and [doc_id],
    when present, hold strings. *)
Definition corpus_poisonable (p : Passage) : Prop :=
  (∃ s : string, get p "text" (VStr "") = VStr s)
  ∧ (∃ d : string, get p "doc_id" (VStr "") = VStr d).

(** What the standard library promises of [sample]: asked for [k] of [n]
    indices with [k <= n], it returns [k] distinct indices below [n]. *)
Definition sampler_spec (sample : Z → nat → nat → list nat) : Prop :=
  ∀ (seed : Z) (n k : nat),
    (k ≤ n)%nat →
    length (sample seed n k) = k
    ∧ NoDup (sample seed n k)
    ∧ ∀ i : nat, i ∈ sample seed n k → (i < n)%nat.

(** The indices drawn for [n] passages at the two application points
    (none when the size computation raises). *)
Definition selected_retrieved (sample : Z → nat → nat → list nat)
    (seed : Z) (n : nat) (rate : float) : list nat :=
  match sample_size_retrieved n rate with
  | Ok k => sample seed n k
  | Raise _ => []
  end.

Definition selected_corpus (sample : Z → nat → nat → list nat)
    (seed : Z) (n : nat) (rate : float) : list nat :=
  match sample_size_corpus n rate with
  | Ok k => sample seed n k
  | Raise _ => []
  end.

(** What the loop of [retrieve] keeps true of [best] after reading
    [scored]: its keys are distinct; every key read has an entry; and the
    entry of a key is a pair read under that key, with no pair of the key
    scoring above it and every earlier pair of the key scoring strictly
    below it. *)
Definition best_inv (scored : list (float * Passage)) (best : Best) : Prop :=
  NoDup best.*1
  ∧ (∀ sp : float * Passage,
       sp ∈ scored → is_Some (best_lookup best (passage_key sp.2)))
  ∧ (∀ (key : Key) (s : float) (p : Passage),
       best_lookup best key = Some (s, p) →
       key = passage_key p
       ∧ ∃ n : nat,
           scored !! n = Some (s, p)
           ∧ (∀ (m : nat) (s' : float) (p' : Passage),
                scored !! m = Some (s', p') →
                passage_key p' = key → PyFloat.lt s s' = false)
           ∧ (∀ (m : nat) (s' : float) (p' : Passage),
                (m < n)%nat →
                scored !! m = Some (s', p') →
                passage_key p' = key → PyFloat.lt s' s = true)).

(** The text that multi mode joins for a passage: its [text] when that is
    a non-empty string. *)
Definition nonempty_text (p : Passage) : option string :=
  match p !! "text" with
  | Some (VStr s) => if String.eqb s "" then None else Some s
  | _ => None
  end.

(** A passage whose [text], when present, is a string. *)
Definition text_is_str (p : Passage) : Prop :=
  p !! "text" = None ∨ has_text p.

(** The label and the yes/no answer that correspond to a vote. *)
Definition vote_label (x : Vote) : Label :=
  match x with
  | entail => SUPPORTS
  | contradict => REFUTES
  | neutral => NOT_ENOUGH_INFO
  end.

Definition vote_yesno (x : Vote) : string :=
  match x with
  | entail => "yes"
  | contradict => "no"
  | neutral => "unknown"
  end.

(** The number of occurrences of [x] in [l]. *)
Definition occurrences (x : string) (l : list string) : nat :=
  length (filter (λ y, y = x) l).

(** [c[x]] on a counter: the stored count, zero for an absent key. *)
Fixpoint counter_get (c : list (string * nat)) (x : string) : nat :=
  match c with
  | [] => 0%nat
  | (y, n) :: rest => if String.eqb y x then n else counter_get rest x
  end.

(** The key [ka] is seen in [scored] before the key [kb] is: some pair of
    key [ka] stands before every pair of key [kb]. *)
Definition seen_before (scored : list (float * Passage)) (ka kb : Key) : Prop :=
  ∃ (n : nat) (sp : float * Passage),
    scored !! n = Some sp
    ∧ passage_key sp.2 = ka
    ∧ ∀ (m : nat) (sp' : float * Passage),
        scored !! m = Some sp' → passage_key sp'.2 = kb → (n < m)%nat.

(** ** Sample inputs *)

Definition demo_verifier : MultiSourceVerifier :=
  {| nli := λ premise _,
       if String.eqb premise "Paris is the capital of France."
       then NLI.mkScores 0.02%float 0.08%float 0.9%float
       else NLI.mkScores 0.7%float 0.2%float 0.1%float;
     thr_con := 0.55%float;
     thr_ent := 0.55%float;
     top_n_multi := 5 |}.

Definition demo_query : string := "Paris is the capital of France".

Definition demo_passages : list Passage :=
  [ {[ "doc_id" := VStr "Paris"; "title" := VStr "Paris"; "sent_id" := VStr "0";
       "text" := VStr "Paris is the capital of France." ]};
    {[ "doc_id" := VStr "Lyon"; "title" := VStr "Lyon";
       "text" := VStr "Paris is not in France." ]} ].

Definition demo_rows : list Row :=
  [ {[ "acc" := 1.0%float ]};
    {[ "acc" := 0.0%float ]};
    {[ "hallucination" := 1.0%float ]} ].

(** Rows whose sums are exact, and rows whose [self_consistency] values
    have a sum that is not. *)
Definition demo_rows_zero : list Row :=
  replicate 4 {[ "acc" := 0.0%float ]}.

Definition demo_rows_mixed : list Row :=
  [ {[ "acc" := 1.0%float; "self_consistency" := 0.2%float ]};
    {[ "acc" := 1.0%float; "self_consistency" := 0.4%float ]};
    {[ "acc" := 1.0%float; "self_consistency" := 0.6%float ]};
    {[ "acc" := 0.0%float ]} ].

(** A third passage, which the sample scorer takes for a contradiction. *)
Definition demo_three : list Passage :=
  demo_passages
  ++ [ {[ "doc_id" := VStr "Nice"; "title" := VStr "Nice";
          "text" := VStr "Paris is in Spain." ]} ].

(** A sampler for the worked examples: the first [k] indices. *)
Definition demo_sample (seed : Z) (n k : nat) : list nat := seq 0 k.

Definition demo_negate (text : string) : string :=
  "It is not true that: " +:+ text.

Definition demo_poisoner : Poisoner :=
  {| strategy := "contradictory_passage"; rate := 0.3%float; seed := 7 |}.

Definition demo_typo_cfg : Cfg.PoisonCfg :=
  {| Cfg.enabled := true; Cfg.rate := 0.5%float;
     Cfg.strategy := "contradictory_pasage"; Cfg.target := "retrieval_set" |}.

(** Two retrieval sources that overlap on both sample passages. *)
Definition demo_hybrid : HybridRetriever :=
  {| bm25 := Some (λ _ _, zip [1.5%float; 0.5%float] demo_passages);
     dense := Some (λ _ _, zip [0.7%float; 0.9%float] demo_passages) |}.

(** A stand-in for [str] on the sample scores. *)
Definition demo_str (s : float) : string :=
  if PrimFloat.eqb s 1.5%float then "1.5"
  else if PrimFloat.eqb s 0.9%float then "0.9"
  else "0.0".

(** A stand-in for [float] on the strings of the sample scores. *)
Definition demo_parse_float (s : string) : option float :=
  if String.eqb s "1.5" then Some 1.5%float
  else if String.eqb s "0.9" then Some 0.9%float
  else None.

Definition demo_cfg : RunCfg :=
  {| cfg_seed := 7;
     retrieval_k := 5;
     poisoning :=
       {| Cfg.enabled := true; Cfg.rate := 0.3%float;
          Cfg.strategy := "contradictory_passage";
          Cfg.target := "retrieval_set" |};
     contradiction_threshold := 0.55%float;
     entailment_threshold := 0.55%float;
     top_n_verify := 5;
     generation_enabled := false;
     num_samples := 5;
     compute_self_consistency := true |}.

Definition demo_pipeline : RAGTrustPipeline :=
  {| cfg := demo_cfg;
     poisoner := pipeline_poisoner (poisoning demo_cfg) (cfg_seed demo_cfg);
     retriever := demo_hybrid;
     verifier := pipeline_verifier (nli demo_verifier) demo_cfg;
     generator := None;
     decision_params := None |}.

(** Two sources that give both sample passages the same score. *)
Definition demo_tied : HybridRetriever :=
  {| bm25 := Some (λ _ _, zip [1.0%float; 1.0%float] demo_passages);
     dense := Some (λ _ _, zip [1.0%float; 0.5%float] (reverse demo_passages)) |}.

(** ** Proof automation *)

(** Case analysis on the signs and on the exponent and mantissa
    comparisons met when two specification floats are compared. *)
Ltac sf_cases :=
  repeat match goal with
  | s : bool |- _ => destruct s
  | |- context [Z.compare ?a ?b] => destruct (Z.compare_spec a b)
  | |- context [Pos.compare_cont Eq ?a ?b] =>
      change (Pos.compare_cont Eq a b) with (Pos.compare a b);
      destruct (Pos.compare_spec a b)
  end.

(** * Properties *)

(** ** The order of Python floats *)

Lemma SFltb_rank (x y : spec_float) :
  PyFloat.sf_is_nan x = false → PyFloat.sf_is_nan y = false →
  SFltb x y = true ↔ PyFloat.lex3_lt (PyFloat.sf_rank x) (PyFloat.sf_rank y).
Proof.
  unfold SFltb, PyFloat.lex3_lt.
  destruct x as [sx|sx| |sx mx ex], y as [sy|sy| |sy my ey]; simpl;
    try discriminate; intros _ _; sf_cases; simpl; split;
    (discriminate || lia || reflexivity || idtac).
Qed.

Lemma SFleb_rank (x y : spec_float) :
  PyFloat.sf_is_nan x = false → PyFloat.sf_is_nan y = false →
  SFleb x y = true ↔ ¬ PyFloat.lex3_lt (PyFloat.sf_rank y) (PyFloat.sf_rank x).
Proof.
  unfold SFleb, PyFloat.lex3_lt.
  destruct x as [sx|sx| |sx mx ex], y as [sy|sy| |sy my ey]; simpl;
    try discriminate; intros _ _; sf_cases; simpl; split;
    (discriminate || lia || reflexivity || idtac).
Qed.

Lemma is_nan_spec (a : float) :
  PyFloat.is_nan a = PyFloat.sf_is_nan (Prim2SF a).
Proof.
  unfold PyFloat.is_nan, PrimFloat.is_nan. rewrite FloatAxioms.eqb_spec. unfold SFeqb.
  destruct (Prim2SF a) as [s|s| |s m e]; simpl; try done; try (by destruct s).
  destruct s; rewrite Z.compare_refl, Pos.compare_cont_refl; done.
Qed.

Lemma lt_spec (a b : float) :
  PyFloat.lt a b = true ↔
  PyFloat.is_nan a = false ∧ PyFloat.is_nan b = false
  ∧ PyFloat.lex3_lt (PyFloat.rank a) (PyFloat.rank b).
Proof.
  unfold PyFloat.lt, PyFloat.rank. rewrite FloatAxioms.ltb_spec, !is_nan_spec.
  destruct (PyFloat.sf_is_nan (Prim2SF a)) eqn:Ha.
  { destruct (Prim2SF a); try discriminate. simpl. split; [done | by intros [? _]]. }
  destruct (PyFloat.sf_is_nan (Prim2SF b)) eqn:Hb.
  { destruct (Prim2SF b); try discriminate.
    unfold SFltb. destruct (Prim2SF a); simpl; split; try done; by intros (_ & ? & _). }
  rewrite SFltb_rank by done. tauto.
Qed.

Lemma le_spec (a b : float) :
  PyFloat.le a b = true ↔
  PyFloat.is_nan a = false ∧ PyFloat.is_nan b = false
  ∧ ¬ PyFloat.lex3_lt (PyFloat.rank b) (PyFloat.rank a).
Proof.
  unfold PyFloat.le, PyFloat.rank. rewrite FloatAxioms.leb_spec, !is_nan_spec.
  destruct (PyFloat.sf_is_nan (Prim2SF a)) eqn:Ha.
  { destruct (Prim2SF a); try discriminate. simpl. split; [done | by intros [? _]]. }
  destruct (PyFloat.sf_is_nan (Prim2SF b)) eqn:Hb.
  { destruct (Prim2SF b); try discriminate.
    unfold SFleb. destruct (Prim2SF a); simpl; split; try done; by intros (_ & ? & _). }
  rewrite SFleb_rank by done. tauto.
Qed.

Lemma lt_asym (a b : float) :
  PyFloat.lt a b = true → PyFloat.lt b a = false.
Proof.
  intros H. apply not_true_is_false. revert H. rewrite !lt_spec.
  unfold PyFloat.lex3_lt. lia.
Qed.

Lemma lt_trans (a b c : float) :
  PyFloat.lt a b = true → PyFloat.lt b c = true → PyFloat.lt a c = true.
Proof. rewrite !lt_spec. unfold PyFloat.lex3_lt. intuition lia. Qed.

(** Between numbers the order is total: "not below" is transitive. *)
Lemma lt_false_trans (a b c : float) :
  PyFloat.is_nan b = false →
  PyFloat.lt a b = false → PyFloat.lt b c = false → PyFloat.lt a c = false.
Proof.
  intros Hb Hab Hbc. apply not_true_is_false. intros Hac.
  apply not_true_iff_false in Hab, Hbc. revert Hab Hbc Hac.
  rewrite !lt_spec. unfold PyFloat.lex3_lt. intuition lia.
Qed.

Lemma gt_not_le (a b : float) :
  PyFloat.gt a b = true → PyFloat.le a b = false.
Proof.
  intros H. apply not_true_is_false. revert H.
  unfold PyFloat.gt. change (PrimFloat.ltb b a) with (PyFloat.lt b a).
  rewrite lt_spec, le_spec. tauto.
Qed.

(** ** Conversion and division *)

(** On the range of machine integers, [float(z)] is the conversion of the
    primitive floats. *)
Lemma of_int_uint63 (z : Z) :
  0 ≤ z < 2 ^ 63 → PyFloat.of_int z = PrimFloat.of_uint63 (Uint63.of_Z z).
Proof.
  intros Hz. unfold PyFloat.of_int.
  rewrite <- (FloatAxioms.SF2Prim_Prim2SF (PrimFloat.of_uint63 (Uint63.of_Z z))).
  rewrite FloatAxioms.of_uint63_spec, Uint63.of_Z_spec.
  rewrite Z.mod_small; [done |].
  change Uint63.wB with 9223372036854775808.
  change (2 ^ 63) with 9223372036854775808 in Hz. lia.
Qed.

Lemma truediv_uint63 (a b : Z) :
  0 ≤ a < 2 ^ 63 → 0 ≤ b < 2 ^ 63 →
  PyFloat.truediv a b
  = PrimFloat.div (PrimFloat.of_uint63 (Uint63.of_Z a))
      (PrimFloat.of_uint63 (Uint63.of_Z b)).
Proof.
  intros Ha Hb. unfold PyFloat.truediv. by rewrite !of_int_uint63.
Qed.

(** ** Decision engine *)


(** The guards of the second and third rule as the engine evaluates them,
    absent keys read through their defaults. *)
Lemma decision_unfold {D : Type} (params : option DecisionParams)
    (v : Verification D) :
  let prm := default default_decision_params params in
  let s := default 0.0%float (support_strength v) in
  let c := default 0.0%float (contradiction_strength v) in
  predict_label_from_verification params v
  = label_text
      (first_matching_rule
         (resolution_order s c (default false (conflict v))
            (default 0.3%float (min_strength prm))
            (default 0.10%float (margin prm))
            (default true (conflict_nei prm)))
         NOT_ENOUGH_INFO).
Proof.
  unfold predict_label_from_verification, resolution_order; simpl.
  repeat match goal with |- context [if ?b then _ else _] => destruct b end; done.
Qed.

(** C8: the decision engine is total. On every verification dictionary and
    every parameter dictionary, with any of their keys absent, it returns
    one of the three labels; the label is the one of the first matching
    rule and NOT ENOUGH INFO, the fourth branch, when none matches. With
    the default parameters the degenerate inputs resolve to NOT ENOUGH
    INFO: the empty dictionary, zero strengths with zero votes, and the
    result of single-mode verification of zero passages. *)
Theorem decision_total :
  (∀ (D : Type) (params : option DecisionParams) (v : Verification D),
     ∃ l : Label, predict_label_from_verification params v = label_text l)
  ∧ (∀ (D : Type) (params : option DecisionParams) (v : Verification D),
       predict_label_from_verification params v
       = label_text
           (first_matching_rule
              (resolution_order
                 (default 0.0%float (support_strength v))
                 (default 0.0%float (contradiction_strength v))
                 (default false (conflict v))
                 (default 0.3%float
                    (min_strength (default default_decision_params params)))
                 (default 0.10%float
                    (margin (default default_decision_params params)))
                 (default true
                    (conflict_nei (default default_decision_params params))))
              NOT_ENOUGH_INFO))
  ∧ (∀ (l1 l2 l3 dflt : Label),
       first_matching_rule [(false, l1); (false, l2); (false, l3)] dflt = dflt)
  ∧ (∀ (D : Type),
       predict_label_from_verification None
         (mkVerification (D := D) None None None None None)
       = label_text NOT_ENOUGH_INFO
       ∧ predict_label_from_verification
           (Some (mkDecisionParams None None None))
           (mkVerification (D := D) None None None None None)
         = label_text NOT_ENOUGH_INFO)
  ∧ (∀ (D : Type) (cf : option bool) (ds : option (list D)),
       predict_label_from_verification None
         (mkVerification (Some no_votes) cf (Some 0.0%float) (Some 0.0%float) ds)
       = label_text NOT_ENOUGH_INFO)
  ∧ (∀ (self : MultiSourceVerifier) (query : string),
       ∃ v : Verification Detail,
         _analyze_single self query [] = Ok v
         ∧ votes v = Some no_votes
         ∧ predict_label_from_verification None v = label_text NOT_ENOUGH_INFO).
Proof.
  split; [| split; [| split; [| split; [| split]]]].
  - intros D params v. rewrite decision_unfold. eauto.
  - intros D params v. apply decision_unfold.
  - done.
  - intros D. by vm_compute.
  - intros D [[]|] ds; by vm_compute.
  - intros self query. eexists. split; [reflexivity |]. split; [done |].
    by vm_compute.
Qed.

(** ** Multi-source verifier *)

(** *** The loop of single mode *)

Lemma single_step_ok (self : MultiSourceVerifier) (query : string)
    (st : Votes * list Detail) (p : Passage) :
  has_text p →
  single_step self query st p
  = Ok (add_vote st.1 (vote (single_detail self query p)),
        st.2 ++ [single_detail self query p]).
Proof.
  intros [s Hs]. unfold single_step, single_detail, passage_text, getitem.
  rewrite Hs. reflexivity.
Qed.

Lemma single_step_inv (self : MultiSourceVerifier) (query : string)
    (st st' : Votes * list Detail) (p : Passage) :
  single_step self query st p = Ok st' → has_text p.
Proof.
  unfold single_step, getitem, has_text.
  destruct (p !! "text") as [[s|b]|]; simpl; try discriminate; eauto.
Qed.

Lemma single_loop_ok (self : MultiSourceVerifier) (query : string)
    (passages : list Passage) (st : Votes * list Detail) :
  Forall has_text passages →
  single_loop self query passages st
  = Ok (foldl add_vote st.1 (vote <$> (single_detail self query <$> passages)),
        st.2 ++ (single_detail self query <$> passages)).
Proof.
  intros H. revert st. induction H as [|p ps Hp _ IH]; intros st; simpl.
  - by rewrite app_nil_r; destruct st.
  - rewrite (single_step_ok _ _ _ _ Hp). simpl. rewrite IH. simpl.
    by rewrite <- app_assoc.
Qed.

Lemma single_loop_inv (self : MultiSourceVerifier) (query : string)
    (passages : list Passage) (st st' : Votes * list Detail) :
  single_loop self query passages st = Ok st' → Forall has_text passages.
Proof.
  revert st. induction passages as [|p ps IH]; intros st H; [constructor |].
  simpl in H. destruct (single_step self query st p) as [st1|e] eqn:H1;
    [| discriminate].
  constructor; [by eapply single_step_inv | by eapply IH].
Qed.

Lemma tally_cons (x : Vote) (d : Detail) (ds : list Detail) :
  tally x (d :: ds) = ((if decide (vote d = x) then 1 else 0) + tally x ds)%nat.
Proof. unfold tally. rewrite filter_cons. by destruct (decide (vote d = x)). Qed.

(** The counters after the loop are the start values plus the tallies. *)
Lemma foldl_add_vote (v : Votes) (ds : list Detail) :
  let v' := foldl add_vote v (vote <$> ds) in
  votes_entail v' = (votes_entail v + tally entail ds)%nat
  ∧ votes_contradict v' = (votes_contradict v + tally contradict ds)%nat
  ∧ votes_neutral v' = (votes_neutral v + tally neutral ds)%nat.
Proof.
  revert v. induction ds as [|d ds IH]; intros v; cbv zeta.
  - unfold tally; simpl. lia.
  - rewrite fmap_cons. cbn [foldl].
    destruct (IH (add_vote v (vote d))) as (H1 & H2 & H3).
    rewrite H1, H2, H3, !tally_cons.
    destruct (vote d); simpl; repeat case_decide; try done; lia.
Qed.

Lemma tally_total (ds : list Detail) :
  (tally entail ds + tally contradict ds + tally neutral ds)%nat = length ds.
Proof.
  induction ds as [|d ds IH]; [done |].
  rewrite !tally_cons. simpl.
  destruct (vote d); repeat case_decide; try done; lia.
Qed.


(** The result of single mode on passages that carry a text, with the
    counters, the conflict flag and the records it holds. *)
Lemma analyze_single_core (self : MultiSourceVerifier) (query : string)
    (passages : list Passage) :
  Forall has_text passages →
  ∃ vs : Votes,
    _analyze_single self query passages
    = Ok {| votes := Some vs;
            conflict :=
              Some (bool_decide (0 < votes_entail vs ∧ 0 < votes_contradict vs)%nat);
            support_strength :=
              Some (PyFloat.truediv (Z.of_nat (votes_entail vs))
                      (Z.max 1 (Z.of_nat (length passages))));
            contradiction_strength :=
              Some (PyFloat.truediv (Z.of_nat (votes_contradict vs))
                      (Z.max 1 (Z.of_nat (length passages))));
            details := Some (single_detail self query <$> passages) |}
    ∧ (votes_entail vs + votes_contradict vs + votes_neutral vs)%nat
      = length passages
    ∧ length (single_detail self query <$> passages) = length passages
    ∧ (∀ (i : nat) (p : Passage),
         passages !! i = Some p →
         (single_detail self query <$> passages) !! i
         = Some (single_detail self query p))
    ∧ votes_entail vs = tally entail (single_detail self query <$> passages)
    ∧ votes_contradict vs = tally contradict (single_detail self query <$> passages)
    ∧ votes_neutral vs = tally neutral (single_detail self query <$> passages).
Proof.
  intros Hall.
  pose proof (foldl_add_vote no_votes (single_detail self query <$> passages))
    as (He & Hc & Hn). simpl in He, Hc, Hn.
  eexists. split; [| split; [| split; [| split; [| split; [| split]]]]].
  - unfold _analyze_single. rewrite (single_loop_ok _ _ _ _ Hall). simpl.
    do 2 f_equal.
    match goal with |- context [bool_decide ?P] =>
      destruct (bool_decide_reflect P) as [[H1 H2]|Hn']
    end.
    + apply Nat.ltb_lt in H1, H2. by rewrite H1, H2.
    + apply not_and_l in Hn' as [H1|H1]; apply Nat.ltb_nlt in H1; rewrite H1;
        [done | by rewrite andb_false_r].
  - rewrite He, Hc, Hn, tally_total. by rewrite length_fmap.
  - by rewrite length_fmap.
  - intros i p Hi. by rewrite list_lookup_fmap, Hi.
  - exact He.
  - exact Hc.
  - exact Hn.
Qed.

(** C3: single-mode verification of passages that carry a text returns a
    result whose three vote counters add up to the number of passages;
    [conflict] holds exactly when both the entail and the contradict
    counter are positive; [support_strength] is [votes.entail] and
    [contradiction_strength] is [votes.contradict], each divided by
    [max(1, number of passages)]: the quotient of the primitive floats on
    the two counts converted (below [2^53], where the conversions are
    exact, it is the correctly rounded quotient of the integers); and
    [details] holds one record per passage in the order of the passages,
    the counters being the tallies of the recorded votes. On three
    passages of which one entails and two contradict, the strengths are
    0.3333333333333333 and 0.6666666666666666 and [conflict] holds; on no
    passage at all the counters and both strengths are zero. *)
Theorem analyze_single_spec (self : MultiSourceVerifier) (query : string)
    (passages : list Passage) :
  Forall has_text passages →
  ∃ vs : Votes,
    _analyze_single self query passages
    = Ok {| votes := Some vs;
            conflict :=
              Some (bool_decide (0 < votes_entail vs ∧ 0 < votes_contradict vs)%nat);
            support_strength :=
              Some (PyFloat.truediv (Z.of_nat (votes_entail vs))
                      (Z.max 1 (Z.of_nat (length passages))));
            contradiction_strength :=
              Some (PyFloat.truediv (Z.of_nat (votes_contradict vs))
                      (Z.max 1 (Z.of_nat (length passages))));
            details := Some (single_detail self query <$> passages) |}
    ∧ (votes_entail vs + votes_contradict vs + votes_neutral vs)%nat
      = length passages
    ∧ length (single_detail self query <$> passages) = length passages
    ∧ (∀ (i : nat) (p : Passage),
         passages !! i = Some p →
         (single_detail self query <$> passages) !! i
         = Some (single_detail self query p))
    ∧ votes_entail vs = tally entail (single_detail self query <$> passages)
    ∧ votes_contradict vs = tally contradict (single_detail self query <$> passages)
    ∧ votes_neutral vs = tally neutral (single_detail self query <$> passages)
    ∧ (Z.of_nat (length passages) < 2 ^ 53 →
       ∃ v : Verification Detail,
         _analyze_single self query passages = Ok v
         ∧ support_strength v
           = Some (PrimFloat.div
                     (PrimFloat.of_uint63 (Uint63.of_Z (Z.of_nat (votes_entail vs))))
                     (PrimFloat.of_uint63
                        (Uint63.of_Z (Z.max 1 (Z.of_nat (length passages))))))
         ∧ contradiction_strength v
           = Some (PrimFloat.div
                     (PrimFloat.of_uint63
                        (Uint63.of_Z (Z.of_nat (votes_contradict vs))))
                     (PrimFloat.of_uint63
                        (Uint63.of_Z (Z.max 1 (Z.of_nat (length passages)))))))
    ∧ (∃ v : Verification Detail,
         _analyze_single demo_verifier demo_query demo_three = Ok v
         ∧ votes v = Some (mkVotes 1 2 0)
         ∧ conflict v = Some true
         ∧ support_strength v = Some 0.3333333333333333%float
         ∧ contradiction_strength v = Some 0.6666666666666666%float)
    ∧ (∃ v : Verification Detail,
         _analyze_single demo_verifier demo_query [] = Ok v
         ∧ votes v = Some (mkVotes 0 0 0)
         ∧ conflict v = Some false
         ∧ support_strength v = Some 0.0%float
         ∧ contradiction_strength v = Some 0.0%float
         ∧ details v = Some []).
Proof.
  intros Hall.
  destruct (analyze_single_core self query passages Hall)
    as (vs & Hr & Hsum & Hlen & Hidx & He & Hc & Hn).
  exists vs. do 7 (split; [assumption |]). split.
  - intros Hsmall. eexists. split; [exact Hr |].
    assert (Hpow : 2 ^ 53 < 2 ^ 63) by done.
    cbn [support_strength contradiction_strength].
    rewrite !truediv_uint63 by lia. done.
  - split; eexists; (split; [reflexivity |]); by vm_compute.
Qed.

Lemma analyze_single_spec_witness :
  Forall has_text demo_passages
  ∧ ∃ v : Verification Detail,
      _analyze_single demo_verifier demo_query demo_passages = Ok v
      ∧ votes v = Some (mkVotes 1 1 0)
      ∧ conflict v = Some true
      ∧ support_strength v = Some 0.5%float
      ∧ contradiction_strength v = Some 0.5%float
      ∧ details v = Some (single_detail demo_verifier demo_query <$> demo_passages).
Proof.
  assert (H : Forall has_text demo_passages).
  { repeat constructor; eexists; reflexivity. }
  split; [exact H |].
  destruct (analyze_single_spec demo_verifier demo_query demo_passages H)
    as (vs & Hr & _ & _ & _ & He & Hc & Hn & _).
  destruct vs as [e c n].
  cbn [votes_entail votes_contradict votes_neutral] in He, Hc, Hn.
  vm_compute in He, Hc, Hn. subst e c n.
  eexists. split; [exact Hr |].
  cbn [votes conflict support_strength contradiction_strength details].
  split; [reflexivity |]. split; [reflexivity |].
  split; [by vm_compute |]. split; [by vm_compute |]. reflexivity.
Defined.

(** ** Metrics aggregator *)

(** The collected values of a metric are the values of exactly the rows
    that have the field, in row order. *)
Lemma metric_vals_present (results : list Row) (k : string) :
  Forall2 (λ (r : Row) (x : float), r !! k = Some x)
    (filter (λ r : Row, is_Some (r !! k)) results) (metric_vals results k).
Proof.
  unfold metric_vals. induction results as [|r rs IH]; simpl; [constructor |].
  rewrite filter_cons. destruct (r !! k) as [x|] eqn:Hr.
  - rewrite decide_True by eauto. by constructor.
  - rewrite decide_False by (by intros [? ?]). exact IH.
Qed.

Lemma aggregate_lookup (sum : list float → float) (results : list Row)
    (k : string) :
  aggregate sum results !! k
  = if decide (k ∈ metric_keys) then
      match metric_vals results k with
      | [] => None
      | vals => Some (mean sum vals)
      end
    else None.
Proof.
  unfold aggregate. destruct results as [|r rs].
  { rewrite lookup_empty. by case_decide. }
  set (results := r :: rs). unfold metric_keys. cbn [fold_left].
  unfold aggregate_step.
  destruct (decide (k = "acc")) as [->|H1];
    [| destruct (decide (k = "hallucination")) as [->|H2];
       [| destruct (decide (k = "self_consistency")) as [->|H3]]].
  - rewrite decide_True by set_solver.
    destruct (metric_vals results "acc"), (metric_vals results "hallucination"),
      (metric_vals results "self_consistency"); by simplify_map_eq.
  - rewrite decide_True by set_solver.
    destruct (metric_vals results "acc"), (metric_vals results "hallucination"),
      (metric_vals results "self_consistency"); by simplify_map_eq.
  - rewrite decide_True by set_solver.
    destruct (metric_vals results "acc"), (metric_vals results "hallucination"),
      (metric_vals results "self_consistency"); by simplify_map_eq.
  - rewrite decide_False by (rewrite !elem_of_cons, elem_of_nil; tauto).
    destruct (metric_vals results "acc"), (metric_vals results "hallucination"),
      (metric_vals results "self_consistency"); by simplify_map_eq.
Qed.

(** C9: for every list of result rows and every key, the aggregate holds,
    for each of the three tracked metrics [acc], [hallucination] and
    [self_consistency], the sum of the values of exactly the rows that
    have the field, as the interpreter's [sum] gives it, divided by the
    number of those rows converted to a float; a tracked metric that no
    row has, and any other key, is absent from the result. The empty row
    list gives the empty mapping, and
    [aggregate([{acc:1.0},{acc:0.0},{hallucination:1.0}])] is
    [{acc: 0.5, hallucination: 1.0}]. Four rows of [acc] 0.0 give 0.0;
    [acc] values 1, 1, 1, 0 give 0.75; and [self_consistency] values 0.2,
    0.4, 0.6, whose sum is not exact, give 0.4000000000000001 under the
    summation of CPython up to 3.11 and 0.39999999999999997 under the
    compensated summation of 3.12 and later. *)
Theorem aggregate_spec :
  (∀ (sum : list float → float) (results : list Row) (k : string),
     ∃ vals : list float,
       Forall2 (λ (r : Row) (x : float), r !! k = Some x)
         (filter (λ r : Row, is_Some (r !! k)) results) vals
       ∧ aggregate sum results !! k
         = if decide (k ∈ ["acc"; "hallucination"; "self_consistency"]) then
             match vals with
             | [] => None
             | _ => Some (PrimFloat.div (sum vals)
                            (PyFloat.of_int (Z.of_nat (length vals))))
             end
           else None)
  ∧ (∀ z : Z,
       0 ≤ z < 2 ^ 63 → PyFloat.of_int z = PrimFloat.of_uint63 (Uint63.of_Z z))
  ∧ (∀ vals : list float,
       PyFloat.sum vals = fold_left PrimFloat.add vals 0%float)
  ∧ (∀ sum : list float → float, aggregate sum [] = ∅)
  ∧ aggregate PyFloat.sum demo_rows
    = {[ "acc" := 0.5%float; "hallucination" := 1.0%float ]}
  ∧ (λ k : string, aggregate PyFloat.sum_compensated demo_rows !! k)
      <$> ["acc"; "hallucination"; "self_consistency"]
    = [Some 0.5%float; Some 1.0%float; None]
  ∧ (λ k : string, aggregate PyFloat.sum demo_rows_zero !! k)
      <$> ["acc"; "hallucination"; "self_consistency"]
    = [Some 0.0%float; None; None]
  ∧ (λ k : string, aggregate PyFloat.sum_compensated demo_rows_zero !! k)
      <$> ["acc"; "hallucination"; "self_consistency"]
    = [Some 0.0%float; None; None]
  ∧ (λ k : string, aggregate PyFloat.sum demo_rows_mixed !! k)
      <$> ["acc"; "hallucination"; "self_consistency"]
    = [Some 0.75%float; None; Some 0.4000000000000001%float]
  ∧ (λ k : string, aggregate PyFloat.sum_compensated demo_rows_mixed !! k)
      <$> ["acc"; "hallucination"; "self_consistency"]
    = [Some 0.75%float; None; Some 0.39999999999999997%float].
Proof.
  split.
  { intros sum results k. exists (metric_vals results k).
    split; [apply metric_vals_present |].
    rewrite aggregate_lookup. fold metric_keys. case_decide; [| done].
    by destruct (metric_vals results k). }
  split; [exact of_int_uint63 |].
  split; [done |]. split; [done |].
  repeat split; by vm_compute.
Qed.

(** ** Poison injector *)

(** *** The in-place loop *)

Lemma poison_loop_inv (f : Passage → Result Passage) (idxs : list nat)
    (out out' : list Passage) :
  NoDup idxs →
  poison_loop f idxs out = Ok out' →
  length out' = length out
  ∧ (∀ i : nat, i ∉ idxs → out' !! i = out !! i)
  ∧ (∀ i : nat, i ∈ idxs →
       ∃ p p' : Passage, out !! i = Some p ∧ f p = Ok p' ∧ out' !! i = Some p').
Proof.
  intros Hnd. revert out. induction Hnd as [|i rest Hi Hnd IH]; intros out H.
  - simpl in H. injection H as <-. split; [done |]. split; [done |].
    intros i Hi. by apply elem_of_nil in Hi.
  - simpl in H. destruct (out !! i) as [p|] eqn:Hp; [| discriminate].
    destruct (f p) as [p'|e] eqn:Hf; [| discriminate]. simpl in H.
    destruct (IH _ H) as (Hlen & Hout & Hin).
    rewrite length_insert in Hlen.
    split; [done |]. split.
    + intros j Hj. apply not_elem_of_cons in Hj as [Hji Hj].
      rewrite (Hout j Hj). by apply list_lookup_insert_ne.
    + intros j Hj. apply elem_of_cons in Hj as [->|Hj].
      * exists p, p'. split; [done |]. split; [done |].
        rewrite (Hout i Hi). apply list_lookup_insert_eq.
        by eapply lookup_lt_Some.
      * destruct (Hin j Hj) as (q & q' & Hq & Hfq & Hq').
        assert (i ≠ j) by (intros ->; done).
        rewrite list_lookup_insert_ne in Hq by done. eauto.
Qed.

Lemma poison_loop_ok (f : Passage → Result Passage) (idxs : list nat)
    (out : list Passage) :
  NoDup idxs →
  (∀ i : nat, i ∈ idxs → ∃ p p' : Passage, out !! i = Some p ∧ f p = Ok p') →
  ∃ out' : list Passage, poison_loop f idxs out = Ok out'.
Proof.
  intros Hnd. revert out. induction Hnd as [|i rest Hi Hnd IH]; intros out H.
  - by eexists.
  - destruct (H i) as (p & p' & Hp & Hf); [by left |].
    simpl. rewrite Hp, Hf. simpl. apply IH.
    intros j Hj. destruct (H j) as (q & q' & Hq & Hfq); [by right |].
    assert (i ≠ j) by (intros ->; done).
    exists q, q'. by rewrite list_lookup_insert_ne.
Qed.

(** *** One corrupted passage *)

Section PoisonFacts.

Variable make_contradictory_passage : string → string.
Variable sample : Z → nat → nat → list nat.

Lemma poison_retrieved_at_fields (p p' : Passage) :
  poison_retrieved_at make_contradictory_passage p = Ok p' →
  ∃ s d : string,
    p !! "text" = Some (VStr s)
    ∧ p !! "doc_id" = Some (VStr d)
    ∧ p' !! "text" = Some (VStr (make_contradictory_passage s))
    ∧ p' !! "is_poison" = Some (VBool true)
    ∧ p' !! "source" = Some (VStr "poison")
    ∧ p' !! "doc_id" = Some (VStr (d +:+ "__POISON"))
    ∧ ∀ k : string,
        k ∉ ["text"; "is_poison"; "source"; "doc_id"] → p' !! k = p !! k.
Proof.
  unfold poison_retrieved_at, getitem.
  destruct (p !! "text") as [[s|b]|] eqn:Ht; simpl; try discriminate.
  rewrite !lookup_insert_ne by done.
  destruct (p !! "doc_id") as [[d|b]|] eqn:Hd; simpl; try discriminate.
  intros [= <-]. exists s, d.
  repeat split; try (by simplify_map_eq).
  intros k Hk. rewrite !not_elem_of_cons in Hk.
  destruct Hk as (? & ? & ? & ? & _). by rewrite !lookup_insert_ne.
Qed.

Lemma poison_retrieved_at_ok (p : Passage) :
  poisonable p →
  ∃ p' : Passage, poison_retrieved_at make_contradictory_passage p = Ok p'.
Proof.
  intros [[s Hs] [d Hd]]. unfold poison_retrieved_at, getitem.
  rewrite Hs. simpl. rewrite !lookup_insert_ne by done. rewrite Hd. simpl.
  by eexists.
Qed.

Lemma poison_corpus_at_fields (p p' : Passage) :
  poison_corpus_at make_contradictory_passage p = Ok p' →
  ∃ s d : string,
    get p "text" (VStr "") = VStr s
    ∧ get p "doc_id" (VStr "") = VStr d
    ∧ p' !! "text" = Some (VStr (make_contradictory_passage s))
    ∧ p' !! "is_poison" = Some (VStr "1")
    ∧ p' !! "doc_id" = Some (VStr (d +:+ "__POISON"))
    ∧ ∀ k : string,
        k ∉ ["text"; "is_poison"; "doc_id"] → p' !! k = p !! k.
Proof.
  unfold poison_corpus_at.
  destruct (get p "text" (VStr "")) as [s|b] eqn:Ht; simpl; try discriminate.
  unfold get at 1. rewrite !lookup_insert_ne by done.
  fold (get p "doc_id" (VStr "")).
  destruct (get p "doc_id" (VStr "")) as [d|b] eqn:Hd; simpl; try discriminate.
  intros [= <-]. exists s, d.
  repeat split; try (by simplify_map_eq).
  intros k Hk. rewrite !not_elem_of_cons in Hk.
  destruct Hk as (? & ? & ? & _). by rewrite !lookup_insert_ne.
Qed.

Lemma poison_corpus_at_ok (p : Passage) :
  corpus_poisonable p →
  ∃ p' : Passage, poison_corpus_at make_contradictory_passage p = Ok p'.
Proof.
  intros [[s Hs] [d Hd]]. unfold poison_corpus_at.
  rewrite Hs. simpl. unfold get at 1. rewrite !lookup_insert_ne by done.
  fold (get p "doc_id" (VStr "")). rewrite Hd. simpl. by eexists.
Qed.

(** *** The number of indices drawn *)

Lemma sample_size_retrieved_eq (n : nat) (rate : float) (t : Z) :
  py_int (PrimFloat.mul (PyFloat.of_int (Z.of_nat n)) rate) = Ok t →
  sample_size_retrieved n rate
  = Ok (Z.to_nat (Z.min (Z.max 1 t) (Z.of_nat n))).
Proof.
  intros Ht. unfold sample_size_retrieved. rewrite Ht. simpl.
  do 2 f_equal. lia.
Qed.

Lemma sample_size_corpus_eq (n : nat) (rate : float) (t : Z) :
  py_int (PrimFloat.mul (PyFloat.of_int (Z.of_nat n)) rate) = Ok t →
  sample_size_corpus n rate = Ok (Z.to_nat (Z.min t (Z.of_nat n))).
Proof.
  intros Ht. unfold sample_size_corpus. rewrite Ht. simpl.
  f_equal. lia.
Qed.

Lemma sample_size_retrieved_le (n k : nat) (rate : float) :
  sample_size_retrieved n rate = Ok k → (k ≤ n)%nat.
Proof.
  unfold sample_size_retrieved.
  destruct (py_int _) as [t|e]; simpl; [| discriminate].
  intros [= <-]. lia.
Qed.

Lemma sample_size_corpus_le (n k : nat) (rate : float) :
  sample_size_corpus n rate = Ok k → (k ≤ n)%nat.
Proof.
  unfold sample_size_corpus.
  destruct (py_int _) as [t|e]; simpl; [| discriminate].
  intros [= <-]. lia.
Qed.

End PoisonFacts.

(** *** The two application points *)

Section PoisonPoints.

Variable make_contradictory_passage : string → string.
Variable sample : Z → nat → nat → list nat.
Hypothesis sample_ok : sampler_spec sample.

Lemma poisonable_unmarked (p : Passage) :
  poisonable p → poisonable (<["is_poison" := VBool false]> p).
Proof.
  intros [[s Hs] [d Hd]]. split; [exists s | exists d];
    by rewrite lookup_insert_ne.
Qed.

Lemma inject_spec (retrieved : list Passage) (rate : float) (seed : Z) (k : nat) :
  Forall poisonable retrieved →
  sample_size_retrieved (length retrieved) rate = Ok k →
  ∃ out : list Passage,
    inject_synthetic_poison make_contradictory_passage sample retrieved rate seed
    = Ok out
    ∧ length out = length retrieved
    ∧ (∀ (i : nat) (p : Passage),
         i ∉ sample seed (length retrieved) k →
         retrieved !! i = Some p →
         out !! i = Some (<["is_poison" := VBool false]> p))
    ∧ (∀ i : nat,
         i ∈ sample seed (length retrieved) k →
         ∃ p p' : Passage,
           retrieved !! i = Some p
           ∧ out !! i = Some p'
           ∧ poison_retrieved_at make_contradictory_passage
               (<["is_poison" := VBool false]> p) = Ok p').
Proof.
  intros Hall Hk. unfold inject_synthetic_poison.
  rewrite length_fmap, Hk. simpl.
  destruct (sample_ok seed (length retrieved) k) as (Hlen & Hnd & Hlt);
    [by eapply sample_size_retrieved_le |].
  set (out0 := (λ p : Passage, <["is_poison" := VBool false]> p) <$> retrieved).
  assert (Hsel : ∀ i : nat, i ∈ sample seed (length retrieved) k →
            ∃ p : Passage, retrieved !! i = Some p
              ∧ out0 !! i = Some (<["is_poison" := VBool false]> p)
              ∧ poisonable p).
  { intros i Hi. destruct (lookup_lt_is_Some_2 retrieved i (Hlt i Hi)) as [p Hp].
    exists p. split; [done |]. split.
    - unfold out0. by rewrite list_lookup_fmap, Hp.
    - eapply Forall_lookup_1; eauto. }
  destruct (poison_loop_ok
              (poison_retrieved_at make_contradictory_passage)
              (sample seed (length retrieved) k) out0 Hnd) as [out Hout].
  { intros i Hi. destruct (Hsel i Hi) as (p & Hp & Hp0 & Hpp).
    destruct (poison_retrieved_at_ok make_contradictory_passage _
                (poisonable_unmarked p Hpp)) as [p' Hp'].
    eauto. }
  exists out. split; [done |].
  destruct (poison_loop_inv _ _ _ _ Hnd Hout) as (Hl & Hun & Hin).
  split; [by rewrite Hl; unfold out0; rewrite length_fmap |]. split.
  - intros i p Hi Hp. rewrite (Hun i Hi). unfold out0.
    by rewrite list_lookup_fmap, Hp.
  - intros i Hi. destruct (Hin i Hi) as (q & q' & Hq & Hf & Hq').
    destruct (Hsel i Hi) as (p & Hp & Hp0 & _).
    rewrite Hp0 in Hq. injection Hq as <-. eauto.
Qed.

Lemma corpus_spec (self : Poisoner) (corpus : list Passage) (k : nat) :
  PyFloat.gt (rate self) 0%float = true →
  Forall corpus_poisonable corpus →
  sample_size_corpus (length corpus) (rate self) = Ok k →
  ∃ out : list Passage,
    apply_to_corpus make_contradictory_passage sample self corpus = Ok out
    ∧ length out = length corpus
    ∧ (∀ i : nat,
         i ∉ sample (seed self) (length corpus) k → out !! i = corpus !! i)
    ∧ (∀ i : nat,
         i ∈ sample (seed self) (length corpus) k →
         ∃ p p' : Passage,
           corpus !! i = Some p
           ∧ out !! i = Some p'
           ∧ poison_corpus_at make_contradictory_passage p = Ok p').
Proof.
  intros Hr Hall Hk. unfold apply_to_corpus.
  change (PyFloat.of_int 0) with 0%float.
  rewrite (gt_not_le _ _ Hr), Hk. simpl.
  destruct (sample_ok (seed self) (length corpus) k) as (Hlen & Hnd & Hlt);
    [by eapply sample_size_corpus_le |].
  destruct (poison_loop_ok
              (poison_corpus_at make_contradictory_passage)
              (sample (seed self) (length corpus) k) corpus Hnd) as [out Hout].
  { intros i Hi. destruct (lookup_lt_is_Some_2 corpus i (Hlt i Hi)) as [p Hp].
    destruct (poison_corpus_at_ok make_contradictory_passage p) as [p' Hp'];
      [by eapply Forall_lookup_1; eauto |].
    eauto. }
  exists out. split; [done |].
  destruct (poison_loop_inv _ _ _ _ Hnd Hout) as (Hl & Hun & Hin).
  split; [done |]. split; [done |].
  intros i Hi. destruct (Hin i Hi) as (q & q' & Hq & Hf & Hq'). eauto.
Qed.

Lemma apply_contradictory (self : Poisoner) (retrieved : list Passage) :
  PyFloat.gt (rate self) 0%float = true →
  strategy self = "contradictory_passage" →
  apply make_contradictory_passage sample self retrieved
  = inject_synthetic_poison make_contradictory_passage sample retrieved
      (rate self) (seed self).
Proof.
  intros Hr Hs. unfold apply. change (PyFloat.of_int 0) with 0%float.
  by rewrite (gt_not_le _ _ Hr), Hs.
Qed.

End PoisonPoints.

Lemma demo_sample_ok : sampler_spec demo_sample.
Proof.
  intros seed n k Hk. unfold demo_sample.
  split; [apply length_seq |]. split; [apply NoDup_seq |].
  intros i Hi. apply elem_of_seq in Hi. lia.
Qed.

(** C5 (as the code has it): for [N > 0] passages and a poison rate
    [r > 0] whose product [N * r] is a finite float truncated by [int] to
    [t], the retrieval-set injector draws exactly
    [n = min(N, max(1, t))] distinct indices below [N] (so at least one),
    and the passages it marks are exactly those; the corpus injector draws
    exactly [min(N, t)] distinct indices, possibly none, and marks them.
    The indices are [sample(seed, N, n)] of a sampler seeded afresh with
    the stored seed, a function of the seed, the rate and [N] alone. With
    rate 0.3 and [N = 10] the count is 3. *)
Theorem poison_selection (make_contradictory_passage : string → string)
    (sample : Z → nat → nat → list nat) (self : Poisoner)
    (passages : list Passage) (t : Z) :
  sampler_spec sample →
  passages ≠ [] →
  PyFloat.gt (rate self) 0%float = true →
  py_int (PrimFloat.mul (PyFloat.of_int (Z.of_nat (length passages))) (rate self))
  = Ok t →
  let N := length passages in
  let n_retrieved := Z.to_nat (Z.min (Z.max 1 t) (Z.of_nat N)) in
  let n_corpus := Z.to_nat (Z.min t (Z.of_nat N)) in
  let drawn := selected_retrieved sample (seed self) N (rate self) in
  let drawn_corpus := selected_corpus sample (seed self) N (rate self) in
  (1 ≤ n_retrieved ≤ N)%nat
  ∧ drawn = sample (seed self) N n_retrieved
  ∧ length drawn = n_retrieved
  ∧ NoDup drawn
  ∧ (∀ i : nat, i ∈ drawn → (i < N)%nat)
  ∧ (strategy self = "contradictory_passage" →
     Forall poisonable passages →
     ∃ out : list Passage,
       apply make_contradictory_passage sample self passages = Ok out
       ∧ ∀ i : nat,
           i ∈ drawn
           ↔ ∃ p' : Passage,
               out !! i = Some p' ∧ p' !! "is_poison" = Some (VBool true))
  ∧ (n_corpus ≤ N)%nat
  ∧ drawn_corpus = sample (seed self) N n_corpus
  ∧ length drawn_corpus = n_corpus
  ∧ NoDup drawn_corpus
  ∧ (∀ i : nat, i ∈ drawn_corpus → (i < N)%nat)
  ∧ (Forall corpus_poisonable passages →
     ∃ out : list Passage,
       apply_to_corpus make_contradictory_passage sample self passages = Ok out
       ∧ ∀ i : nat,
           i ∈ drawn_corpus →
           ∃ p' : Passage,
             out !! i = Some p' ∧ p' !! "is_poison" = Some (VStr "1"))
  ∧ sample_size_retrieved 10 0.3%float = Ok 3%nat
  ∧ length (selected_retrieved sample 7 10 0.3%float) = 3%nat.
Proof.
  intros Hs Hne Hr Ht N n_r n_c drawn drawn_c.
  assert (HN : (0 < N)%nat) by (subst N; destruct passages; simpl; [done | lia]).
  pose proof (sample_size_retrieved_eq _ _ _ Ht) as Hk. fold N n_r in Hk.
  pose proof (sample_size_corpus_eq _ _ _ Ht) as Hkc.
  replace (Z.to_nat (Z.min t (Z.of_nat (length passages)))) with n_c in Hkc
    by done.
  fold N in Hkc.
  assert (Hd : drawn = sample (seed self) N n_r).
  { subst drawn. unfold selected_retrieved. by rewrite Hk. }
  assert (Hdc : drawn_c = sample (seed self) N n_c).
  { subst drawn_c. unfold selected_corpus. by rewrite Hkc. }
  destruct (Hs (seed self) N n_r) as (Hlen & Hnd & Hlt); [lia |].
  destruct (Hs (seed self) N n_c) as (Hlenc & Hndc & Hltc); [lia |].
  rewrite Hd, Hdc.
  split; [lia |]. split; [done |]. split; [done |]. split; [done |].
  split; [done |]. split.
  { intros Hst Hall. rewrite (apply_contradictory _ _ _ _ Hr Hst).
    destruct (inject_spec make_contradictory_passage sample Hs passages
                (rate self) (seed self) n_r Hall Hk)
      as (out & Ho & Hl & Hun & Hin).
    exists out. split; [done |]. intros i. split.
    - intros Hi. destruct (Hin i Hi) as (p & p' & Hp & Hp' & Hf).
      apply poison_retrieved_at_fields in Hf
        as (s & d & _ & _ & _ & Hm & _).
      eauto.
    - intros (p' & Hp' & Hm).
      destruct (decide (i ∈ sample (seed self) N n_r)) as [Hi|Hi]; [done |].
      destruct (lookup_lt_is_Some_2 passages i) as [p Hp].
      { rewrite <- Hl. by eapply lookup_lt_Some. }
      rewrite (Hun i p Hi Hp) in Hp'. injection Hp' as <-.
      by rewrite lookup_insert_eq in Hm. }
  split; [lia |]. split; [done |]. split; [done |]. split; [done |].
  split; [done |]. split.
  { intros Hall.
    destruct (corpus_spec make_contradictory_passage sample Hs self passages
                n_c Hr Hall Hkc) as (out & Ho & Hl & Hun & Hin).
    exists out. split; [done |]. intros i Hi.
    destruct (Hin i Hi) as (p & p' & Hp & Hp' & Hf).
    apply poison_corpus_at_fields in Hf as (s & d & _ & _ & _ & Hm & _).
    eauto. }
  assert (H3 : sample_size_retrieved 10 0.3%float = Ok 3%nat) by (by vm_compute).
  split; [done |].
  unfold selected_retrieved. rewrite H3.
  by destruct (Hs 7 10%nat 3%nat) as (? & _); [lia |].
Qed.

Lemma poison_selection_witness :
  sampler_spec demo_sample
  ∧ demo_passages ≠ []
  ∧ PyFloat.gt (rate demo_poisoner) 0%float = true
  ∧ py_int (PrimFloat.mul (PyFloat.of_int 2) (rate demo_poisoner)) = Ok 0
  ∧ Forall poisonable demo_passages
  ∧ selected_retrieved demo_sample 7 2 0.3%float = [0%nat]
  ∧ ∃ out : list Passage,
      apply demo_negate demo_sample demo_poisoner demo_passages = Ok out
      ∧ ∀ i : nat,
          i ∈ selected_retrieved demo_sample 7 2 0.3%float
          ↔ ∃ p' : Passage,
              out !! i = Some p' ∧ p' !! "is_poison" = Some (VBool true).
Proof.
  assert (H1 : sampler_spec demo_sample) by exact demo_sample_ok.
  assert (H2 : demo_passages ≠ []) by discriminate.
  assert (H3 : PyFloat.gt (rate demo_poisoner) 0%float = true) by reflexivity.
  assert (H4 : py_int (PrimFloat.mul (PyFloat.of_int 2) (rate demo_poisoner))
               = Ok 0) by reflexivity.
  assert (H5 : Forall poisonable demo_passages).
  { repeat constructor; eexists; reflexivity. }
  destruct (poison_selection demo_negate demo_sample demo_poisoner
              demo_passages 0 H1 H2 H3 H4)
    as (_ & Hd & _ & _ & _ & Happ & _).
  do 5 (split; [assumption |]).
  split; [exact Hd |]. exact (Happ eq_refl H5).
Defined.

(** The count of the code against the count of the claim,
    [max(1, round(r * N))]: at rate 0.26 the retrieval-set injector asks
    for 2 of 10 indices where rounding gives 3, and at rate 0.01 the corpus
    injector asks for none where the claim gives 1; on two passages at rate
    0.9 it corrupts one where rounding gives 2. *)
Lemma poison_selection_truncates :
  sample_size_retrieved 10 0.26%float = Ok 2%nat
  ∧ (t ← py_round (PrimFloat.mul (PyFloat.of_int 10) 0.26%float);
     Ok (Z.max 1 t)) = Ok 3
  ∧ sample_size_corpus 10 0.01%float = Ok 0%nat
  ∧ (t ← py_round (PrimFloat.mul (PyFloat.of_int 10) 0.01%float);
     Ok (Z.max 1 t)) = Ok 1
  ∧ (t ← py_round (PrimFloat.mul (PyFloat.of_int 2) 0.9%float);
     Ok (Z.max 1 t)) = Ok 2
  ∧ (∃ out : list Passage,
       apply demo_negate demo_sample
         {| strategy := "contradictory_passage"; rate := 0.9%float; seed := 7 |}
         demo_passages = Ok out
       ∧ (λ p : Passage, p !! "is_poison") <$> out
         = [Some (VBool true); Some (VBool false)]).
Proof.
  split; [by vm_compute |]. split; [by vm_compute |].
  split; [by vm_compute |]. split; [by vm_compute |].
  split; [by vm_compute |].
  eexists. split; [reflexivity |]. by vm_compute.
Qed.

(** C7 (as the code has it): when the retrieval-set injector runs with a
    rate above zero, every passage at an index that was not drawn appears
    in the output with [is_poison] set to [False] and every other field as
    in the input; every drawn passage has its [text], [is_poison],
    [source] and [doc_id] rewritten and every other field as in the input;
    the output has the length of the input. At the corpus level the
    passages that were not drawn are identical to the input. *)
Theorem poison_frame (make_contradictory_passage : string → string)
    (sample : Z → nat → nat → list nat) (self : Poisoner)
    (retrieved : list Passage) (k : nat) :
  sampler_spec sample →
  strategy self = "contradictory_passage" →
  PyFloat.gt (rate self) 0%float = true →
  Forall poisonable retrieved →
  sample_size_retrieved (length retrieved) (rate self) = Ok k →
  let drawn := selected_retrieved sample (seed self) (length retrieved) (rate self) in
  (∃ out : list Passage,
     apply make_contradictory_passage sample self retrieved = Ok out
     ∧ length out = length retrieved
     ∧ (∀ (i : nat) (p : Passage),
          i ∉ drawn →
          retrieved !! i = Some p →
          ∃ p' : Passage,
            out !! i = Some p'
            ∧ p' !! "is_poison" = Some (VBool false)
            ∧ ∀ key : string, key ≠ "is_poison" → p' !! key = p !! key)
     ∧ (∀ (i : nat) (p : Passage),
          i ∈ drawn →
          retrieved !! i = Some p →
          ∃ (p' : Passage) (s d : string),
            out !! i = Some p'
            ∧ p !! "text" = Some (VStr s)
            ∧ p !! "doc_id" = Some (VStr d)
            ∧ p' !! "text" = Some (VStr (make_contradictory_passage s))
            ∧ p' !! "is_poison" = Some (VBool true)
            ∧ p' !! "source" = Some (VStr "poison")
            ∧ p' !! "doc_id" = Some (VStr (d +:+ "__POISON"))
            ∧ ∀ key : string,
                key ∉ ["text"; "is_poison"; "source"; "doc_id"] →
                p' !! key = p !! key))
  ∧ (∀ (corpus : list Passage) (kc : nat),
       Forall corpus_poisonable corpus →
       sample_size_corpus (length corpus) (rate self) = Ok kc →
       ∃ out : list Passage,
         apply_to_corpus make_contradictory_passage sample self corpus = Ok out
         ∧ length out = length corpus
         ∧ ∀ i : nat,
             i ∉ selected_corpus sample (seed self) (length corpus) (rate self) →
             out !! i = corpus !! i).
Proof.
  intros Hs Hst Hr Hall Hk drawn. split.
  - rewrite (apply_contradictory _ _ _ _ Hr Hst).
    destruct (inject_spec make_contradictory_passage sample Hs retrieved
                (rate self) (seed self) k Hall Hk)
      as (out & Ho & Hl & Hun & Hin).
    subst drawn. unfold selected_retrieved. rewrite Hk.
    exists out. split; [done |]. split; [done |]. split.
    + intros i p Hi Hp. eexists. split; [by apply Hun |].
      split; [by rewrite lookup_insert_eq |].
      intros key Hkey. by rewrite lookup_insert_ne.
    + intros i p Hi Hp. destruct (Hin i Hi) as (q & p' & Hq & Hp' & Hf).
      rewrite Hp in Hq. injection Hq as <-.
      apply poison_retrieved_at_fields in Hf
        as (s & d & Ht & Hd & H1 & H2 & H3 & H4 & Hrest).
      rewrite lookup_insert_ne in Ht, Hd by done.
      exists p', s, d. repeat (split; [done |]).
      intros key Hkey. rewrite (Hrest key Hkey).
      rewrite !not_elem_of_cons in Hkey. destruct Hkey as (_ & ? & _).
      by rewrite lookup_insert_ne.
  - intros corpus kc Hallc Hkc.
    destruct (corpus_spec make_contradictory_passage sample Hs self corpus
                kc Hr Hallc Hkc) as (out & Ho & Hl & Hun & _).
    exists out. split; [done |]. split; [done |].
    unfold selected_corpus. by rewrite Hkc.
Qed.

Lemma poison_frame_witness :
  sampler_spec demo_sample
  ∧ strategy demo_poisoner = "contradictory_passage"
  ∧ PyFloat.gt (rate demo_poisoner) 0%float = true
  ∧ Forall poisonable demo_passages
  ∧ sample_size_retrieved 2 (rate demo_poisoner) = Ok 1%nat
  ∧ ∃ out : list Passage,
      apply demo_negate demo_sample demo_poisoner demo_passages = Ok out
      ∧ length out = 2%nat.
Proof.
  assert (H1 : sampler_spec demo_sample) by exact demo_sample_ok.
  assert (H2 : strategy demo_poisoner = "contradictory_passage") by reflexivity.
  assert (H3 : PyFloat.gt (rate demo_poisoner) 0%float = true) by reflexivity.
  assert (H4 : Forall poisonable demo_passages).
  { repeat constructor; eexists; reflexivity. }
  assert (H5 : sample_size_retrieved (length demo_passages) (rate demo_poisoner)
               = Ok 1%nat) by reflexivity.
  destruct (poison_frame demo_negate demo_sample demo_poisoner demo_passages
              1 H1 H2 H3 H4 H5) as [(out & Ho & Hl & _) _].
  do 4 (split; [assumption |]). split; [exact H5 |].
  exists out. split; [exact Ho | exact Hl].
Defined.

(** The passage that was not drawn does not come back field for field:
    on two passages without an [is_poison] field, one of which is drawn,
    the other gains [is_poison = False], whatever the sampler. *)
Lemma poison_frame_marks_unselected :
  (∃ out : list Passage,
     apply demo_negate demo_sample demo_poisoner demo_passages = Ok out
     ∧ (1%nat ∉ selected_retrieved demo_sample 7 2 0.3%float)
     ∧ (demo_passages !! 1%nat) ≫= (λ p : Passage, p !! "is_poison") = None
     ∧ (out !! 1%nat) ≫= (λ p : Passage, p !! "is_poison")
       = Some (VBool false))
  ∧ (∀ (make_contradictory_passage : string → string)
       (sample : Z → nat → nat → list nat),
       sampler_spec sample →
       ∃ (out : list Passage) (i : nat) (p p' : Passage),
         apply make_contradictory_passage sample demo_poisoner demo_passages
         = Ok out
         ∧ (i ∉ selected_retrieved sample 7 2 0.3%float)
         ∧ demo_passages !! i = Some p
         ∧ out !! i = Some p'
         ∧ p' ≠ p).
Proof.
  split.
  - eexists. split; [reflexivity |].
    split; [by vm_compute; intros ?%list_elem_of_singleton |].
    split; by vm_compute.
  - intros mcp sample Hs.
    assert (Hall : Forall poisonable demo_passages).
    { repeat constructor; eexists; reflexivity. }
    assert (Hk : sample_size_retrieved (length demo_passages) 0.3%float
                 = Ok 1%nat) by reflexivity.
    destruct (inject_spec mcp sample Hs demo_passages 0.3%float 7 1 Hall Hk)
      as (out & Ho & Hl & Hun & _).
    change (length demo_passages) with 2%nat in Hun.
    destruct (Hs 7 2%nat 1%nat) as (Hlen & _ & _); [lia |].
    assert (Hsel : selected_retrieved sample 7 2 0.3%float = sample 7 2%nat 1%nat)
      by reflexivity.
    destruct (sample 7 2%nat 1%nat) as [|j [|? ?]] eqn:Hd; try discriminate.
    assert (Hi : ∃ i : nat, (i < 2)%nat ∧ i ≠ j).
    { destruct j; [exists 1%nat | exists 0%nat]; split; lia. }
    destruct Hi as (i & Hi2 & Hij).
    destruct (lookup_lt_is_Some_2 demo_passages i Hi2) as [p Hp].
    assert (Hni : i ∉ [j]) by (by intros ?%list_elem_of_singleton).
    exists out, i, p, (<["is_poison" := VBool false]> p).
    split; [exact Ho |]. rewrite Hsel. split; [done |]. split; [done |].
    split; [by apply (Hun i p) |].
    intros Heq.
    assert (Hnone : p !! "is_poison" = None).
    { destruct i as [|[|i]]; simpl in Hp; [| | lia];
        injection Hp as <-; reflexivity. }
    rewrite <- Heq, lookup_insert_eq in Hnone. discriminate.
Qed.

(** C10: the two application points mark a corrupted passage differently.
    Every passage drawn by the retrieval-set injector
    ([Poisoner.apply] with the [contradictory_passage] strategy) carries
    [is_poison = True], a boolean, and [source = "poison"]; every passage
    drawn by the corpus injector ([Poisoner.apply_to_corpus]) carries
    [is_poison = "1"], a string, and its [source] field is the one of the
    input, absent where the input had none. *)
Theorem poison_markers (make_contradictory_passage : string → string)
    (sample : Z → nat → nat → list nat) (self : Poisoner)
    (passages out : list Passage) :
  sampler_spec sample →
  PyFloat.gt (rate self) 0%float = true →
  (strategy self = "contradictory_passage" →
   apply make_contradictory_passage sample self passages = Ok out →
   ∀ i : nat,
     i ∈ selected_retrieved sample (seed self) (length passages) (rate self) →
     ∃ p' : Passage,
       out !! i = Some p'
       ∧ p' !! "is_poison" = Some (VBool true)
       ∧ p' !! "source" = Some (VStr "poison"))
  ∧ (apply_to_corpus make_contradictory_passage sample self passages = Ok out →
     ∀ i : nat,
       i ∈ selected_corpus sample (seed self) (length passages) (rate self) →
       ∃ p p' : Passage,
         passages !! i = Some p
         ∧ out !! i = Some p'
         ∧ p' !! "is_poison" = Some (VStr "1")
         ∧ p' !! "source" = p !! "source").
Proof.
  intros Hs Hr. split.
  - intros Hst. rewrite (apply_contradictory _ _ _ _ Hr Hst).
    unfold inject_synthetic_poison, selected_retrieved.
    rewrite length_fmap.
    destruct (sample_size_retrieved (length passages) (rate self))
      as [k|e] eqn:Hk; [| discriminate].
    simpl. intros Hloop i Hi.
    destruct (Hs (seed self) (length passages) k) as (_ & Hnd & _);
      [by eapply sample_size_retrieved_le |].
    destruct (poison_loop_inv _ _ _ _ Hnd Hloop) as (_ & _ & Hin).
    destruct (Hin i Hi) as (q & p' & _ & Hf & Hp').
    apply poison_retrieved_at_fields in Hf as (s & d & _ & _ & _ & Hm & Hsrc & _).
    eauto.
  - unfold apply_to_corpus, selected_corpus.
    change (PyFloat.of_int 0) with 0%float. rewrite (gt_not_le _ _ Hr).
    destruct (sample_size_corpus (length passages) (rate self))
      as [k|e] eqn:Hk; [| discriminate].
    simpl. intros Hloop i Hi.
    destruct (Hs (seed self) (length passages) k) as (_ & Hnd & _);
      [by eapply sample_size_corpus_le |].
    destruct (poison_loop_inv _ _ _ _ Hnd Hloop) as (_ & _ & Hin).
    destruct (Hin i Hi) as (p & p' & Hp & Hf & Hp').
    apply poison_corpus_at_fields in Hf as (s & d & _ & _ & _ & Hm & _ & Hrest).
    exists p, p'. repeat (split; [done |]).
    apply Hrest. rewrite !not_elem_of_cons. repeat split; try done.
    apply not_elem_of_nil.
Qed.

Lemma poison_markers_witness :
  sampler_spec demo_sample
  ∧ PyFloat.gt (rate demo_poisoner) 0%float = true
  ∧ (0%nat ∈ selected_retrieved demo_sample 7 2 0.3%float)
  ∧ ∃ out : list Passage,
      apply demo_negate demo_sample demo_poisoner demo_passages = Ok out
      ∧ ∃ p' : Passage,
          out !! 0%nat = Some p'
          ∧ p' !! "is_poison" = Some (VBool true)
          ∧ p' !! "source" = Some (VStr "poison").
Proof.
  assert (H1 : sampler_spec demo_sample) by exact demo_sample_ok.
  assert (H2 : PyFloat.gt (rate demo_poisoner) 0%float = true) by reflexivity.
  assert (H3 : 0%nat ∈ selected_retrieved demo_sample 7 2 0.3%float).
  { apply list_elem_of_singleton. reflexivity. }
  do 3 (split; [assumption |]).
  eexists. split; [reflexivity |].
  refine (proj1 (poison_markers demo_negate demo_sample demo_poisoner
                   demo_passages _ H1 H2) eq_refl eq_refl 0%nat H3).
Defined.

(** C6 (as the code has it): a strategy name other than
    [contradictory_passage] raises nothing. [Poisoner.apply] returns the
    passages it was given, whatever the rate; the pipeline constructor
    stores the name unchecked and succeeds whenever the target is not the
    corpus; the poisoning step of a query then returns the retrieved
    passages; and [Poisoner.apply_to_corpus] never reads the name, so
    that with the corpus as target the constructor returns or raises
    exactly as it does under the name [contradictory_passage]: with a
    misspelt name and rate 0.5 it poisons the first of the two sample
    passages, and with a rate that is not a number it raises the
    [ValueError] of the conversion of the rate. *)
Theorem unknown_strategy_passes (make_contradictory_passage : string → string)
    (sample : Z → nat → nat → list nat) (self : Poisoner)
    (passages : list Passage) :
  strategy self ≠ "contradictory_passage" →
  apply make_contradictory_passage sample self passages = Ok passages
  ∧ (∀ (cfg : Cfg.PoisonCfg) (seed : Z),
       Cfg.strategy cfg = strategy self →
       Cfg.target cfg ≠ "corpus" →
       pipeline_init make_contradictory_passage sample cfg seed passages
       = Ok (pipeline_poisoner cfg seed, passages)
       ∧ strategy (pipeline_poisoner cfg seed) = strategy self
       ∧ run_one_poisoned make_contradictory_passage sample cfg
           (pipeline_poisoner cfg seed) passages = Ok passages)
  ∧ (∀ name : string,
       apply_to_corpus make_contradictory_passage sample self passages
       = apply_to_corpus make_contradictory_passage sample
           {| strategy := name; rate := rate self; seed := seed self |}
           passages)
  ∧ (∀ (cfg : Cfg.PoisonCfg) (seed0 : Z),
       Cfg.strategy cfg = strategy self →
       match
         pipeline_init make_contradictory_passage sample cfg seed0 passages,
         pipeline_init make_contradictory_passage sample
           {| Cfg.enabled := Cfg.enabled cfg; Cfg.rate := Cfg.rate cfg;
              Cfg.strategy := "contradictory_passage";
              Cfg.target := Cfg.target cfg |} seed0 passages
       with
       | Ok (p, corpus), Ok (p', corpus') =>
           corpus = corpus'
           ∧ strategy p = strategy self
           ∧ rate p = rate p' ∧ seed p = seed0 ∧ seed p' = seed0
       | Raise e, Raise e' => e = e'
       | _, _ => False
       end)
  ∧ (∃ (first second : Passage),
       pipeline_init demo_negate demo_sample
         {| Cfg.enabled := true; Cfg.rate := 0.5%float;
            Cfg.strategy := "contradictory_pasage"; Cfg.target := "corpus" |}
         7 demo_passages
       = Ok ({| strategy := "contradictory_pasage"; rate := 0.5%float;
                seed := 7 |}, [first; second])
       ∧ first !! "is_poison" = Some (VStr "1")
       ∧ first !! "text"
         = Some (VStr "It is not true that: Paris is the capital of France.")
       ∧ demo_passages !! 1%nat = Some second)
  ∧ pipeline_init demo_negate demo_sample
      {| Cfg.enabled := true; Cfg.rate := PrimFloat.nan;
         Cfg.strategy := "contradictory_pasage"; Cfg.target := "corpus" |}
      7 demo_passages
    = Raise ValueError.
Proof.
  intros Hst.
  assert (Happ : ∀ self' : Poisoner,
            strategy self' = strategy self →
            apply make_contradictory_passage sample self' passages = Ok passages).
  { intros self' Heq. unfold apply.
    destruct (PyFloat.le _ _); [done |].
    rewrite Heq. by apply String.eqb_neq in Hst as ->. }
  split; [by apply Happ |]. split; [| split; [done |]].
  { intros cfg seed Hcfg Htarget.
    unfold pipeline_init, run_one_poisoned.
    apply String.eqb_neq in Htarget as ->. rewrite andb_false_r. simpl.
    split; [done |]. split; [done |].
    destruct (_ && _); [| done]. by apply Happ. }
  split; [| split].
  - intros cfg seed0 Hcfg. unfold pipeline_init. cbv zeta.
    cbn [Cfg.enabled Cfg.target].
    destruct (Cfg.enabled cfg && String.eqb (Cfg.target cfg) "corpus").
    + change (apply_to_corpus make_contradictory_passage sample
                (pipeline_poisoner
                   {| Cfg.enabled := Cfg.enabled cfg; Cfg.rate := Cfg.rate cfg;
                      Cfg.strategy := "contradictory_passage";
                      Cfg.target := Cfg.target cfg |} seed0) passages)
        with (apply_to_corpus make_contradictory_passage sample
                (pipeline_poisoner cfg seed0) passages).
      destruct (apply_to_corpus make_contradictory_passage sample
                  (pipeline_poisoner cfg seed0) passages); simpl; done.
    + simpl. done.
  - eexists _, _. split; [reflexivity |]. by vm_compute.
  - reflexivity.
Qed.

Lemma unknown_strategy_passes_witness :
  strategy (pipeline_poisoner demo_typo_cfg 7) ≠ "contradictory_passage"
  ∧ apply demo_negate demo_sample (pipeline_poisoner demo_typo_cfg 7)
      demo_passages = Ok demo_passages.
Proof.
  assert (H : strategy (pipeline_poisoner demo_typo_cfg 7)
              ≠ "contradictory_passage") by discriminate.
  split; [exact H |].
  exact (proj1 (unknown_strategy_passes demo_negate demo_sample
                  (pipeline_poisoner demo_typo_cfg 7) demo_passages H)).
Defined.

(** A misspelt strategy with rate 0.5: the pipeline is built, and the query
    gets its passages back untouched. *)
Lemma unknown_strategy_is_silent :
  pipeline_init demo_negate demo_sample demo_typo_cfg 7 demo_passages
  = Ok ({| strategy := "contradictory_pasage"; rate := 0.5%float; seed := 7 |},
        demo_passages)
  ∧ PyFloat.gt (rate (pipeline_poisoner demo_typo_cfg 7)) 0%float = true
  ∧ run_one_poisoned demo_negate demo_sample demo_typo_cfg
      (pipeline_poisoner demo_typo_cfg 7) demo_passages
    = Ok demo_passages.
Proof. repeat split. Qed.

(** ** Evidence fusion *)

(** *** The dictionary of best entries *)

Lemma best_lookup_assign (best : Best) (key key' : Key) (v : float * Passage) :
  best_lookup (best_assign best key v) key'
  = if decide (key = key') then Some v else best_lookup best key'.
Proof.
  induction best as [|[k0 v0] rest IH]; simpl.
  - by destruct (decide (key = key')).
  - destruct (decide (k0 = key)) as [->|Hne]; simpl.
    + by destruct (decide (key = key')).
    + destruct (decide (k0 = key')) as [->|Hne'].
      * by rewrite decide_False by done.
      * exact IH.
Qed.

Lemma best_lookup_None (best : Best) (key : Key) :
  best_lookup best key = None ↔ key ∉ best.*1.
Proof.
  induction best as [|[k0 v0] rest IH]; simpl.
  - split; [intros _; apply not_elem_of_nil | done].
  - rewrite not_elem_of_cons. destruct (decide (k0 = key)) as [->|Hne].
    + split; [done | by intros [? _]].
    + rewrite IH. split; [by intros ? | by intros [_ ?]].
Qed.

Lemma best_assign_keys (best : Best) (key : Key) (v : float * Passage) :
  (best_assign best key v).*1
  = if decide (key ∈ best.*1) then best.*1 else best.*1 ++ [key].
Proof.
  induction best as [|[k0 v0] rest IH]; [done |].
  cbn [best_assign]. rewrite fmap_cons. cbn [fst].
  destruct (decide (k0 = key)) as [->|Hne].
  - rewrite decide_True by left. done.
  - rewrite fmap_cons, IH. cbn [fst].
    destruct (decide (key ∈ rest.*1)) as [Hin|Hnin].
    + rewrite decide_True by (by right). done.
    + rewrite decide_False; [done |].
      rewrite not_elem_of_cons. split; [congruence | done].
Qed.

Lemma best_lookup_elem (best : Best) (key : Key) (v : float * Passage) :
  NoDup best.*1 → (key, v) ∈ best ↔ best_lookup best key = Some v.
Proof.
  induction best as [|[k0 v0] rest IH]; simpl; intros Hnd.
  - split; [by intros ?%elem_of_nil | done].
  - apply NoDup_cons in Hnd as [Hk0 Hnd]. rewrite elem_of_cons, (IH Hnd).
    destruct (decide (k0 = key)) as [->|Hne].
    + split; [intros [[= ->]|Hl]; [done |] | intros [= ->]; by left].
      apply best_lookup_None in Hk0. congruence.
    + split; [intros [[= -> ->]|Hl]; done | by right].
Qed.

Lemma lt_irrefl (a : float) : PyFloat.lt a a = false.
Proof.
  destruct (PyFloat.lt a a) eqn:H; [| done].
  by rewrite (lt_asym a a H) in H.
Qed.

Lemma lt_below (a b c : float) :
  PyFloat.is_nan b = false →
  PyFloat.lt a b = false → PyFloat.lt a c = true → PyFloat.lt b c = true.
Proof.
  intros Hb Hab Hac. apply not_true_iff_false in Hab. revert Hab Hac.
  rewrite !lt_spec. unfold PyFloat.lex3_lt. intuition lia.
Qed.

Lemma best_inv_step (scored : list (float * Passage)) (best : Best)
    (x : float * Passage) :
  Forall (λ sp : float * Passage, PyFloat.is_nan sp.1 = false) scored →
  best_inv scored best →
  best_inv (scored ++ [x]) (best_step best x).
Proof.
  intros Hnan (Hnd & Hall & Hent). destruct x as [sx px].
  unfold best_step. cbn [fst snd].
  set (kx := passage_key px).
  assert (Hold : ∀ (key : Key) (s : float) (p : Passage),
            key ≠ kx →
            best_lookup best key = Some (s, p) →
            key = passage_key p
            ∧ ∃ n : nat,
                (scored ++ [(sx, px)]) !! n = Some (s, p)
                ∧ (∀ (m : nat) (s' : float) (p' : Passage),
                     (scored ++ [(sx, px)]) !! m = Some (s', p') →
                     passage_key p' = key → PyFloat.lt s s' = false)
                ∧ (∀ (m : nat) (s' : float) (p' : Passage),
                     (m < n)%nat →
                     (scored ++ [(sx, px)]) !! m = Some (s', p') →
                     passage_key p' = key → PyFloat.lt s' s = true)).
  { intros key s p Hkey Hl. destruct (Hent key s p Hl) as (Hk & n & Hn & Hmax & Hfirst).
    split; [done |]. exists n.
    pose proof (lookup_lt_Some _ _ _ Hn) as Hlt.
    split; [by rewrite lookup_app_l |]. split.
    - intros m s' p' Hm Hkp. apply lookup_snoc_Some in Hm as [[_ Hm]|[_ [= <- <-]]].
      + by eapply Hmax.
      + done.
    - intros m s' p' Hmn Hm Hkp. rewrite lookup_app_l in Hm by lia.
      by eapply Hfirst. }
  assert (Hnew : ∀ s' p' m,
            (∀ (m0 : nat) (s0 : float) (p0 : Passage),
               scored !! m0 = Some (s0, p0) → passage_key p0 = kx →
               PyFloat.lt s0 sx = true) →
            (scored ++ [(sx, px)]) !! m = Some (s', p') →
            passage_key p' = kx →
            PyFloat.lt sx s' = false
            ∧ ((m < length scored)%nat → PyFloat.lt s' sx = true)).
  { intros s' p' m Hless Hm Hkp.
    apply lookup_snoc_Some in Hm as [[Hlt Hm]|[-> [= <- <-]]].
    - pose proof (Hless m s' p' Hm Hkp) as H. split; [by apply lt_asym | done].
    - split; [apply lt_irrefl | lia]. }
  assert (Hx : ∀ (s : float) (p : Passage),
            (∀ (m0 : nat) (s0 : float) (p0 : Passage),
               scored !! m0 = Some (s0, p0) → passage_key p0 = kx →
               PyFloat.lt s0 sx = true) →
            kx = passage_key px
            ∧ ∃ n : nat,
                (scored ++ [(sx, px)]) !! n = Some (sx, px)
                ∧ (∀ (m : nat) (s' : float) (p' : Passage),
                     (scored ++ [(sx, px)]) !! m = Some (s', p') →
                     passage_key p' = kx → PyFloat.lt sx s' = false)
                ∧ (∀ (m : nat) (s' : float) (p' : Passage),
                     (m < n)%nat →
                     (scored ++ [(sx, px)]) !! m = Some (s', p') →
                     passage_key p' = kx → PyFloat.lt s' sx = true)).
  { intros _ _ Hless. split; [done |]. exists (length scored).
    split; [by rewrite lookup_app_r, Nat.sub_diag by lia |]. split.
    - intros m s' p' Hm Hkp. by apply (Hnew s' p' m).
    - intros m s' p' Hmn Hm Hkp. by apply (Hnew s' p' m). }
  assert (Hassign : (∀ (m0 : nat) (s0 : float) (p0 : Passage),
               scored !! m0 = Some (s0, p0) → passage_key p0 = kx →
               PyFloat.lt s0 sx = true) →
            NoDup (best_assign best kx (sx, px)).*1 →
            best_inv (scored ++ [(sx, px)]) (best_assign best kx (sx, px))).
  { intros Hless Hnd'. split; [done |]. split.
    - intros sp Hsp. rewrite best_lookup_assign. case_decide; [done |].
      apply elem_of_app in Hsp as [Hsp|Hsp%list_elem_of_singleton].
      + by apply Hall.
      + subst sp. done.
    - intros key s p. rewrite best_lookup_assign. case_decide as Hk.
      + intros [= <- <-]. subst key. by apply (Hx sx px).
      + intros Hl. apply Hold; [congruence | done]. }
  destruct (best_lookup best kx) as [[so po]|] eqn:Hlk.
  - destruct (Hent kx so po Hlk) as (Hk & n & Hn & Hmax & Hfirst).
    cbn [fst]. unfold PyFloat.gt. fold (PyFloat.lt so sx).
    destruct (PyFloat.lt so sx) eqn:Hgt.
    + apply Hassign.
      * intros m0 s0 p0 Hm0 Hk0. apply (lt_below so); [| by eapply Hmax | done].
        by apply (Forall_lookup_1 _ _ _ _ Hnan Hm0).
      * rewrite best_assign_keys. rewrite decide_True; [done |].
        apply dec_stable. intros Hn'. apply best_lookup_None in Hn'. congruence.
    + split; [done |]. split.
      * intros sp Hsp. apply elem_of_app in Hsp as [Hsp|Hsp%list_elem_of_singleton].
        -- by apply Hall.
        -- subst sp. cbn [snd]. fold kx. by rewrite Hlk.
      * intros key s p Hl. destruct (decide (key = kx)) as [->|Hne].
        -- rewrite Hlk in Hl. injection Hl as <- <-. split; [done |].
           exists n. pose proof (lookup_lt_Some _ _ _ Hn) as Hlt.
           split; [by rewrite lookup_app_l |]. split.
           ++ intros m s' p' Hm Hkp.
              apply lookup_snoc_Some in Hm as [[_ Hm]|[_ [= <- <-]]];
                [by eapply Hmax | done].
           ++ intros m s' p' Hmn Hm Hkp. rewrite lookup_app_l in Hm by lia.
              by eapply Hfirst.
        -- by apply Hold.
  - apply Hassign.
    + intros m0 s0 p0 Hm0 Hk0. exfalso.
      destruct (Hall (s0, p0)) as [v Hv]; [by eapply list_elem_of_lookup_2 |].
      cbn [snd] in Hv. rewrite Hk0 in Hv. congruence.
    + rewrite best_assign_keys. apply best_lookup_None in Hlk.
      rewrite decide_False by done. apply NoDup_app. split; [done |].
      split; [| apply NoDup_singleton].
      intros k Hk ->%list_elem_of_singleton. done.
Qed.

Lemma best_of_inv (scored : list (float * Passage)) :
  Forall (λ sp : float * Passage, PyFloat.is_nan sp.1 = false) scored →
  best_inv scored (best_of scored).
Proof.
  induction scored as [|x scored IH] using rev_ind; intros Hnan.
  - split; [constructor |]. split; [by intros ? ?%elem_of_nil | done].
  - unfold best_of. rewrite fold_left_app. cbn [fold_left].
    apply Forall_app in Hnan as [Hnan _].
    apply best_inv_step; [done |]. by apply IH.
Qed.

(** *** The stable descending sort *)

Lemma insert_desc_perm (x : float * Passage) (l : list (float * Passage)) :
  insert_desc x l ≡ₚ x :: l.
Proof.
  induction l as [|y l IH]; [done |]. simpl.
  destruct (PyFloat.lt x.1 y.1); [| done].
  rewrite IH. apply Permutation_swap.
Qed.

Lemma sorted_desc_perm (l : list (float * Passage)) : sorted_desc l ≡ₚ l.
Proof.
  induction l as [|x l IH]; [done |]. simpl.
  by rewrite insert_desc_perm, IH.
Qed.

Lemma insert_desc_sorted (x : float * Passage) (l : list (float * Passage)) :
  Forall (λ sp : float * Passage, PyFloat.is_nan sp.1 = false) l →
  StronglySorted (λ a b : float * Passage, PyFloat.lt a.1 b.1 = false) l →
  StronglySorted (λ a b : float * Passage, PyFloat.lt a.1 b.1 = false)
    (insert_desc x l).
Proof.
  intros Hnan Hs. induction Hs as [|y l Hs IH Hy]; simpl.
  - by repeat constructor.
  - apply Forall_cons in Hnan as [Hny Hnan].
    destruct (PyFloat.lt x.1 y.1) eqn:Hxy.
    + constructor; [by apply IH |].
      rewrite insert_desc_perm. constructor; [by apply lt_asym | done].
    + constructor; [by constructor |].
      constructor; [done |].
      eapply Forall_impl; [exact Hy |]. intros z Hyz. simpl in *.
      by apply (lt_false_trans _ y.1).
Qed.

Lemma sorted_desc_sorted (l : list (float * Passage)) :
  Forall (λ sp : float * Passage, PyFloat.is_nan sp.1 = false) l →
  StronglySorted (λ a b : float * Passage, PyFloat.lt a.1 b.1 = false)
    (sorted_desc l).
Proof.
  induction l as [|x l IH]; intros Hnan; simpl; [constructor |].
  apply Forall_cons in Hnan as [_ Hnan].
  apply insert_desc_sorted; [by rewrite sorted_desc_perm | by apply IH].
Qed.

Lemma StronglySorted_take {A : Type} (R : A → A → Prop) (l : list A) (n : nat) :
  StronglySorted R l → StronglySorted R (take n l).
Proof.
  intros Hs. revert n. induction Hs as [|x l Hs IH Hx]; intros [|n]; simpl;
    try constructor; [apply IH |].
  eapply Forall_forall. intros y Hy. apply elem_of_take in Hy as (i & Hi & _).
  eapply Forall_lookup_1; eauto.
Qed.

Lemma StronglySorted_lookup {A : Type} (R : A → A → Prop) (l : list A)
    (i j : nat) (a b : A) :
  StronglySorted R l → (i < j)%nat → l !! i = Some a → l !! j = Some b → R a b.
Proof.
  intros Hs. revert i j. induction Hs as [|x l Hs IH Hx]; intros i j Hij Hi Hj;
    [done |].
  destruct j as [|j]; [lia |]. destruct i as [|i]; simpl in *.
  - injection Hi as <-. by eapply Forall_lookup_1.
  - eapply IH; [| done | done]. lia.
Qed.

Lemma slice_to_nonneg {A : Type} (l : list A) (k : Z) :
  0 ≤ k → slice_to l k = take (Z.to_nat k) l.
Proof. intros Hk. unfold slice_to. by apply Z.leb_le in Hk as ->. Qed.

Lemma passage_key_attach (str : float → string) (sp : float * Passage) :
  passage_key (attach_score str sp) = passage_key sp.2.
Proof.
  unfold passage_key, attach_score, get. by rewrite !lookup_insert_ne.
Qed.

Lemma best_keys (scored : list (float * Passage)) (best : Best) :
  best_inv scored best →
  (λ sp : float * Passage, passage_key sp.2) <$> best.*2 = best.*1.
Proof.
  intros (Hnd & _ & Hent).
  assert (H : Forall (λ e : Key * (float * Passage), e.1 = passage_key e.2.2) best).
  { apply Forall_forall. intros [key [s p]] He.
    apply (best_lookup_elem _ _ _ Hnd) in He. by destruct (Hent key s p He). }
  clear Hnd Hent. induction H as [|[key [s p]] best Hk _ IH]; [done |].
  rewrite !fmap_cons, IH. simpl in *. by rewrite Hk.
Qed.

Lemma best_keys_perm (scored : list (float * Passage)) :
  Forall (λ sp : float * Passage, PyFloat.is_nan sp.1 = false) scored →
  (best_of scored).*1
  ≡ₚ remove_dups ((λ sp : float * Passage, passage_key sp.2) <$> scored).
Proof.
  intros Hnan. pose proof (best_of_inv scored Hnan) as (Hnd & Hall & Hent).
  apply NoDup_Permutation; [done | apply NoDup_remove_dups |].
  intros key. rewrite elem_of_remove_dups. split.
  - intros Hin. destruct (best_lookup (best_of scored) key) as [[s p]|] eqn:Hl.
    + destruct (Hent key s p Hl) as (-> & n & Hn & _).
      apply list_elem_of_fmap. exists (s, p).
      split; [done |]. by eapply list_elem_of_lookup_2.
    + by apply best_lookup_None in Hl.
  - intros (sp & -> & Hsp)%list_elem_of_fmap. apply dec_stable. intros Hn.
    apply best_lookup_None in Hn. destruct (Hall sp Hsp) as [v Hv]. congruence.
Qed.

(** The fused list against the collected pairs and the sorted, sliced
    list of best entries. *)
Lemma fusion_core (str : float → string) (self : HybridRetriever)
    (query : string) (k : Z) :
  let scored := scored_of self query k in
  let merged := merged_of scored k in
  let out := retrieve str self query k in
  0 ≤ k →
  Forall (λ sp : float * Passage, PyFloat.is_nan sp.1 = false) scored →
  NoDup (passage_key <$> out)
  ∧ length out = length merged
  ∧ (∀ (i : nat) (s : float) (p : Passage),
       merged !! i = Some (s, p) →
       ∃ q : Passage,
         out !! i = Some q
         ∧ q !! "score" = Some (VStr (str s))
         ∧ (∀ field : string, field ≠ "score" → q !! field = p !! field)
         ∧ passage_key q = passage_key p
         ∧ ∃ n : nat,
             scored !! n = Some (s, p)
             ∧ (∀ (m : nat) (s' : float) (p' : Passage),
                  scored !! m = Some (s', p') →
                  passage_key p' = passage_key p → PyFloat.lt s s' = false)
             ∧ (∀ (m : nat) (s' : float) (p' : Passage),
                  (m < n)%nat →
                  scored !! m = Some (s', p') →
                  passage_key p' = passage_key p → PyFloat.lt s' s = true))
  ∧ (∀ (i j : nat) (a b : float * Passage),
       (i < j)%nat → merged !! i = Some a → merged !! j = Some b →
       PyFloat.lt a.1 b.1 = false)
  ∧ Z.of_nat (length out) ≤ k
  ∧ length out
    = Nat.min (Z.to_nat k)
        (length (remove_dups ((λ sp : float * Passage, passage_key sp.2) <$> scored))).
Proof.
  intros scored merged out Hk Hnan.
  pose proof (best_of_inv scored Hnan) as Hinv.
  pose proof Hinv as (Hnd & Hall & Hent).
  pose proof (best_keys _ _ Hinv) as Hkeys.
  assert (Hm : merged = take (Z.to_nat k) (sorted_desc (best_of scored).*2)).
  { subst merged. unfold merged_of. by apply slice_to_nonneg. }
  assert (Hout : out = attach_score str <$> merged) by done.
  assert (Hkout : passage_key <$> out
                  = (λ sp : float * Passage, passage_key sp.2) <$> merged).
  { rewrite Hout, <- list_fmap_compose. apply list_fmap_ext.
    intros i sp _. apply passage_key_attach. }
  assert (Hlen : length out = length merged) by (by rewrite Hout, length_fmap).
  assert (Hmem : ∀ (i : nat) (s : float) (p : Passage),
            merged !! i = Some (s, p) →
            best_lookup (best_of scored) (passage_key p) = Some (s, p)).
  { intros i s p Hi. rewrite Hm in Hi. apply lookup_take_Some in Hi as [Hi _].
    apply list_elem_of_lookup_2 in Hi. rewrite sorted_desc_perm in Hi.
    apply list_elem_of_fmap in Hi as ([key [s0 p0]] & [= -> ->] & He).
    apply (best_lookup_elem _ _ _ Hnd) in He.
    by destruct (Hent key s0 p0 He) as [<- _]. }
  split.
  { rewrite Hkout, Hm. eapply sublist_NoDup; [| apply fmap_sublist, sublist_take].
    rewrite sorted_desc_perm, Hkeys. done. }
  split; [done |]. split.
  { intros i s p Hi. exists (attach_score str (s, p)).
    split; [by rewrite Hout, list_lookup_fmap, Hi |].
    split; [apply lookup_insert_eq |].
    split; [by intros field Hf; apply lookup_insert_ne |].
    split; [apply passage_key_attach |].
    by destruct (Hent _ s p (Hmem i s p Hi)) as [_ Hn]. }
  split.
  { intros i j a b Hij Hi Hj.
    apply (StronglySorted_lookup
             (λ a b : float * Passage, PyFloat.lt a.1 b.1 = false)
             merged i j a b); [| done | done | done].
    rewrite Hm. apply StronglySorted_take, sorted_desc_sorted.
    apply Forall_forall. intros [s p] Hsp.
    apply list_elem_of_fmap in Hsp as ([key [s0 p0]] & [= -> ->] & He).
    apply (best_lookup_elem _ _ _ Hnd) in He.
    destruct (Hent key s0 p0 He) as (_ & n & Hn & _).
    by apply (Forall_lookup_1 _ _ _ _ Hnan Hn). }
  assert (Hlm : length merged
                = Nat.min (Z.to_nat k) (length (best_of scored).*1)).
  { rewrite Hm, length_take, (Permutation_length (sorted_desc_perm _)).
    by rewrite !length_fmap. }
  split; [rewrite Hlen, Hlm; lia |].
  rewrite Hlen, Hlm. f_equal. apply Permutation_length.
  apply NoDup_Permutation; [done | apply NoDup_remove_dups |].
  intros key. rewrite elem_of_remove_dups. split.
  - intros Hin. destruct (best_lookup (best_of scored) key) as [[s p]|] eqn:Hl.
    + destruct (Hent key s p Hl) as (-> & n & Hn & _).
      apply list_elem_of_fmap. exists (s, p).
      split; [done |]. by eapply list_elem_of_lookup_2.
    + by apply best_lookup_None in Hl.
  - intros (sp & -> & Hsp)%list_elem_of_fmap. apply dec_stable. intros Hn.
    apply best_lookup_None in Hn. destruct (Hall sp Hsp) as [v Hv]. congruence.
Qed.

(** C4: the pairs fused are the results of the BM25 source followed by
    those of the dense source, each source contributing nothing when it is
    disabled, and the composite key of a passage is its [title], [sent_id]
    and [text], each the empty string when absent. For scores that are
    numbers and a limit [k >= 0], the fused list holds each composite key
    at most once; each output passage is an input passage with the
    rendered score of its pair attached, a pair that no pair of the same
    key from either source outscores and that every earlier pair of the
    same key scores strictly below (the first pair of the key that reaches
    the maximum); the scores descend along the list; the length is the
    smaller of [k] and the number of distinct keys, so at most [k]; and
    when there are no more than [k] distinct keys, every collected pair
    has its key in the output, with a score that is not below its own. On
    two sources that score Paris 1.5 and 0.7 and Lyon 0.5 and 0.9, the
    output is Paris with 1.5, then Lyon with 0.9. *)
Theorem fusion_spec (str : float → string) (self : HybridRetriever)
    (query : string) (k : Z) :
  let scored := scored_of self query k in
  let merged := merged_of scored k in
  let out := retrieve str self query k in
  0 ≤ k →
  Forall (λ sp : float * Passage, PyFloat.is_nan sp.1 = false) scored →
  NoDup (passage_key <$> out)
  ∧ length out = length merged
  ∧ (∀ (i : nat) (s : float) (p : Passage),
       merged !! i = Some (s, p) →
       ∃ q : Passage,
         out !! i = Some q
         ∧ q !! "score" = Some (VStr (str s))
         ∧ (∀ field : string, field ≠ "score" → q !! field = p !! field)
         ∧ passage_key q = passage_key p
         ∧ ∃ n : nat,
             scored !! n = Some (s, p)
             ∧ (∀ (m : nat) (s' : float) (p' : Passage),
                  scored !! m = Some (s', p') →
                  passage_key p' = passage_key p → PyFloat.lt s s' = false)
             ∧ (∀ (m : nat) (s' : float) (p' : Passage),
                  (m < n)%nat →
                  scored !! m = Some (s', p') →
                  passage_key p' = passage_key p → PyFloat.lt s' s = true))
  ∧ (∀ (i j : nat) (a b : float * Passage),
       (i < j)%nat → merged !! i = Some a → merged !! j = Some b →
       PyFloat.lt a.1 b.1 = false)
  ∧ Z.of_nat (length out) ≤ k
  ∧ length out
    = Nat.min (Z.to_nat k)
        (length (remove_dups ((λ sp : float * Passage, passage_key sp.2) <$> scored)))
  ∧ scored
    = from_option (λ src : Source, src query k) [] (bm25 self)
      ++ from_option (λ src : Source, src query k) [] (dense self)
  ∧ (∀ p : Passage,
       passage_key p
       = (default (VStr EmptyString) (p !! "title"),
          default (VStr EmptyString) (p !! "sent_id"),
          default (VStr EmptyString) (p !! "text")))
  ∧ (Z.of_nat
       (length
          (remove_dups ((λ sp : float * Passage, passage_key sp.2) <$> scored)))
     ≤ k →
     ∀ (s : float) (p : Passage),
       (s, p) ∈ scored →
       ∃ (i : nat) (s' : float) (p' : Passage) (q : Passage),
         merged !! i = Some (s', p')
         ∧ out !! i = Some q
         ∧ q !! "score" = Some (VStr (str s'))
         ∧ passage_key q = passage_key p
         ∧ PyFloat.lt s' s = false)
  ∧ (λ q : Passage, (q !! "title", q !! "score"))
      <$> retrieve demo_str demo_hybrid demo_query 5
    = [ (Some (VStr "Paris"), Some (VStr "1.5"));
        (Some (VStr "Lyon"), Some (VStr "0.9")) ].
Proof.
  intros scored merged out Hk Hnan.
  destruct (fusion_core str self query k Hk Hnan)
    as (HA & HB & HC & HD & HE & HF).
  fold scored merged out in HA, HB, HC, HD, HE, HF.
  do 6 (split; [assumption |]).
  split; [done |]. split; [done |]. split; [| by vm_compute].
  intros Hd s p Hsp.
  pose proof (best_of_inv scored Hnan) as (Hnd & Hall & Hent).
  destruct (Hall (s, p) Hsp) as [[s' p'] Hl]. cbn [snd] in Hl.
  destruct (Hent _ s' p' Hl) as (Hkey & n & Hn & Hmax & _).
  assert (Hin : (s', p') ∈ merged).
  { subst merged. unfold merged_of. rewrite slice_to_nonneg by done.
    rewrite take_ge.
    - rewrite sorted_desc_perm. apply list_elem_of_fmap.
      exists (passage_key p, (s', p')). split; [done |].
      by apply (best_lookup_elem _ _ _ Hnd).
    - rewrite (Permutation_length (sorted_desc_perm _)), length_fmap,
        <- (length_fmap fst), (Permutation_length (best_keys_perm _ Hnan)).
      lia. }
  apply list_elem_of_lookup_1 in Hin as [i Hi].
  destruct (HC i s' p' Hi) as (q & Hq & Hscore & _ & Hkq & _).
  exists i, s', p', q. split; [done |]. split; [done |]. split; [done |].
  split; [by rewrite Hkq |].
  apply list_elem_of_lookup_1 in Hsp as [m Hm].
  by apply (Hmax m s p Hm).
Qed.

Lemma fusion_spec_witness :
  0 ≤ 5
  ∧ Forall (λ sp : float * Passage, PyFloat.is_nan sp.1 = false)
      (scored_of demo_hybrid demo_query 5)
  ∧ NoDup (passage_key <$> retrieve demo_str demo_hybrid demo_query 5)
  ∧ Z.of_nat (length (retrieve demo_str demo_hybrid demo_query 5)) ≤ 5
  ∧ (λ q : Passage, (q !! "title", q !! "score"))
      <$> retrieve demo_str demo_hybrid demo_query 5
    = [ (Some (VStr "Paris"), Some (VStr "1.5"));
        (Some (VStr "Lyon"), Some (VStr "0.9")) ].
Proof.
  assert (H1 : 0 ≤ 5) by lia.
  assert (H2 : Forall (λ sp : float * Passage, PyFloat.is_nan sp.1 = false)
                 (scored_of demo_hybrid demo_query 5)).
  { repeat constructor. }
  destruct (fusion_spec demo_str demo_hybrid demo_query 5 H1 H2)
    as (Hnd & _ & _ & _ & Hle & _ & _ & _ & _ & Hex).
  split; [exact H1 |]. split; [exact H2 |]. split; [exact Hnd |].
  split; [exact Hle | exact Hex].
Defined.

(** ** Poison injector: switches, errors and frame *)

Lemma le_nan_l (a b : float) :
  PyFloat.is_nan a = true → PyFloat.le a b = false.
Proof.
  intros Ha. apply not_true_is_false. rewrite le_spec. intros (H & _).
  congruence.
Qed.

Lemma mul_nan_r (x y : float) :
  PyFloat.is_nan y = true → Prim2SF (PrimFloat.mul x y) = S754_nan.
Proof.
  rewrite is_nan_spec, FloatAxioms.mul_spec. unfold SF64mul, SFmul.
  destruct (Prim2SF y); try discriminate. by destruct (Prim2SF x).
Qed.

(** X1: when the configuration disables poisoning, or gives a rate that is
    zero or negative, the pipeline constructor hands the corpus on
    unchanged and the poisoning step of every query returns the retrieved
    passages unchanged, whatever the strategy and the target are. *)
Theorem poisoning_off_is_identity (make_contradictory_passage : string → string)
    (sample : Z → nat → nat → list nat) (cfg : Cfg.PoisonCfg) (seed : Z)
    (corpus : list Passage) :
  Cfg.enabled cfg = false ∨ PyFloat.le (Cfg.rate cfg) 0%float = true →
  pipeline_init make_contradictory_passage sample cfg seed corpus
  = Ok (pipeline_poisoner cfg seed, corpus)
  ∧ ∀ retrieved : list Passage,
      run_one_poisoned make_contradictory_passage sample cfg
        (pipeline_poisoner cfg seed) retrieved = Ok retrieved.
Proof.
  intros H. unfold pipeline_init, run_one_poisoned, apply_to_corpus, apply,
    pipeline_poisoner. simpl.
  change (PyFloat.of_int 0) with 0%float.
  destruct (Cfg.enabled cfg); simpl.
  - destruct H as [H|H]; [discriminate |]. rewrite H.
    split; [by destruct (String.eqb _ _) |].
    intros retrieved. by destruct (String.eqb _ _).
  - done.
Qed.

Lemma poisoning_off_is_identity_witness :
  (Cfg.enabled (Cfg.mkPoisonCfg true (-0.5)%float "contradictory_passage" "corpus")
   = false
   ∨ PyFloat.le
       (Cfg.rate (Cfg.mkPoisonCfg true (-0.5)%float "contradictory_passage" "corpus"))
       0%float = true)
  ∧ pipeline_init demo_negate demo_sample
      (Cfg.mkPoisonCfg true (-0.5)%float "contradictory_passage" "corpus")
      7 demo_passages
    = Ok ({| strategy := "contradictory_passage"; rate := (-0.5)%float; seed := 7 |},
          demo_passages).
Proof.
  assert (H : Cfg.enabled
                (Cfg.mkPoisonCfg true (-0.5)%float "contradictory_passage" "corpus")
              = false
              ∨ PyFloat.le
                  (Cfg.rate
                     (Cfg.mkPoisonCfg true (-0.5)%float "contradictory_passage"
                        "corpus"))
                  0%float = true) by (right; reflexivity).
  split; [exact H |].
  exact (proj1 (poisoning_off_is_identity demo_negate demo_sample _ 7
                  demo_passages H)).
Defined.

(** X2: poisoning acts at one point at most. For every configuration the
    constructor leaves the corpus as it is or the poisoning step of a query
    leaves every retrieved list as it is; with a target that is neither
    [corpus] nor [retrieval_set] both hold, and nothing is raised. *)
Theorem poisoning_single_point (make_contradictory_passage : string → string)
    (sample : Z → nat → nat → list nat) (cfg : Cfg.PoisonCfg) (seed : Z)
    (corpus : list Passage) :
  (pipeline_init make_contradictory_passage sample cfg seed corpus
   = Ok (pipeline_poisoner cfg seed, corpus)
   ∨ ∀ (poisoner : Poisoner) (retrieved : list Passage),
       run_one_poisoned make_contradictory_passage sample cfg poisoner retrieved
       = Ok retrieved)
  ∧ (Cfg.target cfg ∉ ["corpus"; "retrieval_set"] →
     pipeline_init make_contradictory_passage sample cfg seed corpus
     = Ok (pipeline_poisoner cfg seed, corpus)
     ∧ ∀ (poisoner : Poisoner) (retrieved : list Passage),
         run_one_poisoned make_contradictory_passage sample cfg poisoner retrieved
         = Ok retrieved).
Proof.
  unfold pipeline_init, run_one_poisoned. split.
  - destruct (String.eqb_spec (Cfg.target cfg) "corpus") as [Ht|Ht].
    + right. intros poisoner retrieved. rewrite Ht. simpl.
      by rewrite andb_false_r.
    + left. by rewrite andb_false_r.
  - intros Ht. rewrite !not_elem_of_cons in Ht. destruct Ht as (H1 & H2 & _).
    apply String.eqb_neq in H1, H2. rewrite H1, H2, !andb_false_r. done.
Qed.

(** X3: a rate that is NaN passes the test [rate <= 0] and reaches
    [int(len * rate)]: [apply_to_corpus] raises [ValueError] on every
    corpus, and [apply] raises it on every list when the strategy is
    [contradictory_passage] (and returns its input for any other
    strategy). *)
Theorem nan_rate_raises (make_contradictory_passage : string → string)
    (sample : Z → nat → nat → list nat) (self : Poisoner)
    (passages : list Passage) :
  PyFloat.is_nan (rate self) = true →
  apply_to_corpus make_contradictory_passage sample self passages
  = Raise ValueError
  ∧ apply make_contradictory_passage sample self passages
    = if String.eqb (strategy self) "contradictory_passage"
      then Raise ValueError else Ok passages.
Proof.
  intros Hn. unfold apply_to_corpus, apply, inject_synthetic_poison,
    sample_size_corpus, sample_size_retrieved, py_int.
  rewrite (le_nan_l _ _ Hn), !(mul_nan_r _ _ Hn). simpl.
  split; [done |]. by destruct (String.eqb _ _).
Qed.

Lemma nan_rate_raises_witness :
  PyFloat.is_nan (rate (mkPoisoner "contradictory_passage" nan 7)) = true
  ∧ apply demo_negate demo_sample (mkPoisoner "contradictory_passage" nan 7)
      demo_passages = Raise ValueError.
Proof.
  assert (H : PyFloat.is_nan (rate (mkPoisoner "contradictory_passage" nan 7))
              = true) by reflexivity.
  split; [exact H |].
  exact (proj2 (nan_rate_raises demo_negate demo_sample
                  (mkPoisoner "contradictory_passage" nan 7) demo_passages H)).
Defined.

(** The loop stops at the first index whose update raises. *)
Lemma poison_loop_raise (f : Passage → Result Passage) (done_ rest : list nat)
    (i : nat) (out : list Passage) (p : Passage) (e : PyError) :
  NoDup (done_ ++ i :: rest) →
  (∀ j : nat, j ∈ done_ → ∃ q q' : Passage, out !! j = Some q ∧ f q = Ok q') →
  out !! i = Some p →
  f p = Raise e →
  poison_loop f (done_ ++ i :: rest) out = Raise e.
Proof.
  revert out. induction done_ as [|j js IH]; intros out Hnd Hok Hp Hf.
  - simpl. by rewrite Hp, Hf.
  - simpl in Hnd. apply NoDup_cons in Hnd as [Hj Hnd].
    destruct (Hok j) as (q & q' & Hq & Hfq); [by left |].
    simpl. rewrite Hq, Hfq. simpl. apply IH; [done | | | done].
    + intros j' Hj'. destruct (Hok j') as (r & r' & Hr & Hfr); [by right |].
      exists r, r'. split; [| done].
      rewrite list_lookup_insert_ne; [done |].
      intros ->. apply Hj. apply elem_of_app. by left.
    + rewrite list_lookup_insert_ne; [done |].
      intros ->. apply Hj. apply elem_of_app. right. by left.
Qed.

(** An error of the loop is an index out of range or an error of the
    update. *)
Lemma poison_loop_error (f : Passage → Result Passage) (idxs : list nat)
    (out : list Passage) (e : PyError) :
  poison_loop f idxs out = Raise e →
  e = IndexError ∨ ∃ p : Passage, f p = Raise e.
Proof.
  revert out. induction idxs as [|i rest IH]; intros out H; [discriminate |].
  simpl in H. destruct (out !! i) as [p|]; [| left; congruence].
  destruct (f p) as [p'|e'] eqn:Hf; simpl in H; [by eapply IH |].
  right. exists p. congruence.
Qed.

Section InjectorFacts.

Variable make_contradictory_passage : string → string.
Variable sample : Z → nat → nat → list nat.
Hypothesis sample_ok : sampler_spec sample.

Lemma unmarked_poisonable (p : Passage) :
  poisonable (<["is_poison" := VBool false]> p) → poisonable p.
Proof.
  intros [[s Hs] [d Hd]]. rewrite lookup_insert_ne in Hs, Hd by done.
  split; eauto.
Qed.

Lemma poison_retrieved_at_inv (p p' : Passage) :
  poison_retrieved_at make_contradictory_passage p = Ok p' → poisonable p.
Proof.
  intros H. apply poison_retrieved_at_fields in H as (s & d & Hs & Hd & _).
  split; eauto.
Qed.

Lemma inject_ok_iff (retrieved : list Passage) (rate : float) (seed : Z)
    (k : nat) :
  sample_size_retrieved (length retrieved) rate = Ok k →
  (∃ out : list Passage,
     inject_synthetic_poison make_contradictory_passage sample retrieved rate seed
     = Ok out)
  ↔ ∀ (i : nat) (p : Passage),
      i ∈ sample seed (length retrieved) k →
      retrieved !! i = Some p → poisonable p.
Proof.
  intros Hk. unfold inject_synthetic_poison. rewrite length_fmap, Hk. simpl.
  destruct (sample_ok seed (length retrieved) k) as (Hlen & Hnd & Hlt);
    [by eapply sample_size_retrieved_le |].
  split.
  - intros [out Hout] i p Hi Hp.
    destruct (poison_loop_inv _ _ _ _ Hnd Hout) as (_ & _ & Hin).
    destruct (Hin i Hi) as (q & q' & Hq & Hf & _).
    rewrite list_lookup_fmap, Hp in Hq. injection Hq as <-.
    by eapply unmarked_poisonable, poison_retrieved_at_inv.
  - intros Hall. apply poison_loop_ok; [done |].
    intros i Hi.
    destruct (lookup_lt_is_Some_2 retrieved i (Hlt i Hi)) as [p Hp].
    destruct (poison_retrieved_at_ok make_contradictory_passage
                (<["is_poison" := VBool false]> p)) as [p' Hp'].
    { apply poisonable_unmarked. by eapply Hall. }
    exists (<["is_poison" := VBool false]> p), p'.
    by rewrite list_lookup_fmap, Hp.
Qed.

End InjectorFacts.

(** X4: with a rate above zero whose sample size is computed, the
    retrieval-set injector returns a list exactly when every passage at a
    drawn index has a string [text] and a string [doc_id]; passages that
    are not drawn may lack them. *)
Theorem inject_succeeds_iff (make_contradictory_passage : string → string)
    (sample : Z → nat → nat → list nat) (self : Poisoner)
    (retrieved : list Passage) (k : nat) :
  sampler_spec sample →
  strategy self = "contradictory_passage" →
  PyFloat.gt (rate self) 0%float = true →
  sample_size_retrieved (length retrieved) (rate self) = Ok k →
  (∃ out : list Passage,
     apply make_contradictory_passage sample self retrieved = Ok out)
  ↔ ∀ (i : nat) (p : Passage),
      i ∈ sample (seed self) (length retrieved) k →
      retrieved !! i = Some p → poisonable p.
Proof.
  intros Hs Hst Hr Hk.
  rewrite (apply_contradictory _ _ _ _ Hr Hst).
  by apply inject_ok_iff.
Qed.

Lemma inject_succeeds_iff_witness :
  sampler_spec demo_sample
  ∧ strategy demo_poisoner = "contradictory_passage"
  ∧ PyFloat.gt (rate demo_poisoner) 0%float = true
  ∧ sample_size_retrieved 1 (rate demo_poisoner) = Ok 1%nat
  ∧ ((∃ out : list Passage,
        apply demo_negate demo_sample demo_poisoner
          [ ({[ "title" := VStr "Paris" ]} : Passage) ] = Ok out)
     ↔ ∀ (i : nat) (p : Passage),
         i ∈ demo_sample 7 1 1 →
         [ ({[ "title" := VStr "Paris" ]} : Passage) ] !! i = Some p →
         poisonable p).
Proof.
  assert (H1 : sampler_spec demo_sample) by exact demo_sample_ok.
  assert (H2 : strategy demo_poisoner = "contradictory_passage") by reflexivity.
  assert (H3 : PyFloat.gt (rate demo_poisoner) 0%float = true) by reflexivity.
  assert (H4 : sample_size_retrieved 1 (rate demo_poisoner) = Ok 1%nat)
    by reflexivity.
  do 4 (split; [assumption |]).
  exact (inject_succeeds_iff demo_negate demo_sample demo_poisoner
           [ ({[ "title" := VStr "Paris" ]} : Passage) ] 1 H1 H2 H3 H4).
Defined.

(** X5: the retrieval-set injector stops at the first drawn passage it
    cannot corrupt: it raises [KeyError("text")] when that passage has no
    [text], and [KeyError("doc_id")] when it has a text and no
    [doc_id]. *)
Theorem inject_missing_field (make_contradictory_passage : string → string)
    (sample : Z → nat → nat → list nat) (retrieved : list Passage)
    (rate : float) (seed : Z) (k : nat) (done_ rest : list nat) (i : nat)
    (p : Passage) :
  sampler_spec sample →
  sample_size_retrieved (length retrieved) rate = Ok k →
  sample seed (length retrieved) k = done_ ++ i :: rest →
  (∀ (j : nat) (q : Passage),
     j ∈ done_ → retrieved !! j = Some q → poisonable q) →
  retrieved !! i = Some p →
  (p !! "text" = None →
   inject_synthetic_poison make_contradictory_passage sample retrieved rate seed
   = Raise (KeyError "text"))
  ∧ (has_text p → p !! "doc_id" = None →
     inject_synthetic_poison make_contradictory_passage sample retrieved rate seed
     = Raise (KeyError "doc_id")).
Proof.
  intros Hs Hk Hsplit Hdone Hp.
  destruct (Hs seed (length retrieved) k) as (Hlen & Hnd & Hlt);
    [by eapply sample_size_retrieved_le |].
  unfold inject_synthetic_poison. rewrite length_fmap, Hk. simpl.
  rewrite Hsplit in Hnd, Hlt |- *.
  assert (Hpre : ∀ j : nat, j ∈ done_ →
            ∃ q q' : Passage,
              ((λ p : Passage, <["is_poison" := VBool false]> p) <$> retrieved)
                !! j = Some q
              ∧ poison_retrieved_at make_contradictory_passage q = Ok q').
  { intros j Hj.
    destruct (lookup_lt_is_Some_2 retrieved j) as [q Hq].
    { apply Hlt, elem_of_app. by left. }
    destruct (poison_retrieved_at_ok make_contradictory_passage
                (<["is_poison" := VBool false]> q)) as [q' Hq'].
    { apply poisonable_unmarked. by eapply Hdone. }
    exists (<["is_poison" := VBool false]> q), q'.
    by rewrite list_lookup_fmap, Hq. }
  split.
  - intros Ht. eapply poison_loop_raise; [done | done | |].
    + by rewrite list_lookup_fmap, Hp.
    + unfold poison_retrieved_at, getitem.
      by rewrite lookup_insert_ne, Ht.
  - intros [s Ht] Hd. eapply poison_loop_raise; [done | done | |].
    + by rewrite list_lookup_fmap, Hp.
    + unfold poison_retrieved_at, getitem.
      rewrite lookup_insert_ne, Ht by done. simpl.
      by rewrite !lookup_insert_ne, Hd.
Qed.

Lemma inject_missing_field_witness :
  sampler_spec demo_sample
  ∧ sample_size_retrieved 1 0.3%float = Ok 1%nat
  ∧ inject_synthetic_poison demo_negate demo_sample
      [ ({[ "title" := VStr "Paris" ]} : Passage) ] 0.3%float 7
    = Raise (KeyError "text").
Proof.
  assert (H1 : sampler_spec demo_sample) by exact demo_sample_ok.
  assert (H2 : sample_size_retrieved 1 0.3%float = Ok 1%nat) by reflexivity.
  do 2 (split; [assumption |]).
  refine (proj1 (inject_missing_field demo_negate demo_sample
                   [ ({[ "title" := VStr "Paris" ]} : Passage) ] 0.3%float 7
                   1%nat [] [] 0%nat {[ "title" := VStr "Paris" ]}
                   H1 H2 eq_refl _ eq_refl) eq_refl).
  intros j q Hj. by apply elem_of_nil in Hj.
Defined.

(** The fields that an injector may rewrite. *)

Lemma poison_loop_frame (f : Passage → Result Passage) (keys : list string)
    (idxs : list nat) (out out' : list Passage) :
  (∀ (p p' : Passage) (key : string),
     f p = Ok p' → key ∉ keys → p' !! key = p !! key) →
  poison_loop f idxs out = Ok out' →
  length out' = length out
  ∧ ∀ (i : nat) (p : Passage),
      out !! i = Some p →
      ∃ q : Passage,
        out' !! i = Some q ∧ ∀ key : string, key ∉ keys → q !! key = p !! key.
Proof.
  intros Hf. revert out. induction idxs as [|j rest IH]; intros out H.
  - simpl in H. injection H as <-. split; [done |]. eauto.
  - simpl in H. destruct (out !! j) as [pj|] eqn:Hj; [| discriminate].
    destruct (f pj) as [pj'|e] eqn:Hfj; [| discriminate]. simpl in H.
    destruct (IH _ H) as (Hlen & Hfr). rewrite length_insert in Hlen.
    split; [done |]. intros i p Hp.
    destruct (decide (i = j)) as [->|Hij].
    + destruct (Hfr j pj') as (q & Hq & Hqk).
      { apply list_lookup_insert_eq. by eapply lookup_lt_Some. }
      exists q. split; [done |]. intros key Hkey.
      rewrite (Hqk key Hkey). rewrite Hj in Hp. injection Hp as <-.
      by eapply Hf.
    + apply Hfr. by rewrite list_lookup_insert_ne.
Qed.

Lemma inject_frame (make_contradictory_passage : string → string)
    (sample : Z → nat → nat → list nat) (retrieved out : list Passage)
    (rate : float) (seed : Z) :
  inject_synthetic_poison make_contradictory_passage sample retrieved rate seed
  = Ok out →
  length out = length retrieved
  ∧ ∀ (i : nat) (p : Passage),
      retrieved !! i = Some p →
      ∃ q : Passage,
        out !! i = Some q
        ∧ ∀ key : string,
            key ∉ ["text"; "is_poison"; "source"; "doc_id"] →
            q !! key = p !! key.
Proof.
  unfold inject_synthetic_poison.
  destruct (sample_size_retrieved _ _) as [k|e]; [| discriminate]. simpl.
  intros H.
  apply (poison_loop_frame _ ["text"; "is_poison"; "source"; "doc_id"]) in H
    as (Hlen & Hfr).
  - rewrite length_fmap in Hlen. split; [done |]. intros i p Hp.
    destruct (Hfr i (<["is_poison" := VBool false]> p)) as (q & Hq & Hqk).
    { by rewrite list_lookup_fmap, Hp. }
    exists q. split; [done |]. intros key Hkey. rewrite (Hqk key Hkey).
    apply lookup_insert_ne. intros <-. apply Hkey.
    rewrite !elem_of_cons. tauto.
  - intros p p' key Hp' Hkey.
    apply poison_retrieved_at_fields in Hp' as (? & ? & _ & _ & _ & _ & _ & _ & Hk).
    by apply Hk.
Qed.

(** The sort key of the rerank survives poisoning. *)
Lemma apply_keeps_score (make_contradictory_passage : string → string)
    (sample : Z → nat → nat → list nat) (self : Poisoner)
    (passages out : list Passage) :
  apply make_contradictory_passage sample self passages = Ok out →
  length out = length passages
  ∧ ∀ (i : nat) (p : Passage),
      passages !! i = Some p →
      ∃ q : Passage, out !! i = Some q ∧ q !! "score" = p !! "score".
Proof.
  unfold apply.
  destruct (PyFloat.le _ _); [intros [= <-]; eauto |].
  destruct (String.eqb _ _); [| intros [= <-]; eauto].
  intros H. apply inject_frame in H as (Hlen & Hfr).
  split; [done |]. intros i p Hp. destruct (Hfr i p Hp) as (q & Hq & Hk).
  exists q. split; [done |]. apply Hk.
  rewrite !elem_of_cons, elem_of_nil. intros [H|[H|[H|[H|[]]]]]; discriminate.
Qed.

(** X6: whenever [Poisoner.apply] returns, on any branch, the output has
    the length of the input and the passage at each position agrees with
    the input passage at that position on every field other than [text],
    [is_poison], [source] and [doc_id]; the [score], [title] and [sent_id]
    of a passage are never touched. *)
Theorem apply_keeps_other_fields (make_contradictory_passage : string → string)
    (sample : Z → nat → nat → list nat) (self : Poisoner)
    (passages out : list Passage) :
  apply make_contradictory_passage sample self passages = Ok out →
  length out = length passages
  ∧ ∀ (i : nat) (p : Passage),
      passages !! i = Some p →
      ∃ q : Passage,
        out !! i = Some q
        ∧ ∀ key : string,
            key ∉ ["text"; "is_poison"; "source"; "doc_id"] →
            q !! key = p !! key.
Proof.
  unfold apply.
  destruct (PyFloat.le (rate self) (PyFloat.of_int 0)) eqn:Hrate.
  { intros [= <-]. split; [done |]. intros i p Hp. by exists p. }
  destruct (String.eqb (strategy self) "contradictory_passage") eqn:Hst.
  - apply inject_frame.
  - intros [= <-]. split; [done |]. intros i p Hp. by exists p.
Qed.

Lemma apply_keeps_other_fields_witness :
  ∃ out : list Passage,
    apply demo_negate demo_sample demo_poisoner demo_passages = Ok out
    ∧ length out = length demo_passages
    ∧ ∀ (i : nat) (p : Passage),
        demo_passages !! i = Some p →
        ∃ q : Passage,
          out !! i = Some q
          ∧ ∀ key : string,
              key ∉ ["text"; "is_poison"; "source"; "doc_id"] →
              q !! key = p !! key.
Proof.
  eexists. split; [reflexivity |].
  exact (apply_keeps_other_fields demo_negate demo_sample demo_poisoner
           demo_passages _ eq_refl).
Defined.

(** X7: the corpus injector reads [text] and [doc_id] through [get] with
    a default and never raises [KeyError]. A drawn passage without [text]
    gets the contradiction of the empty string as its text, and one without
    [doc_id] gets the identifier ["__POISON"]. *)
Theorem corpus_injector_defaults (make_contradictory_passage : string → string)
    (sample : Z → nat → nat → list nat) (self : Poisoner)
    (corpus : list Passage) :
  sampler_spec sample →
  PyFloat.gt (rate self) 0%float = true →
  (∀ key : string,
     apply_to_corpus make_contradictory_passage sample self corpus
     ≠ Raise (KeyError key))
  ∧ ∀ (out : list Passage) (i : nat) (p : Passage),
      apply_to_corpus make_contradictory_passage sample self corpus = Ok out →
      i ∈ selected_corpus sample (seed self) (length corpus) (rate self) →
      corpus !! i = Some p →
      ∃ q : Passage,
        out !! i = Some q
        ∧ (p !! "text" = None →
           q !! "text" = Some (VStr (make_contradictory_passage "")))
        ∧ (p !! "doc_id" = None → q !! "doc_id" = Some (VStr "__POISON")).
Proof.
  intros Hs Hr. unfold apply_to_corpus, selected_corpus.
  change (PyFloat.of_int 0) with 0%float. rewrite (gt_not_le _ _ Hr).
  split.
  - intros key H.
    destruct (sample_size_corpus (length corpus) (rate self)) as [k|e] eqn:Hk.
    + simpl in H. apply poison_loop_error in H as [H|[p H]]; [discriminate |].
      unfold poison_corpus_at in H.
      destruct (get p "text" (VStr "")); [| discriminate]. simpl in H.
      match type of H with
      | context [as_str ?v TypeError] => destruct v
      end; discriminate.
    + simpl in H. unfold sample_size_corpus, py_int in Hk.
      destruct (Prim2SF _); simpl in Hk; congruence.
  - intros out i p H Hi Hp.
    destruct (sample_size_corpus (length corpus) (rate self)) as [k|e] eqn:Hk;
      [| discriminate].
    simpl in H.
    destruct (Hs (seed self) (length corpus) k) as (_ & Hnd & _);
      [by eapply sample_size_corpus_le |].
    destruct (poison_loop_inv _ _ _ _ Hnd H) as (_ & _ & Hin).
    destruct (Hin i Hi) as (p0 & q & Hp0 & Hf & Hq).
    rewrite Hp in Hp0. injection Hp0 as <-.
    exists q. split; [done |].
    apply poison_corpus_at_fields in Hf as (s & d & Hs' & Hd & Ht & _ & Hdoc & _).
    unfold get in Hs', Hd. split.
    + intros Hnone. rewrite Hnone in Hs'. simpl in Hs'. by injection Hs' as <-.
    + intros Hnone. rewrite Hnone in Hd. simpl in Hd. by injection Hd as <-.
Qed.

Lemma corpus_injector_defaults_witness :
  sampler_spec demo_sample
  ∧ PyFloat.gt (rate (mkPoisoner "any" 1.0%float 7)) 0%float = true
  ∧ ∀ key : string,
      apply_to_corpus demo_negate demo_sample (mkPoisoner "any" 1.0%float 7)
        [ ({[ "title" := VStr "Paris" ]} : Passage) ]
      ≠ Raise (KeyError key).
Proof.
  assert (H1 : sampler_spec demo_sample) by exact demo_sample_ok.
  assert (H2 : PyFloat.gt (rate (mkPoisoner "any" 1.0%float 7)) 0%float = true)
    by reflexivity.
  do 2 (split; [assumption |]).
  exact (proj1 (corpus_injector_defaults demo_negate demo_sample
                  (mkPoisoner "any" 1.0%float 7)
                  [ ({[ "title" := VStr "Paris" ]} : Passage) ] H1 H2)).
Defined.

(** Counting the marked positions of a list. *)
Lemma filter_length_indices {A : Type} (P : A → Prop) `{!∀ x, Decision (P x)}
    (Q : nat → Prop) `{!∀ i, Decision (Q i)} (l : list A) :
  (∀ (i : nat) (x : A), l !! i = Some x → P x ↔ Q i) →
  length (filter P l) = length (filter Q (seq 0 (length l))).
Proof.
  induction l as [|x l IH] using rev_ind; intros Hl; [done |].
  rewrite length_app. simpl. rewrite Nat.add_1_r, seq_S, !filter_app, !length_app.
  simpl. rewrite IH.
  - f_equal. rewrite !filter_cons, !filter_nil.
    assert (Hx : P x ↔ Q (length l)).
    { apply Hl. by rewrite lookup_app_r, Nat.sub_diag. }
    destruct (decide (P x)), (decide (Q (length l))); tauto || done.
  - intros i y Hy. apply Hl. by apply lookup_app_l_Some.
Qed.

Lemma marked_count (l : list Passage) (idxs : list nat) :
  NoDup idxs →
  (∀ i : nat, i ∈ idxs → (i < length l)%nat) →
  (∀ (i : nat) (p : Passage), l !! i = Some p → is_marked p = true ↔ i ∈ idxs) →
  injected l = length idxs.
Proof.
  intros Hnd Hlt Hiff. unfold injected.
  rewrite (filter_length_indices _ (λ i, i ∈ idxs)) by done.
  apply Permutation_length, NoDup_Permutation; [| done |].
  - apply NoDup_filter, NoDup_seq.
  - intros i. rewrite list_elem_of_filter, elem_of_seq. split; [tauto |].
    intros Hi. split; [done |]. specialize (Hlt i Hi). lia.
Qed.

(** X8: after retrieval-set poisoning, the count [injected] that [run_one]
    takes over the poisoned list (the passages whose [is_poison] is true)
    is the number of indices drawn, whatever markers the retrieved
    passages carried before. *)
Theorem injected_counts_drawn (make_contradictory_passage : string → string)
    (sample : Z → nat → nat → list nat) (self : Poisoner)
    (retrieved out : list Passage) (k : nat) :
  sampler_spec sample →
  strategy self = "contradictory_passage" →
  PyFloat.gt (rate self) 0%float = true →
  sample_size_retrieved (length retrieved) (rate self) = Ok k →
  apply make_contradictory_passage sample self retrieved = Ok out →
  injected out = k.
Proof.
  intros Hs Hst Hr Hk. rewrite (apply_contradictory _ _ _ _ Hr Hst).
  unfold inject_synthetic_poison. rewrite length_fmap, Hk. simpl. intros H.
  destruct (Hs (seed self) (length retrieved) k) as (Hlen & Hnd & Hlt);
    [by eapply sample_size_retrieved_le |].
  destruct (poison_loop_inv _ _ _ _ Hnd H) as (Hl & Hun & Hin).
  rewrite length_fmap in Hl.
  rewrite <- Hlen. apply marked_count; [done | by rewrite Hl |].
  intros i p Hp.
  destruct (decide (i ∈ sample (seed self) (length retrieved) k)) as [Hi|Hi].
  - destruct (Hin i Hi) as (q & q' & _ & Hf & Hq').
    rewrite Hp in Hq'. injection Hq' as <-.
    apply poison_retrieved_at_fields in Hf as (? & ? & _ & _ & _ & Hm & _).
    unfold is_marked. rewrite Hm. done.
  - rewrite (Hun i Hi), list_lookup_fmap in Hp.
    destruct (retrieved !! i) as [r|]; [| discriminate].
    injection Hp as <-. unfold is_marked. rewrite lookup_insert_eq. simpl.
    split; [discriminate | done].
Qed.

Lemma injected_counts_drawn_witness :
  sampler_spec demo_sample
  ∧ strategy demo_poisoner = "contradictory_passage"
  ∧ PyFloat.gt (rate demo_poisoner) 0%float = true
  ∧ sample_size_retrieved (length demo_passages) (rate demo_poisoner) = Ok 1%nat
  ∧ ∃ out : list Passage,
      apply demo_negate demo_sample demo_poisoner demo_passages = Ok out
      ∧ injected out = 1%nat.
Proof.
  assert (H1 : sampler_spec demo_sample) by exact demo_sample_ok.
  assert (H2 : strategy demo_poisoner = "contradictory_passage") by reflexivity.
  assert (H3 : PyFloat.gt (rate demo_poisoner) 0%float = true) by reflexivity.
  assert (H4 : sample_size_retrieved (length demo_passages) (rate demo_poisoner)
               = Ok 1%nat) by reflexivity.
  do 4 (split; [assumption |]).
  eexists. split; [reflexivity |].
  exact (injected_counts_drawn demo_negate demo_sample demo_poisoner
           demo_passages _ 1 H1 H2 H3 H4 eq_refl).
Defined.

(** ** Verifier and decision engine together *)

Lemma float_le_trans (a b c : float) :
  PyFloat.le a b = true → PyFloat.le b c = true → PyFloat.le a c = true.
Proof. rewrite !le_spec. unfold PyFloat.lex3_lt. intuition lia. Qed.

Lemma one_is_not_zero : 1.0%float ≠ 0.0%float.
Proof. intros H. apply (f_equal Prim2SF) in H. vm_compute in H. discriminate. Qed.

(** X9: multi mode records one vote, so [conflict] is false and the two
    strengths are 1 for the side of the vote and 0 otherwise. With the
    default decision parameters the label is SUPPORTS for an [entail]
    vote, REFUTES for [contradict] and NOT ENOUGH INFO for [neutral]; the
    yes/no answer derived from the label is [yes], [no], [unknown]; and
    the hallucination proxy is 1 exactly for a [contradict] vote. *)
Theorem multi_mode_decision (self : MultiSourceVerifier) (query : string)
    (passages : list Passage) (v : Verification Detail) :
  _analyze_multi self query passages = Ok v →
  ∃ d : Detail,
    details v = Some [d]
    ∧ mode d = "multi"
    ∧ conflict v = Some false
    ∧ support_strength v
      = Some (if decide (vote d = entail) then 1.0%float else 0.0%float)
    ∧ contradiction_strength v
      = Some (if decide (vote d = contradict) then 1.0%float else 0.0%float)
    ∧ predict_label_from_verification None v = label_text (vote_label (vote d))
    ∧ hotpot_yesno_from_verifier_label (predict_label_from_verification None v)
      = vote_yesno (vote d)
    ∧ hallucination_proxy v
      = Ok (if decide (vote d = contradict) then 1.0%float else 0.0%float).
Proof.
  unfold _analyze_multi.
  destruct (multi_texts _) as [texts|e]; [| discriminate]. simpl.
  intros [= <-]. eexists. split; [reflexivity |]. simpl.
  destruct (_vote_from_score self _); by vm_compute.
Qed.

Lemma multi_mode_decision_witness :
  ∃ (v : Verification Detail) (d : Detail),
    _analyze_multi demo_verifier demo_query demo_passages = Ok v
    ∧ details v = Some [d]
    ∧ conflict v = Some false
    ∧ predict_label_from_verification None v = label_text (vote_label (vote d)).
Proof.
  eexists.
  destruct (multi_mode_decision demo_verifier demo_query demo_passages _ eq_refl)
    as (d & Hd & _ & Hc & _ & _ & Hl & _).
  exists d. split; [reflexivity |]. split; [exact Hd |]. split; [exact Hc |].
  exact Hl.
Defined.

Lemma multi_texts_ok (top : list Passage) :
  Forall text_is_str top → multi_texts top = Ok (omap nonempty_text top).
Proof.
  induction 1 as [|p ps Hp _ IH]; [done |].
  simpl. unfold nonempty_text, get.
  destruct Hp as [Hp|[s Hp]]; rewrite Hp; [done |]. simpl.
  destruct (String.eqb s ""); simpl; [done |]. by rewrite IH.
Qed.

Lemma single_loop_raise (self : MultiSourceVerifier) (query : string)
    (l1 l2 : list Passage) (p : Passage) (st : Votes * list Detail) :
  Forall has_text l1 → p !! "text" = None →
  single_loop self query (l1 ++ p :: l2) st = Raise (KeyError "text").
Proof.
  intros H Hp. revert st. induction H as [|q qs Hq _ IH]; intros st; simpl.
  - unfold single_step, getitem. by rewrite Hp.
  - rewrite (single_step_ok _ _ _ _ Hq). simpl. apply IH.
Qed.

(** X10: on passages whose [text], where present, is a string, a passage
    without [text] makes single mode raise [KeyError("text")], while multi
    mode returns: it joins the non-empty texts of the first [top_n_multi]
    passages and skips the others. *)
Theorem missing_text_single_vs_multi (self : MultiSourceVerifier)
    (query : string) (passages : list Passage) (i : nat) (p : Passage) :
  Forall text_is_str passages →
  Forall has_text (take i passages) →
  passages !! i = Some p →
  p !! "text" = None →
  _analyze_single self query passages = Raise (KeyError "text")
  ∧ ∃ (v : Verification Detail) (d : Detail),
      _analyze_multi self query passages = Ok v
      ∧ details v = Some [d]
      ∧ text d
        = VStr (String.concat " "
                  (omap nonempty_text (slice_to passages (top_n_multi self)))).
Proof.
  intros Hall Hpre Hp Hnone. split.
  - unfold _analyze_single.
    rewrite <- (take_drop_middle passages i p Hp).
    by rewrite (single_loop_raise _ _ _ _ _ _ Hpre Hnone).
  - unfold _analyze_multi. rewrite multi_texts_ok.
    + simpl. eauto.
    + unfold slice_to. destruct (0 <=? _); by apply Forall_take.
Qed.

Lemma missing_text_single_vs_multi_witness :
  Forall text_is_str [ ({[ "title" := VStr "Paris" ]} : Passage) ]
  ∧ _analyze_single demo_verifier demo_query
      [ ({[ "title" := VStr "Paris" ]} : Passage) ]
    = Raise (KeyError "text")
  ∧ ∃ v : Verification Detail,
      _analyze_multi demo_verifier demo_query
        [ ({[ "title" := VStr "Paris" ]} : Passage) ] = Ok v.
Proof.
  assert (H1 : Forall text_is_str [ ({[ "title" := VStr "Paris" ]} : Passage) ]).
  { repeat constructor. }
  destruct (missing_text_single_vs_multi demo_verifier demo_query
              [ ({[ "title" := VStr "Paris" ]} : Passage) ] 0
              {[ "title" := VStr "Paris" ]} H1 (Forall_nil_2 _) eq_refl eq_refl)
    as (Hs & v & d & Hm & _).
  split; [exact H1 |]. split; [exact Hs |]. by exists v.
Defined.

Lemma tally_pos (x : Vote) (ds : list Detail) (d : Detail) :
  d ∈ ds → vote d = x → (0 < tally x ds)%nat.
Proof.
  intros Hd Hx. unfold tally.
  assert (Hin : d ∈ filter (λ d, vote d = x) ds) by (by apply list_elem_of_filter).
  destruct (filter _ ds); [by apply elem_of_nil in Hin | simpl; lia].
Qed.

(** X11: in single mode, as soon as one verified passage votes [entail]
    and another votes [contradict], [conflict] is true and, with
    [conflict_nei] left at its default or set, the label is NOT ENOUGH
    INFO, whatever the strengths, [min_strength] and [margin] are. *)
Theorem single_conflict_is_nei (self : MultiSourceVerifier) (query : string)
    (passages : list Passage) (v : Verification Detail)
    (params : option DecisionParams) (p1 p2 : Passage) :
  _analyze_single self query passages = Ok v →
  default true (conflict_nei (default default_decision_params params)) = true →
  p1 ∈ passages → p2 ∈ passages →
  vote (single_detail self query p1) = entail →
  vote (single_detail self query p2) = contradict →
  conflict v = Some true
  ∧ predict_label_from_verification params v = "NOT ENOUGH INFO".
Proof.
  intros H Hnei Hp1 Hp2 Hv1 Hv2. unfold _analyze_single in H.
  destruct (single_loop self query passages (no_votes, [])) as [st|e] eqn:Hl;
    [| discriminate].
  pose proof (single_loop_inv _ _ _ _ _ Hl) as Hall.
  rewrite (single_loop_ok _ _ _ _ Hall) in Hl. injection Hl as <-.
  simpl in H. injection H as <-.
  pose proof (foldl_add_vote no_votes (single_detail self query <$> passages))
    as (He & Hc & _). simpl in He, Hc.
  assert (H1 : (0 < tally entail (single_detail self query <$> passages))%nat).
  { eapply tally_pos; [| exact Hv1]. by apply list_elem_of_fmap_2. }
  assert (H2 : (0 < tally contradict (single_detail self query <$> passages))%nat).
  { eapply tally_pos; [| exact Hv2]. by apply list_elem_of_fmap_2. }
  assert (Hcf : (0 <? votes_entail
                     (foldl add_vote no_votes
                        (vote <$> (single_detail self query <$> passages))))%nat
                && (0 <? votes_contradict
                       (foldl add_vote no_votes
                          (vote <$> (single_detail self query <$> passages))))%nat
                = true).
  { rewrite He, Hc. apply andb_true_intro.
    split; apply Nat.ltb_lt; assumption. }
  unfold predict_label_from_verification. simpl. rewrite Hcf. simpl.
  split; [done |]. by rewrite Hnei.
Qed.

Lemma single_conflict_is_nei_witness :
  ∃ v : Verification Detail,
    _analyze_single demo_verifier demo_query demo_passages = Ok v
    ∧ conflict v = Some true
    ∧ predict_label_from_verification None v = "NOT ENOUGH INFO".
Proof.
  eexists. split; [reflexivity |].
  refine (single_conflict_is_nei demo_verifier demo_query demo_passages _ None
            {[ "doc_id" := VStr "Paris"; "title" := VStr "Paris";
               "sent_id" := VStr "0";
               "text" := VStr "Paris is the capital of France." ]}
            {[ "doc_id" := VStr "Lyon"; "title" := VStr "Lyon";
               "text" := VStr "Paris is not in France." ]}
            eq_refl eq_refl _ _ eq_refl eq_refl).
  - by left.
  - right. by left.
Defined.

(** X12: raising the thresholds of the vote rule can only turn a vote
    into [neutral]: under thresholds that are at least those of another
    verifier, the vote on the same scores is the vote of that verifier or
    [neutral]. *)
Theorem stricter_thresholds_only_neutralise (lax strict : MultiSourceVerifier)
    (sc : NLI.scores) :
  PyFloat.le (thr_con lax) (thr_con strict) = true →
  PyFloat.le (thr_ent lax) (thr_ent strict) = true →
  _vote_from_score strict sc = _vote_from_score lax sc
  ∨ _vote_from_score strict sc = neutral.
Proof.
  intros Hc He. unfold _vote_from_score.
  set (e := NLI.entailment sc). set (c := NLI.contradiction sc).
  destruct (PyFloat.ge c (thr_con strict)) eqn:H1; simpl.
  - assert (H1' : PyFloat.ge c (thr_con lax) = true).
    { unfold PyFloat.ge in *. exact (float_le_trans _ _ _ Hc H1). }
    rewrite H1'. simpl.
    destruct (PyFloat.gt c e) eqn:H2; [by left |].
    destruct (PyFloat.ge e (thr_ent strict)) eqn:H3; simpl; [| by right].
    assert (H3' : PyFloat.ge e (thr_ent lax) = true).
    { unfold PyFloat.ge in *. exact (float_le_trans _ _ _ He H3). }
    rewrite H3'. by left.
  - destruct (PyFloat.ge e (thr_ent strict)) eqn:H3; simpl; [| by right].
    destruct (PyFloat.gt e c) eqn:H4; [| by right].
    assert (H3' : PyFloat.ge e (thr_ent lax) = true).
    { unfold PyFloat.ge in *. exact (float_le_trans _ _ _ He H3). }
    assert (H4' : PyFloat.gt c e = false).
    { unfold PyFloat.gt in *. exact (lt_asym _ _ H4). }
    rewrite H4', andb_false_r, H3'. by left.
Qed.

Lemma stricter_thresholds_only_neutralise_witness :
  PyFloat.le (thr_con demo_verifier) 0.9%float = true
  ∧ PyFloat.le (thr_ent demo_verifier) 0.95%float = true
  ∧ (_vote_from_score (mkVerifier (nli demo_verifier) 0.9%float 0.95%float 5)
       (NLI.mkScores 0.02%float 0.08%float 0.9%float)
     = _vote_from_score demo_verifier
         (NLI.mkScores 0.02%float 0.08%float 0.9%float)
     ∨ _vote_from_score (mkVerifier (nli demo_verifier) 0.9%float 0.95%float 5)
         (NLI.mkScores 0.02%float 0.08%float 0.9%float)
       = neutral).
Proof.
  assert (H1 : PyFloat.le (thr_con demo_verifier) 0.9%float = true) by reflexivity.
  assert (H2 : PyFloat.le (thr_ent demo_verifier) 0.95%float = true) by reflexivity.
  do 2 (split; [assumption |]).
  exact (stricter_thresholds_only_neutralise demo_verifier
           (mkVerifier (nli demo_verifier) 0.9%float 0.95%float 5)
           (NLI.mkScores 0.02%float 0.08%float 0.9%float) H1 H2).
Defined.

(** X13: the rules of the threshold ablation are nested. For the
    verifier that each rule configures, the vote under any rule of
    [DECISION_RULES] is the vote under [balanced] (0.30, 0.30) or
    [neutral], and the vote under [conservative] (0.40, 0.45) is the vote
    under that rule or [neutral]. *)
Theorem ablation_rules_nest (nli : string → string → NLI.scores) (cfg : RunCfg)
    (sc : NLI.scores) (name : string) (params : float * float) :
  (name, params) ∈ DECISION_RULES →
  let vote_of := λ ps : float * float,
    _vote_from_score (pipeline_verifier nli (cfg_rule cfg ps)) sc in
  (vote_of params = vote_of (0.30%float, 0.30%float) ∨ vote_of params = neutral)
  ∧ (vote_of (0.40%float, 0.45%float) = vote_of params
     ∨ vote_of (0.40%float, 0.45%float) = neutral).
Proof.
  intros Hin vote_of. unfold DECISION_RULES in Hin.
  rewrite !elem_of_cons, elem_of_nil in Hin.
  destruct Hin as [[= -> ->]|[[= -> ->]|[[= -> ->]|[]]]];
    split; apply stricter_thresholds_only_neutralise; reflexivity.
Qed.

Lemma ablation_rules_nest_witness :
  ("strict", (0.40%float, 0.40%float)) ∈ DECISION_RULES
  ∧ ∀ (nli : string → string → NLI.scores) (cfg : RunCfg) (sc : NLI.scores),
      _vote_from_score (pipeline_verifier nli (cfg_rule cfg (0.40%float, 0.40%float))) sc
      = _vote_from_score (pipeline_verifier nli (cfg_rule cfg (0.30%float, 0.30%float))) sc
      ∨ _vote_from_score (pipeline_verifier nli (cfg_rule cfg (0.40%float, 0.40%float))) sc
        = neutral.
Proof.
  assert (H : ("strict", (0.40%float, 0.40%float)) ∈ DECISION_RULES) by (by left).
  split; [exact H |]. intros nli cfg sc.
  exact (proj1 (ablation_rules_nest nli cfg sc _ _ H)).
Defined.



(** ** Evidence fusion: order, limits and single sources *)


(** A list that descends already is left as it is. *)
Lemma sorted_desc_id (l : list (float * Passage)) :
  StronglySorted (λ a b : float * Passage, PyFloat.lt a.1 b.1 = false) l →
  sorted_desc l = l.
Proof.
  induction 1 as [|x l Hl IH Hx]; [done |].
  simpl. rewrite IH. destruct l as [|y l']; [done |].
  simpl. apply Forall_cons in Hx as [Hxy _]. by rewrite Hxy.
Qed.

Lemma sorted_by_key (l : list (float * Passage)) :
  StronglySorted (λ a b : float, PyFloat.lt a b = false) l.*1 →
  StronglySorted (λ a b : float * Passage, PyFloat.lt a.1 b.1 = false) l.
Proof.
  induction l as [|x l IH]; [constructor |].
  rewrite fmap_cons. intros H. apply StronglySorted_inv in H as [Hl Hx].
  constructor; [by apply IH |].
  apply Forall_fmap in Hx. exact Hx.
Qed.

Lemma best_values_scored (scored : list (float * Passage)) (best : Best)
    (sp : float * Passage) :
  best_inv scored best → sp ∈ best.*2 → sp ∈ scored.
Proof.
  intros (Hnd & _ & Hent) Hsp.
  apply list_elem_of_fmap in Hsp as ([key [s p]] & -> & He).
  apply (best_lookup_elem _ _ _ Hnd) in He.
  destruct (Hent key s p He) as (_ & n & Hn & _).
  by eapply list_elem_of_lookup_2.
Qed.

Lemma slice_to_take {A : Type} (l : list A) (n : Z) :
  ∃ m : nat, slice_to l n = take m l.
Proof. unfold slice_to. destruct (0 <=? n); eauto. Qed.

Lemma merged_of_elem (scored : list (float * Passage)) (k : Z)
    (sp : float * Passage) :
  Forall (λ sp : float * Passage, PyFloat.is_nan sp.1 = false) scored →
  sp ∈ merged_of scored k → sp ∈ scored.
Proof.
  intros Hnan Hsp. unfold merged_of in Hsp.
  destruct (slice_to_take (sorted_desc (best_of scored).*2) k) as [m Hm].
  rewrite Hm in Hsp. apply elem_of_take in Hsp as (i & Hi & _).
  apply list_elem_of_lookup_2 in Hi. rewrite sorted_desc_perm in Hi.
  eapply best_values_scored; [by apply best_of_inv | done].
Qed.

Lemma merged_of_sorted (scored : list (float * Passage)) (k : Z) :
  Forall (λ sp : float * Passage, PyFloat.is_nan sp.1 = false) scored →
  StronglySorted (λ a b : float * Passage, PyFloat.lt a.1 b.1 = false)
    (merged_of scored k).
Proof.
  intros Hnan. unfold merged_of.
  destruct (slice_to_take (sorted_desc (best_of scored).*2) k) as [m ->].
  apply StronglySorted_take, sorted_desc_sorted.
  apply Forall_forall. intros sp Hsp.
  eapply (proj1 (Forall_forall _ _) Hnan), best_values_scored;
    [by apply best_of_inv | done].
Qed.



Lemma best_assign_fresh (best : Best) (key : Key) (v : float * Passage) :
  key ∉ best.*1 → best_assign best key v = best ++ [(key, v)].
Proof.
  induction best as [|[k0 v0] rest IH]; [done |].
  rewrite fmap_cons, not_elem_of_cons. intros [Hne Hnin]. simpl in *.
  rewrite decide_False by done. by rewrite IH.
Qed.

Lemma best_of_distinct (scored : list (float * Passage)) :
  NoDup ((λ sp : float * Passage, passage_key sp.2) <$> scored) →
  best_of scored = (λ sp : float * Passage, (passage_key sp.2, sp)) <$> scored.
Proof.
  unfold best_of. induction scored as [|x l IH] using rev_ind; [done |].
  rewrite fmap_app, NoDup_app. intros (Hl & Hx & _).
  rewrite fold_left_app, fmap_app, IH by done. simpl.
  assert (Hfresh : passage_key x.2
                   ∉ ((λ sp : float * Passage, (passage_key sp.2, sp)) <$> l).*1).
  { rewrite <- list_fmap_compose. intros Hin. apply (Hx _ Hin). by left. }
  unfold best_step. simpl.
  rewrite (proj2 (best_lookup_None _ _) Hfresh).
  by apply best_assign_fresh.
Qed.

(** X19: with one source enabled, whose results have distinct keys, come
    in descending order of score and are no more than [k], fusion returns
    those passages in the order of the source, each with its rendered
    score attached. *)
Theorem single_source_order_kept (str : float → string) (self : HybridRetriever)
    (query : string) (k : Z) (src : Source) :
  (bm25 self = Some src ∧ dense self = None)
  ∨ (bm25 self = None ∧ dense self = Some src) →
  NoDup ((λ sp : float * Passage, passage_key sp.2) <$> src query k) →
  StronglySorted (λ a b : float * Passage, PyFloat.lt a.1 b.1 = false)
    (src query k) →
  Z.of_nat (length (src query k)) ≤ k →
  retrieve str self query k = attach_score str <$> src query k.
Proof.
  intros Hsrc Hnd Hsorted Hlen.
  assert (Hsc : scored_of self query k = src query k).
  { unfold scored_of. destruct Hsrc as [[-> ->]|[-> ->]]; simpl;
      [apply app_nil_r | done]. }
  assert (Hval : ((λ sp : float * Passage, (passage_key sp.2, sp))
                    <$> src query k).*2 = src query k).
  { rewrite <- list_fmap_compose. apply list_fmap_id. }
  unfold retrieve, fuse, merged_of.
  rewrite Hsc, best_of_distinct, Hval, sorted_desc_id by done.
  rewrite slice_to_nonneg by lia. rewrite take_ge by lia. done.
Qed.

Lemma single_source_order_kept_witness :
  ∃ src : Source,
    ((bm25 (mkHybrid (Some src) None) = Some src
      ∧ dense (mkHybrid (Some src) None) = None)
     ∨ (bm25 (mkHybrid (Some src) None) = None
        ∧ dense (mkHybrid (Some src) None) = Some src))
    ∧ NoDup ((λ sp : float * Passage, passage_key sp.2) <$> src demo_query 2)
    ∧ Z.of_nat (length (src demo_query 2)) ≤ 2
    ∧ retrieve demo_str (mkHybrid (Some src) None) demo_query 2
      = attach_score demo_str <$> src demo_query 2.
Proof.
  exists (λ _ _, zip [1.5%float; 0.5%float] demo_passages).
  set (src := (λ (_ : string) (_ : Z), zip [1.5%float; 0.5%float] demo_passages)).
  assert (H1 : (bm25 (mkHybrid (Some src) None) = Some src
                ∧ dense (mkHybrid (Some src) None) = None)
               ∨ (bm25 (mkHybrid (Some src) None) = None
                  ∧ dense (mkHybrid (Some src) None) = Some src))
    by (left; split; reflexivity).
  assert (H2 : NoDup ((λ sp : float * Passage, passage_key sp.2)
                        <$> src demo_query 2)).
  { vm_compute. apply NoDup_cons_2; [| apply NoDup_singleton].
    rewrite list_elem_of_singleton. discriminate. }
  assert (H3 : StronglySorted
                 (λ a b : float * Passage, PyFloat.lt a.1 b.1 = false)
                 (src demo_query 2)).
  { repeat constructor. }
  assert (H4 : Z.of_nat (length (src demo_query 2)) ≤ 2) by (simpl; lia).
  split; [exact H1 |]. split; [exact H2 |]. split; [exact H4 |].
  exact (single_source_order_kept demo_str (mkHybrid (Some src) None)
           demo_query 2 src H1 H2 H3 H4).
Defined.

(** ** The rerank of [run_one] *)

Section Rerank.

Variable str : float → string.
Variable parse_float : string → option float.

Lemma _score_same (p q : Passage) :
  q !! "score" = p !! "score" → _score parse_float q = _score parse_float p.
Proof. unfold _score. by intros ->. Qed.

Lemma _score_attach (sp : float * Passage) :
  parse_float (str sp.1) = Some sp.1 →
  _score parse_float (attach_score str sp) = sp.1.
Proof.
  intros H. unfold _score, attach_score. by rewrite lookup_insert_eq, H.
Qed.

Lemma ranked_sorted (l : list Passage) :
  StronglySorted (λ a b : float, PyFloat.lt a b = false)
    (_score parse_float <$> l) →
  ranked parse_float l = l.
Proof.
  intros H. unfold ranked. rewrite sorted_desc_id.
  - rewrite <- list_fmap_compose. apply list_fmap_id.
  - apply sorted_by_key. by rewrite <- list_fmap_compose.
Qed.

Lemma fused_scores (scored : list (float * Passage)) (k : Z) :
  Forall (λ s : float, parse_float (str s) = Some s) (merged_of scored k).*1 →
  _score parse_float <$> fuse str scored k = (merged_of scored k).*1.
Proof.
  intros H. unfold fuse. rewrite <- list_fmap_compose.
  apply Forall_fmap in H. apply Forall_fmap_ext_1.
  eapply Forall_impl; [exact H |]. intros sp Hsp. by apply _score_attach.
Qed.

Lemma same_scores (l l' : list Passage) :
  length l' = length l →
  (∀ (i : nat) (p : Passage),
     l !! i = Some p →
     ∃ q : Passage, l' !! i = Some q ∧ q !! "score" = p !! "score") →
  _score parse_float <$> l' = _score parse_float <$> l.
Proof.
  intros Hlen H. apply list_eq. intros i. rewrite !list_lookup_fmap.
  destruct (l !! i) as [p|] eqn:Hp.
  - destruct (H i p Hp) as (q & -> & Hq). simpl. f_equal. by apply _score_same.
  - apply lookup_ge_None in Hp. rewrite <- Hlen in Hp.
    apply lookup_ge_None in Hp. by rewrite Hp.
Qed.

Lemma ranked_after_apply (make_contradictory_passage : string → string)
    (sample : Z → nat → nat → list nat) (scored : list (float * Passage))
    (k : Z) (poisoner : Poisoner) (poisoned : list Passage) :
  Forall (λ sp : float * Passage, PyFloat.is_nan sp.1 = false) scored →
  Forall (λ s : float, parse_float (str s) = Some s) (merged_of scored k).*1 →
  apply make_contradictory_passage sample poisoner (fuse str scored k)
  = Ok poisoned →
  ranked parse_float poisoned = poisoned.
Proof.
  intros Hnan Hrt Happ. apply ranked_sorted.
  destruct (apply_keeps_score _ _ _ _ _ Happ) as (Hlen & Hfr).
  rewrite (same_scores (fuse str scored k) poisoned Hlen Hfr).
  rewrite fused_scores by done.
  eapply StronglySorted_fmap; [| by apply merged_of_sorted].
  by intros x y Hxy.
Qed.

Lemma ranked_fused (scored : list (float * Passage)) (k : Z) :
  Forall (λ sp : float * Passage, PyFloat.is_nan sp.1 = false) scored →
  Forall (λ s : float, parse_float (str s) = Some s) (merged_of scored k).*1 →
  ranked parse_float (fuse str scored k) = fuse str scored k.
Proof.
  intros Hnan Hrt. apply ranked_sorted. rewrite fused_scores by done.
  eapply StronglySorted_fmap; [| by apply merged_of_sorted].
  by intros x y Hxy.
Qed.

End Rerank.

(** X15: the rerank of [run_one] changes nothing. For sources whose scores
    are numbers, and rendered scores that [float] reads back, sorting the
    fused list by [float(p["score"])] in descending order returns it as it
    is, and so does sorting the list that [Poisoner.apply] made of it:
    poisoning keeps the [score] of every position. *)
Theorem rerank_keeps_fused_order (str : float → string)
    (parse_float : string → option float)
    (make_contradictory_passage : string → string)
    (sample : Z → nat → nat → list nat) (self : HybridRetriever)
    (query : string) (k : Z) (poisoner : Poisoner) (poisoned : list Passage) :
  Forall (λ sp : float * Passage, PyFloat.is_nan sp.1 = false)
    (scored_of self query k) →
  Forall (λ s : float, parse_float (str s) = Some s)
    (merged_of (scored_of self query k) k).*1 →
  apply make_contradictory_passage sample poisoner (retrieve str self query k)
  = Ok poisoned →
  ranked parse_float (retrieve str self query k) = retrieve str self query k
  ∧ ranked parse_float poisoned = poisoned.
Proof.
  intros Hnan Hrt Happ. split.
  - by apply ranked_fused.
  - by eapply ranked_after_apply.
Qed.

Lemma demo_merged_scores :
  (merged_of (scored_of demo_hybrid demo_query 5) 5).*1 = [1.5%float; 0.9%float].
Proof. by vm_compute. Qed.

Lemma rerank_keeps_fused_order_witness :
  Forall (λ sp : float * Passage, PyFloat.is_nan sp.1 = false)
    (scored_of demo_hybrid demo_query 5)
  ∧ Forall (λ s : float, demo_parse_float (demo_str s) = Some s)
      (merged_of (scored_of demo_hybrid demo_query 5) 5).*1
  ∧ ∃ poisoned : list Passage,
      apply demo_negate demo_sample demo_poisoner
        (retrieve demo_str demo_hybrid demo_query 5) = Ok poisoned
      ∧ ranked demo_parse_float poisoned = poisoned.
Proof.
  assert (H1 : Forall (λ sp : float * Passage, PyFloat.is_nan sp.1 = false)
                 (scored_of demo_hybrid demo_query 5)).
  { repeat constructor. }
  assert (H2 : Forall (λ s : float, demo_parse_float (demo_str s) = Some s)
                 (merged_of (scored_of demo_hybrid demo_query 5) 5).*1).
  { rewrite demo_merged_scores. repeat constructor. }
  do 2 (split; [assumption |]).
  eexists. split; [reflexivity |].
  exact (proj2 (rerank_keeps_fused_order demo_str demo_parse_float demo_negate
                  demo_sample demo_hybrid demo_query 5 demo_poisoner _
                  H1 H2 eq_refl)).
Defined.

(** ** One query through the pipeline *)

Lemma ranked_perm (parse_float : string → option float) (l : list Passage) :
  ranked parse_float l ≡ₚ l.
Proof.
  unfold ranked. rewrite sorted_desc_perm, <- list_fmap_compose.
  by rewrite list_fmap_id.
Qed.

Lemma mapM_Result_cons {A B : Type} (f : A → Result B) (x : A) (l : list A) :
  mapM f (x :: l) = (y ← f x; k ← mapM f l; Ok (y :: k)).
Proof. reflexivity. Qed.

Lemma mapM_getitem_text (l : list Passage) :
  Forall has_text l →
  ∃ vs : list PyVal, mapM (λ p : Passage, getitem p "text") l = Ok vs.
Proof.
  induction 1 as [|p ps [s Hp] _ [vs IH]]; [by eexists |].
  rewrite mapM_Result_cons, IH. unfold getitem. rewrite Hp. by eexists.
Qed.

Lemma has_text_is_str (l : list Passage) :
  Forall has_text l → Forall text_is_str l.
Proof. intros H. eapply Forall_impl; [exact H |]. intros p Hp. by right. Qed.

Lemma analyze_ok (self : MultiSourceVerifier) (query : string)
    (passages : list Passage) (mode : string) :
  Forall has_text passages →
  ∃ v : Verification Detail, analyze self query passages mode = Ok v.
Proof.
  intros H. unfold analyze. destruct (String.eqb mode "multi").
  - unfold _analyze_multi. rewrite multi_texts_ok; [by eexists |].
    destruct (slice_to_take passages (top_n_multi self)) as [m ->].
    by apply Forall_take, has_text_is_str.
  - unfold _analyze_single. rewrite (single_loop_ok _ _ _ _ H). by eexists.
Qed.

Section RunOne.

Variable str : float → string.
Variable parse_float : string → option float.
Variable make_contradictory_passage : string → string.
Variable sample : Z → nat → nat → list nat.

Lemma fused_poisonable (scored : list (float * Passage)) (k : Z) :
  Forall (λ sp : float * Passage, PyFloat.is_nan sp.1 = false) scored →
  Forall (λ sp : float * Passage, poisonable sp.2) scored →
  Forall poisonable (fuse str scored k).
Proof.
  intros Hnan Hp. unfold fuse. apply Forall_fmap, Forall_forall.
  intros sp Hsp. apply (merged_of_elem _ _ _ Hnan) in Hsp.
  destruct (proj1 (Forall_forall _ _) Hp sp Hsp) as [[s Hs] [d Hd]].
  unfold attach_score. split; [exists s | exists d];
    by rewrite lookup_insert_ne.
Qed.

Lemma apply_has_text (self : Poisoner) (retrieved : list Passage) (k : nat) :
  sampler_spec sample →
  Forall poisonable retrieved →
  sample_size_retrieved (length retrieved) (rate self) = Ok k →
  ∃ out : list Passage,
    apply make_contradictory_passage sample self retrieved = Ok out
    ∧ Forall has_text out.
Proof.
  intros Hs Hall Hk.
  assert (Hret : Forall has_text retrieved).
  { eapply Forall_impl; [exact Hall |]. by intros p [Ht _]. }
  unfold apply. destruct (PyFloat.le _ _); [by eauto |].
  destruct (String.eqb _ _); [| by eauto].
  destruct (inject_spec make_contradictory_passage sample Hs retrieved
              (rate self) (seed self) k Hall Hk) as (out & Ho & Hl & Hun & Hin).
  exists out. split; [done |]. apply Forall_lookup. intros i q Hq.
  destruct (lookup_lt_is_Some_2 retrieved i) as [p Hp].
  { rewrite <- Hl. by eapply lookup_lt_Some. }
  destruct (decide (i ∈ sample (seed self) (length retrieved) k)) as [Hi|Hi].
  - destruct (Hin i Hi) as (p0 & p' & _ & Hp' & Hf).
    rewrite Hq in Hp'. injection Hp' as <-.
    apply poison_retrieved_at_fields in Hf as (s & d & _ & _ & Ht & _).
    by eexists.
  - rewrite (Hun i p Hi Hp) in Hq. injection Hq as <-.
    destruct (Forall_lookup_1 _ _ _ _ Hret Hp) as [s Hs'].
    exists s. by rewrite lookup_insert_ne.
Qed.

End RunOne.

(** X16: under the same conditions, whenever [run_one] returns, its
    [retrieved] entry is the fused list, [poisoned] has the same length,
    the verification is that of the first [min(top_n_verify, len)]
    passages of [poisoned] in fused order, and without a generator the
    list of generations is empty. *)
Theorem run_one_verifies_top (str : float → string)
    (parse_float : string → option float)
    (make_contradictory_passage : string → string)
    (sample : Z → nat → nat → list nat) (self : RAGTrustPipeline)
    (claim mode : string) (out : RunOut) :
  Forall (λ sp : float * Passage, PyFloat.is_nan sp.1 = false)
    (scored_of (retriever self) claim (retrieval_k (cfg self))) →
  Forall (λ s : float, parse_float (str s) = Some s)
    (merged_of (scored_of (retriever self) claim (retrieval_k (cfg self)))
       (retrieval_k (cfg self))).*1 →
  run_one str parse_float make_contradictory_passage sample self claim mode
  = Ok out →
  out_retrieved out = retrieve str (retriever self) claim (retrieval_k (cfg self))
  ∧ length (out_poisoned out) = length (out_retrieved out)
  ∧ analyze (verifier self) claim
      (slice_to (out_poisoned out)
         (Z.min (top_n_verify (cfg self))
            (Z.of_nat (length (out_poisoned out)))))
      mode
    = Ok (out_verification out)
  ∧ (generator self = None → out_generations out = []).
Proof.
  intros Hnan Hrt. unfold run_one, run_one_poisoned.
  set (retrieved := retrieve str (retriever self) claim (retrieval_k (cfg self))).
  assert (Hpo : ∀ poisoned : list Passage,
            (if Cfg.enabled (poisoning (cfg self))
                && String.eqb (Cfg.target (poisoning (cfg self))) "retrieval_set"
             then apply make_contradictory_passage sample (poisoner self) retrieved
             else Ok retrieved) = Ok poisoned →
            length poisoned = length retrieved
            ∧ ranked parse_float poisoned = poisoned).
  { intros poisoned. destruct (_ && _).
    - intros Happ. split; [by apply apply_keeps_score in Happ as [? _] |].
      by eapply ranked_after_apply.
    - intros [= <-]. split; [done |]. by apply ranked_fused. }
  destruct (if Cfg.enabled (poisoning (cfg self))
               && String.eqb (Cfg.target (poisoning (cfg self))) "retrieval_set"
            then apply make_contradictory_passage sample (poisoner self) retrieved
            else Ok retrieved) as [poisoned|e] eqn:Hpe; [| discriminate].
  destruct (Hpo poisoned ltac:(first [exact Hpe | reflexivity])) as [Hlen Hrk].
  simpl.
  unfold to_verify. rewrite Hrk.
  destruct (analyze _ _ _ _) as [v|e] eqn:Hv; [| discriminate]. simpl.
  destruct (generator self) as [generate|].
  - destruct (build_meta_prompt _ _); [| discriminate]. simpl.
    intros [= <-]. simpl. done.
  - simpl. intros [= <-]. simpl. done.
Qed.

Lemma demo_round_trip :
  Forall (λ s : float, demo_parse_float (demo_str s) = Some s)
    (merged_of (scored_of demo_hybrid demo_query 5) 5).*1.
Proof. rewrite demo_merged_scores. repeat constructor. Qed.

Lemma run_one_verifies_top_witness :
  Forall (λ sp : float * Passage, PyFloat.is_nan sp.1 = false)
    (scored_of (retriever demo_pipeline) demo_query
       (retrieval_k (cfg demo_pipeline)))
  ∧ Forall (λ s : float, demo_parse_float (demo_str s) = Some s)
      (merged_of (scored_of (retriever demo_pipeline) demo_query
                    (retrieval_k (cfg demo_pipeline)))
         (retrieval_k (cfg demo_pipeline))).*1
  ∧ ∃ out : RunOut,
      run_one demo_str demo_parse_float demo_negate demo_sample demo_pipeline
        demo_query "single" = Ok out
      ∧ length (out_poisoned out) = length (out_retrieved out)
      ∧ out_generations out = [].
Proof.
  assert (H1 : Forall (λ sp : float * Passage, PyFloat.is_nan sp.1 = false)
                 (scored_of (retriever demo_pipeline) demo_query
                    (retrieval_k (cfg demo_pipeline)))).
  { repeat constructor. }
  assert (H2 : Forall (λ s : float, demo_parse_float (demo_str s) = Some s)
                 (merged_of (scored_of (retriever demo_pipeline) demo_query
                               (retrieval_k (cfg demo_pipeline)))
                    (retrieval_k (cfg demo_pipeline))).*1)
    by exact demo_round_trip.
  do 2 (split; [assumption |]).
  assert (Hrun : ∃ out : RunOut,
            run_one demo_str demo_parse_float demo_negate demo_sample
              demo_pipeline demo_query "single" = Ok out)
    by (eexists; reflexivity).
  destruct Hrun as [out Hrun]. exists out. split; [exact Hrun |].
  destruct (run_one_verifies_top demo_str demo_parse_float demo_negate
              demo_sample demo_pipeline demo_query "single" out H1 H2 Hrun)
    as (_ & Hl & _ & Hg).
  split; [exact Hl | exact (Hg eq_refl)].
Defined.

(** X17: [run_one] returns, in either verifier mode and with or without a
    generator, whenever the sources give numbers as scores and passages
    with a string [text] and a string [doc_id], and the number of passages
    to poison is computed (the rate times the length is finite). *)
Theorem run_one_total (str : float → string)
    (parse_float : string → option float)
    (make_contradictory_passage : string → string)
    (sample : Z → nat → nat → list nat) (self : RAGTrustPipeline)
    (claim mode : string) (n : nat) :
  let scored := scored_of (retriever self) claim (retrieval_k (cfg self)) in
  let retrieved := retrieve str (retriever self) claim (retrieval_k (cfg self)) in
  sampler_spec sample →
  Forall (λ sp : float * Passage, PyFloat.is_nan sp.1 = false) scored →
  Forall (λ sp : float * Passage, poisonable sp.2) scored →
  sample_size_retrieved (length retrieved) (rate (poisoner self)) = Ok n →
  ∃ out : RunOut,
    run_one str parse_float make_contradictory_passage sample self claim mode
    = Ok out.
Proof.
  intros scored retrieved Hs Hnan Hpo Hn. unfold run_one, run_one_poisoned.
  fold retrieved.
  assert (Hret : Forall poisonable retrieved) by (by apply fused_poisonable).
  assert (Hp : ∃ poisoned : list Passage,
            (if Cfg.enabled (poisoning (cfg self))
                && String.eqb (Cfg.target (poisoning (cfg self))) "retrieval_set"
             then apply make_contradictory_passage sample (poisoner self) retrieved
             else Ok retrieved) = Ok poisoned
            ∧ Forall has_text poisoned).
  { destruct (_ && _).
    - by eapply apply_has_text.
    - exists retrieved. split; [done |].
      eapply Forall_impl; [exact Hret |]. by intros p [Ht _]. }
  destruct Hp as (poisoned & -> & Htext). simpl.
  assert (Hver : Forall has_text
            (to_verify parse_float (top_n_verify (cfg self)) poisoned)).
  { unfold to_verify.
    destruct (slice_to_take (ranked parse_float poisoned)
                (Z.min (top_n_verify (cfg self))
                   (Z.of_nat (length (ranked parse_float poisoned)))))
      as [m ->].
    apply Forall_take. by rewrite ranked_perm. }
  destruct (analyze_ok (verifier self) claim _ mode Hver) as [v ->]. simpl.
  destruct (generator self) as [generate|]; [| by eexists].
  unfold build_meta_prompt.
  destruct (mapM_getitem_text
              (slice_to (to_verify parse_float (top_n_verify (cfg self)) poisoned) 6))
    as [vs ->].
  { destruct (slice_to_take
                (to_verify parse_float (top_n_verify (cfg self)) poisoned) 6)
      as [m ->].
    by apply Forall_take. }
  simpl. by eexists.
Qed.

Lemma run_one_total_witness :
  sampler_spec demo_sample
  ∧ Forall (λ sp : float * Passage, PyFloat.is_nan sp.1 = false)
      (scored_of (retriever demo_pipeline) demo_query
         (retrieval_k (cfg demo_pipeline)))
  ∧ Forall (λ sp : float * Passage, poisonable sp.2)
      (scored_of (retriever demo_pipeline) demo_query
         (retrieval_k (cfg demo_pipeline)))
  ∧ sample_size_retrieved
      (length (retrieve demo_str (retriever demo_pipeline) demo_query
                 (retrieval_k (cfg demo_pipeline))))
      (rate (poisoner demo_pipeline)) = Ok 1%nat
  ∧ ∃ out : RunOut,
      run_one demo_str demo_parse_float demo_negate demo_sample demo_pipeline
        demo_query "multi" = Ok out.
Proof.
  assert (H1 : sampler_spec demo_sample) by exact demo_sample_ok.
  assert (H2 : Forall (λ sp : float * Passage, PyFloat.is_nan sp.1 = false)
                 (scored_of (retriever demo_pipeline) demo_query
                    (retrieval_k (cfg demo_pipeline)))).
  { repeat constructor. }
  assert (H3 : Forall (λ sp : float * Passage, poisonable sp.2)
                 (scored_of (retriever demo_pipeline) demo_query
                    (retrieval_k (cfg demo_pipeline)))).
  { repeat constructor; eexists; reflexivity. }
  assert (H4 : sample_size_retrieved
                 (length (retrieve demo_str (retriever demo_pipeline) demo_query
                            (retrieval_k (cfg demo_pipeline))))
                 (rate (poisoner demo_pipeline)) = Ok 1%nat) by reflexivity.
  do 4 (split; [assumption |]).
  exact (run_one_total demo_str demo_parse_float demo_negate demo_sample
           demo_pipeline demo_query "multi" 1 H1 H2 H3 H4).
Defined.

(** ** Evaluation metrics *)

Lemma occurrences_snoc (x y : string) (l : list string) :
  occurrences x (l ++ [y])
  = (occurrences x l + if decide (y = x) then 1 else 0)%nat.
Proof.
  unfold occurrences. rewrite filter_app, length_app, filter_cons, filter_nil.
  by destruct (decide (y = x)).
Qed.

Lemma occurrences_pos (x : string) (l : list string) :
  x ∈ l → (0 < occurrences x l)%nat.
Proof.
  intros Hx. unfold occurrences.
  assert (Hin : x ∈ filter (λ y, y = x) l) by (by apply list_elem_of_filter).
  destruct (filter _ l); [by apply elem_of_nil in Hin | simpl; lia].
Qed.

Lemma occurrences_le (x : string) (l : list string) :
  (occurrences x l ≤ length l)%nat.
Proof. apply length_filter. Qed.

Lemma occurrences_absent (x : string) (l : list string) :
  x ∉ l → occurrences x l = 0%nat.
Proof.
  intros Hx. unfold occurrences.
  destruct (filter (λ y, y = x) l) as [|y f] eqn:Hf; [done |].
  assert (Hy : y ∈ filter (λ y, y = x) l) by (rewrite Hf; by left).
  apply list_elem_of_filter in Hy as [-> Hy]. done.
Qed.

Lemma counter_get_add (c : list (string * nat)) (x y : string) :
  counter_get (counter_add c x) y
  = if decide (x = y) then S (counter_get c y) else counter_get c y.
Proof.
  induction c as [|[z n] rest IH]; simpl.
  - destruct (String.eqb_spec x y); by case_decide.
  - destruct (String.eqb_spec z x) as [->|Hzx]; simpl.
    + destruct (String.eqb_spec x y); by case_decide.
    + destruct (String.eqb_spec z y) as [->|Hzy]; [| exact IH].
      by rewrite decide_False by congruence.
Qed.

Lemma counter_get_Counter (l : list string) (y : string) :
  counter_get (Counter l) y = occurrences y l.
Proof.
  unfold Counter. induction l as [|x l IH] using rev_ind; [done |].
  rewrite foldl_app. simpl. rewrite counter_get_add, IH, occurrences_snoc.
  case_decide; lia.
Qed.

Lemma counter_add_keys (c : list (string * nat)) (x : string) :
  (counter_add c x).*1 = if decide (x ∈ c.*1) then c.*1 else c.*1 ++ [x].
Proof.
  induction c as [|[z m] rest IH]; [done |].
  cbn [counter_add]. rewrite fmap_cons. cbn [fst].
  destruct (String.eqb_spec z x) as [->|Hzx].
  - rewrite decide_True by left. done.
  - rewrite fmap_cons, IH. cbn [fst].
    destruct (decide (x ∈ rest.*1)) as [Hin|Hnin].
    + rewrite decide_True by (by right). done.
    + rewrite decide_False; [done |].
      rewrite not_elem_of_cons. split; [congruence | done].
Qed.

Lemma Counter_NoDup (l : list string) : NoDup (Counter l).*1.
Proof.
  unfold Counter. induction l as [|x l IH] using rev_ind; [constructor |].
  rewrite foldl_app. simpl. rewrite counter_add_keys. case_decide; [done |].
  apply NoDup_app. split; [done |]. split; [| apply NoDup_singleton].
  intros y Hy ->%list_elem_of_singleton. done.
Qed.

Lemma counter_get_elem (c : list (string * nat)) (y : string) (n : nat) :
  NoDup c.*1 → (y, n) ∈ c → counter_get c y = n.
Proof.
  induction c as [|[z m] rest IH]; intros Hnd Hin;
    [by apply elem_of_nil in Hin |].
  rewrite fmap_cons in Hnd. apply NoDup_cons in Hnd as [Hz Hnd]. simpl in *.
  apply elem_of_cons in Hin as [[= -> ->]|Hin].
  - by rewrite String.eqb_refl.
  - destruct (String.eqb_spec z y) as [->|Hne]; [| by apply IH].
    exfalso. apply Hz. apply list_elem_of_fmap. by exists (y, n).
Qed.

Lemma counter_get_pos (c : list (string * nat)) (x : string) :
  (0 < counter_get c x)%nat → (x, counter_get c x) ∈ c.
Proof.
  induction c as [|[z m] rest IH]; simpl; [lia |].
  destruct (String.eqb_spec z x) as [->|Hne]; [by left |].
  intros H. right. by apply IH.
Qed.

Lemma py_max_by_spec {A : Type} (key : A → nat) (x : A) (rest : list A) :
  py_max_by key x rest ∈ x :: rest
  ∧ ∀ y : A, y ∈ x :: rest → (key y ≤ key (py_max_by key x rest))%nat.
Proof.
  unfold py_max_by. revert x. induction rest as [|z rest IH]; intros x.
  - simpl. split; [by left |]. intros y ->%list_elem_of_singleton. done.
  - simpl. destruct (key x <? key z)%nat eqn:Hlt.
    + apply Nat.ltb_lt in Hlt. destruct (IH z) as [Hin Hmax]. split.
      * by right.
      * intros y [->|Hy]%elem_of_cons; [| by apply Hmax].
        specialize (Hmax z ltac:(by left)). lia.
    + apply Nat.ltb_ge in Hlt. destruct (IH x) as [Hin Hmax]. split.
      * apply elem_of_cons in Hin as [->|Hin]; [by left | by do 2 right].
      * intros y [->|[->|Hy]%elem_of_cons]%elem_of_cons.
        -- apply Hmax. by left.
        -- specialize (Hmax x ltac:(by left)). lia.
        -- apply Hmax. by right.
Qed.

(** X20: on a non-empty list of generations the self-consistency score
    raises nothing and is [top / len(generations)], where [top] is the
    number of occurrences of some normalised answer, no normalised answer
    occurs more often, and [1 <= top <= len(generations)]; the quotient
    is that of the primitive floats on the two counts converted. On
    [yes, no, yes] it is 0.6666666666666666. *)
Theorem self_consistency_spec (strip lower : string → string)
    (generations : list string) :
  generations ≠ [] →
  let norm := (λ g, lower (strip g)) <$> generations in
  ∃ (g : string) (top : nat),
    self_consistency_score strip lower generations
    = Ok (PyFloat.truediv (Z.of_nat top) (Z.of_nat (length generations)))
    ∧ g ∈ norm
    ∧ top = occurrences g norm
    ∧ (∀ x : string, (occurrences x norm ≤ top)%nat)
    ∧ (1 ≤ top ≤ length generations)%nat
    ∧ (Z.of_nat (length generations) < 2 ^ 53 →
       self_consistency_score strip lower generations
       = Ok (PrimFloat.div
               (PrimFloat.of_uint63 (Uint63.of_Z (Z.of_nat top)))
               (PrimFloat.of_uint63
                  (Uint63.of_Z (Z.of_nat (length generations)))))).
Proof.
  intros Hne norm. unfold self_consistency_score.
  destruct generations as [|g0 gs]; [done |]. fold norm.
  pose proof (Counter_NoDup norm) as Hnd.
  pose proof (counter_get_Counter norm) as Hget.
  assert (H0 : (0 < counter_get (Counter norm) (lower (strip g0)))%nat).
  { rewrite Hget. apply occurrences_pos. by left. }
  apply counter_get_pos in H0.
  destruct (Counter norm) as [|e rest] eqn:HC; [by apply elem_of_nil in H0 |].
  unfold most_common_1.
  destruct (py_max_by_spec snd e rest) as [Hin Hmax].
  destruct (py_max_by snd e rest) as [g top] eqn:Hm. simpl in Hmax.
  assert (Htop : top = occurrences g norm).
  { rewrite <- Hget. symmetry. by apply counter_get_elem. }
  assert (Hle : ∀ x : string, (occurrences x norm ≤ top)%nat).
  { intros x. destruct (decide (x ∈ norm)) as [Hx|Hx].
    - apply occurrences_pos in Hx as Hpos. rewrite <- Hget in Hpos.
      apply counter_get_pos in Hpos. rewrite Hget in Hpos.
      apply (Hmax _ Hpos).
    - rewrite occurrences_absent by done. lia. }
  assert (Hpos : (1 ≤ top)%nat).
  { specialize (Hle (lower (strip g0))).
    assert ((0 < occurrences (lower (strip g0)) norm)%nat)
      by (apply occurrences_pos; by left).
    lia. }
  assert (Hup : (top ≤ length (g0 :: gs))%nat).
  { rewrite Htop. etrans; [apply occurrences_le |].
    unfold norm. by rewrite length_fmap. }
  assert (Hscore : Ok (PyFloat.truediv (Z.of_nat top) (Z.of_nat (length norm)))
                   = Ok (PyFloat.truediv (Z.of_nat top)
                           (Z.of_nat (length (g0 :: gs))))
                     :> Result float).
  { do 2 f_equal. unfold norm. by rewrite length_fmap. }
  exists g, top. split; [exact Hscore |].
  split.
  { destruct (decide (g ∈ norm)) as [Hg|Hg]; [done |].
    rewrite (occurrences_absent g norm Hg) in Htop. lia. }
  split; [done |]. split; [done |]. split; [done |].
  intros Hsmall. rewrite Hscore.
  assert (Hpow : 2 ^ 53 < 2 ^ 63) by done.
  rewrite truediv_uint63 by lia. done.
Qed.

Lemma self_consistency_spec_witness :
  ["yes"; "no"; "yes"] ≠ []
  ∧ self_consistency_score id id ["yes"; "no"; "yes"]
    = Ok 0.6666666666666666%float.
Proof.
  assert (H : ["yes"; "no"; "yes"] ≠ []) by discriminate.
  split; [exact H |].
  destruct (self_consistency_spec id id ["yes"; "no"; "yes"] H)
    as (g & top & Hs & Hin & Htop & Hmax & _).
  specialize (Hmax "yes").
  change ((λ g : string, id (id g)) <$> ["yes"; "no"; "yes"])
    with ["yes"; "no"; "yes"] in Hin, Htop, Hmax.
  rewrite !elem_of_cons, elem_of_nil in Hin.
  assert (Ht : top = 2%nat).
  { destruct Hin as [->|[->|[->|[]]]]; vm_compute in Htop, Hmax; lia. }
  subst top. rewrite Hs. by vm_compute.
Defined.

(** ** Experiment drivers *)

Lemma mapM_Result_inv {A B : Type} (f : A → Result B) (l : list A)
    (k : list B) :
  mapM f l = Ok k → Forall2 (λ (x : A) (y : B), f x = Ok y) l k.
Proof.
  revert k. induction l as [|x l IH]; intros k.
  - intros [= <-]. constructor.
  - rewrite mapM_Result_cons. destruct (f x) as [y|e] eqn:Hy; [| discriminate].
    simpl. destruct (mapM f l) as [k'|e]; [| discriminate]. simpl.
    intros [= <-]. constructor; [done | by apply IH].
Qed.

Section DriverFacts.

Variable str : float → string.
Variable parse_float : string → option float.
Variable make_contradictory_passage : string → string.
Variable sample : Z → nat → nat → list nat.
Variable strip : string → string.
Variable lower : string → string.

Lemma run_one_no_generator (self : RAGTrustPipeline) (claim mode : string)
    (out : RunOut) :
  generator self = None →
  run_one str parse_float make_contradictory_passage sample self claim mode
  = Ok out →
  out_generations out = [].
Proof.
  intros Hg. unfold run_one. rewrite Hg.
  destruct (run_one_poisoned _ _ _ _ _); [| discriminate]. simpl.
  destruct (analyze _ _ _ _); [| discriminate]. simpl.
  by intros [= <-].
Qed.

Lemma run_one_votes (self : RAGTrustPipeline) (claim mode : string)
    (out : RunOut) :
  run_one str parse_float make_contradictory_passage sample self claim mode
  = Ok out →
  ∃ c : float,
    hallucination_proxy (out_verification out)
    = Ok (if PyFloat.ge c 0.4%float then 1.0%float else 0.0%float).
Proof.
  unfold run_one.
  destruct (run_one_poisoned _ _ _ _ _); [| discriminate]. simpl.
  destruct (analyze _ _ _ _) as [v|] eqn:Hv; [| discriminate]. simpl.
  assert (Hh : ∃ c : float,
            hallucination_proxy v
            = Ok (if PyFloat.ge c 0.4%float then 1.0%float else 0.0%float)).
  { unfold analyze in Hv. destruct (String.eqb mode "multi").
    - unfold _analyze_multi in Hv.
      destruct (multi_texts _); [| discriminate]. simpl in Hv.
      injection Hv as <-. by eexists.
    - unfold _analyze_single in Hv.
      destruct (single_loop _ _ _ _); [| discriminate]. simpl in Hv.
      injection Hv as <-. by eexists. }
  destruct (generator self).
  - destruct (build_meta_prompt _ _); [| discriminate]. simpl.
    by intros [= <-].
  - simpl. by intros [= <-].
Qed.

Lemma with_self_consistency_spec (cfg : RunCfg) (generations : list string)
    (row metrics : Row) :
  with_self_consistency strip lower cfg generations row = Ok metrics →
  (∀ k : string, k ≠ "self_consistency" → metrics !! k = row !! k)
  ∧ (generations = [] → metrics = row).
Proof.
  unfold with_self_consistency.
  destruct (compute_self_consistency cfg); simpl.
  - case_bool_decide as Hg; simpl.
    + destruct (self_consistency_score _ _ _); [| discriminate]. simpl.
      intros [= <-]. split; [| done].
      intros k Hk. by rewrite lookup_insert_ne.
    + intros [= <-]. done.
  - intros [= <-]. done.
Qed.

Lemma fever_row_spec (cfg : RunCfg) (pipeline : RAGTrustPipeline)
    (ex : FeverExample) (row : ResultRow) :
  fever_row str parse_float make_contradictory_passage sample strip lower
    cfg pipeline ex = Ok row →
  row_gold row = label ex
  ∧ (∃ l : Label, row_pred row = label_text l)
  ∧ row_metrics row !! "acc" = Some (fever_accuracy (row_pred row) (label ex))
  ∧ (row_metrics row !! "hallucination" = Some 1.0%float
     ∨ row_metrics row !! "hallucination" = Some 0.0%float)
  ∧ (generator pipeline = None → row_metrics row !! "self_consistency" = None).
Proof.
  unfold fever_row.
  destruct (run_one _ _ _ _ _ _ _) as [out|] eqn:Hout; [| discriminate]. simpl.
  destruct (run_one_votes _ _ _ _ Hout) as [c ->]. simpl.
  destruct (with_self_consistency _ _ _ _ _) as [metrics|] eqn:Hm;
    [| discriminate]. simpl.
  intros [= <-]. simpl.
  destruct (with_self_consistency_spec _ _ _ _ Hm) as [Hk Hnil].
  split; [done |]. split.
  { rewrite decision_unfold. eauto. }
  split.
  { rewrite Hk by done. by rewrite lookup_insert_eq. }
  split.
  { rewrite !Hk by done. rewrite lookup_insert_ne by done.
    destruct (PyFloat.ge c _); [left | right]; by simplify_map_eq. }
  intros Hg. rewrite (Hnil (run_one_no_generator _ _ _ _ Hg Hout)).
  by simplify_map_eq.
Qed.

End DriverFacts.

(** X21: when [run_fever] returns, there is one row per example, in
    order; the prediction of a row is one of the three labels, its [acc]
    is the accuracy of that prediction against the gold label, its
    [hallucination] is 0 or 1, and without a generator it has no
    [self_consistency]. For a non-empty example list the summary has
    [acc] and [hallucination]; without a generator it has no
    [self_consistency]. *)
Theorem run_fever_rows (str : float → string)
    (parse_float : string → option float)
    (make_contradictory_passage : string → string)
    (sample : Z → nat → nat → list nat) (strip lower : string → string)
    (sum : list float → float)
    (cfg : RunCfg) (pipeline : RAGTrustPipeline)
    (examples : list FeverExample) (summary : gmap string float)
    (rows : list ResultRow) :
  run_fever str parse_float make_contradictory_passage sample strip lower
    sum cfg pipeline examples = Ok (summary, rows) →
  Forall2
    (λ (ex : FeverExample) (row : ResultRow),
       row_gold row = label ex
       ∧ (∃ l : Label, row_pred row = label_text l)
       ∧ row_metrics row !! "acc"
         = Some (fever_accuracy (row_pred row) (label ex))
       ∧ (row_metrics row !! "hallucination" = Some 1.0%float
          ∨ row_metrics row !! "hallucination" = Some 0.0%float)
       ∧ (generator pipeline = None →
          row_metrics row !! "self_consistency" = None))
    examples rows
  ∧ (examples ≠ [] →
     is_Some (summary !! "acc") ∧ is_Some (summary !! "hallucination"))
  ∧ (generator pipeline = None → summary !! "self_consistency" = None).
Proof.
  unfold run_fever.
  destruct (mapM _ examples) as [rows'|] eqn:Hrows; [| discriminate]. simpl.
  intros [= <- <-]. apply mapM_Result_inv in Hrows.
  assert (Hall : Forall2
            (λ (ex : FeverExample) (row : ResultRow),
               row_gold row = label ex
               ∧ (∃ l : Label, row_pred row = label_text l)
               ∧ row_metrics row !! "acc"
                 = Some (fever_accuracy (row_pred row) (label ex))
               ∧ (row_metrics row !! "hallucination" = Some 1.0%float
                  ∨ row_metrics row !! "hallucination" = Some 0.0%float)
               ∧ (generator pipeline = None →
                  row_metrics row !! "self_consistency" = None))
            examples rows').
  { eapply Forall2_impl; [exact Hrows |]. intros ex row Hr.
    exact (fever_row_spec _ _ _ _ _ _ _ _ _ _ Hr). }
  split; [done |]. split.
  - intros Hne. destruct Hall as [|ex row exs rws Hrow Hrest]; [done |].
    destruct Hrow as (_ & _ & Hacc & Hh & _).
    rewrite !aggregate_lookup, !decide_True
      by (unfold metric_keys; rewrite !elem_of_cons; tauto).
    unfold metric_vals. rewrite !fmap_cons. cbn [omap list_omap].
    rewrite Hacc. destruct Hh as [-> | ->]; eauto.
  - intros Hg. rewrite aggregate_lookup, decide_True
      by (unfold metric_keys; rewrite !elem_of_cons; tauto).
    replace (metric_vals (row_metrics <$> rows') "self_consistency") with
      (@nil float); [done |].
    unfold metric_vals. symmetry. clear Hrows.
    induction Hall as [|ex row exs rws Hrow _ IH]; [done |].
    rewrite fmap_cons. cbn [omap list_omap].
    destruct Hrow as (_ & _ & _ & _ & Hsc). by rewrite (Hsc Hg).
Qed.

Lemma run_fever_rows_witness :
  ∃ (summary : gmap string float) (rows : list ResultRow),
    run_fever demo_str demo_parse_float demo_negate demo_sample id id
      PyFloat.sum demo_cfg demo_pipeline [mkFeverExample 1 demo_query "SUPPORTS"]
    = Ok (summary, rows)
    ∧ is_Some (summary !! "acc")
    ∧ summary !! "self_consistency" = None.
Proof.
  assert (Hrun : ∃ (summary : gmap string float) (rows : list ResultRow),
            run_fever demo_str demo_parse_float demo_negate demo_sample id id
              PyFloat.sum demo_cfg demo_pipeline
              [mkFeverExample 1 demo_query "SUPPORTS"]
            = Ok (summary, rows))
    by (eexists _, _; reflexivity).
  destruct Hrun as (summary & rows & Hrun). exists summary, rows.
  split; [exact Hrun |].
  destruct (run_fever_rows demo_str demo_parse_float demo_negate demo_sample
              id id PyFloat.sum demo_cfg demo_pipeline _ summary rows Hrun)
    as (_ & Hs & Hn).
  split; [exact (proj1 (Hs ltac:(discriminate))) | exact (Hn eq_refl)].
Defined.

(** X22: without a generator, every row of [run_hotpot] predicts the empty
    answer: the answer derived from the verifier label is assigned and
    then overwritten. Its [acc] is the exact match of the empty string
    against the gold answer, and it has no [self_consistency]. *)
Theorem hotpot_row_without_generator (str : float → string)
    (parse_float : string → option float)
    (make_contradictory_passage : string → string)
    (sample : Z → nat → nat → list nat) (strip lower : string → string)
    (cfg : RunCfg) (pipeline : RAGTrustPipeline) (ex : HotpotExample)
    (row : ResultRow) :
  generator pipeline = None →
  hotpot_row str parse_float make_contradictory_passage sample strip lower
    cfg pipeline ex = Ok row →
  row_pred row = ""
  ∧ row_gold row = answer ex
  ∧ row_metrics row !! "acc"
    = Some (hotpot_exact_match strip lower "" (answer ex))
  ∧ row_metrics row !! "self_consistency" = None.
Proof.
  intros Hg. unfold hotpot_row.
  destruct (run_one _ _ _ _ _ _ _) as [out|] eqn:Hout; [| discriminate]. simpl.
  pose proof (run_one_no_generator _ _ _ _ _ _ _ _ Hg Hout) as Hgen.
  rewrite Hgen.
  destruct (run_one_votes _ _ _ _ _ _ _ _ Hout) as [c ->]. simpl.
  destruct (with_self_consistency _ _ _ _ _) as [metrics|] eqn:Hm;
    [| discriminate]. simpl.
  destruct (with_self_consistency_spec _ _ _ _ _ _ Hm) as [_ Hnil].
  rewrite (Hnil eq_refl). intros [= <-]. simpl.
  split; [done |]. split; [done |]. split; by simplify_map_eq.
Qed.

Lemma hotpot_row_without_generator_witness :
  generator demo_pipeline = None
  ∧ ∃ row : ResultRow,
      hotpot_row demo_str demo_parse_float demo_negate demo_sample id id
        demo_cfg demo_pipeline (mkHotpotExample "q1" demo_query "yes" [])
      = Ok row
      ∧ row_pred row = "".
Proof.
  assert (Hg : generator demo_pipeline = None) by reflexivity.
  split; [exact Hg |].
  assert (Hrun : ∃ row : ResultRow,
            hotpot_row demo_str demo_parse_float demo_negate demo_sample id id
              demo_cfg demo_pipeline (mkHotpotExample "q1" demo_query "yes" [])
            = Ok row)
    by (eexists; reflexivity).
  destruct Hrun as (row & Hrun). exists row. split; [exact Hrun |].
  exact (proj1 (hotpot_row_without_generator demo_str demo_parse_float
                  demo_negate demo_sample id id demo_cfg demo_pipeline _ row
                  Hg Hrun)).
Defined.

(** ** The HotpotQA corpus *)

Lemma hotpot_passage_fields (title : string) (i : nat) (sent : string) :
  hotpot_passage title i sent !! "title" = Some (VStr title)
  ∧ hotpot_passage title i sent !! "text" = Some (VStr sent)
  ∧ hotpot_passage title i sent !! "doc_id"
    = Some (VStr (title +:+ "__" +:+ pretty i))
  ∧ hotpot_passage title i sent !! "source" = Some (VStr "hotpot")
  ∧ hotpot_passage title i sent !! "sent_id" = None
  ∧ hotpot_passage title i sent !! "is_poison" = None.
Proof. unfold hotpot_passage. repeat split; by simplify_map_eq. Qed.

Lemma length_list_bind {A B : Type} (f : A → list B) (l : list A) :
  length (l ≫= f) = sum_list ((λ x, length (f x)) <$> l).
Proof.
  induction l as [|x l IH]; [done |].
  rewrite bind_cons, length_app, IH. done.
Qed.

(** X23: every passage of the HotpotQA corpus has a string [text] and a
    string [doc_id], the source [hotpot], no [is_poison] and no [sent_id],
    so that its fusion key is (title, "", text); the corpus has one
    passage per context sentence; and two equal sentences at different
    positions of a page get different [doc_id]s and the same fusion
    key. *)
Theorem hotpot_corpus_passages (examples : list HotpotExample) :
  Forall
    (λ p : Passage,
       poisonable p
       ∧ p !! "source" = Some (VStr "hotpot")
       ∧ p !! "is_poison" = None
       ∧ ∃ title sent : string,
           passage_key p = (VStr title, VStr "", VStr sent))
    (build_hotpot_corpus examples)
  ∧ length (build_hotpot_corpus examples)
    = sum_list
        ((λ ex : HotpotExample,
            sum_list ((λ c : string * list string, length c.2) <$> context ex))
           <$> examples)
  ∧ ∀ (title sent : string) (i j : nat),
      i ≠ j →
      passage_key (hotpot_passage title i sent)
      = passage_key (hotpot_passage title j sent)
      ∧ hotpot_passage title i sent !! "doc_id"
        ≠ hotpot_passage title j sent !! "doc_id".
Proof.
  split; [| split].
  - apply Forall_forall. intros p Hp. unfold build_hotpot_corpus in Hp.
    apply list_elem_of_bind in Hp as (ex & Hp & _).
    apply list_elem_of_bind in Hp as ([title sentences] & Hp & _).
    apply elem_of_lookup_imap_1 in Hp as (i & sent & -> & _).
    destruct (hotpot_passage_fields title i sent)
      as (Ht & Hx & Hd & Hs & Hsid & Hm).
    split; [split; eauto |]. split; [done |]. split; [done |].
    exists title, sent. unfold passage_key, get. by rewrite Ht, Hx, Hsid.
  - unfold build_hotpot_corpus. rewrite length_list_bind.
    f_equal. apply list_fmap_ext. intros _ ex _.
    rewrite length_list_bind. f_equal. apply list_fmap_ext.
    intros _ [title sentences] _. apply length_imap.
  - intros title sent i j Hij.
    destruct (hotpot_passage_fields title i sent)
      as (Ht & Hx & Hd & _ & Hsid & _).
    destruct (hotpot_passage_fields title j sent)
      as (Ht' & Hx' & Hd' & _ & Hsid' & _).
    split.
    + unfold passage_key, get. by rewrite Ht, Hx, Hsid, Ht', Hx', Hsid'.
    + rewrite Hd, Hd'. intros [= H].
      apply String.app_inj, String.app_inj in H. by apply pretty_nat_inj in H.
Qed.

(** ** Evidence fusion: ties *)

Lemma best_step_keys (best : Best) (x : float * Passage) :
  (best_step best x).*1
  = if decide (passage_key x.2 ∈ best.*1) then best.*1
    else best.*1 ++ [passage_key x.2].
Proof.
  unfold best_step. cbv zeta.
  destruct (best_lookup best (passage_key x.2)) as [old|] eqn:Hl.
  - assert (Hin : passage_key x.2 ∈ best.*1).
    { apply dec_stable. intros Hn. apply best_lookup_None in Hn. congruence. }
    rewrite (decide_True _ _ Hin).
    destruct (PyFloat.gt x.1 old.1); [| done].
    by rewrite best_assign_keys, (decide_True _ _ Hin).
  - apply best_lookup_None in Hl.
    by rewrite best_assign_keys, !(decide_False _ _ Hl).
Qed.

Lemma sublist_pair_snoc {A : Type} (a b c : A) (l : list A) :
  [a; b] `sublist_of` l ++ [c] →
  [a; b] `sublist_of` l ∨ (a ∈ l ∧ b = c).
Proof.
  intros H. apply sublist_app_r in H as (l1 & l2 & Heq & H1 & H2).
  destruct l1 as [|a' [|b' l1]].
  - simpl in Heq. subst l2. apply sublist_length in H2. simpl in H2. lia.
  - injection Heq as <- <-. right. split.
    + by apply singleton_sublist_l.
    + apply singleton_sublist_l, list_elem_of_singleton in H2. done.
  - injection Heq as <- <- Hnil. left.
    symmetry in Hnil. apply app_eq_nil in Hnil as [-> ->]. done.
Qed.

Lemma sublist_pair_lookup {A : Type} (l : list A) (i j : nat) (a b : A) :
  (i < j)%nat → l !! i = Some a → l !! j = Some b → [a; b] `sublist_of` l.
Proof.
  intros Hij Ha Hb. rewrite <- (take_drop_middle l i a Ha).
  apply sublist_inserts_l, sublist_skip, singleton_sublist_l.
  apply (list_elem_of_lookup_2 _ (j - S i)).
  rewrite lookup_drop. by replace (S i + (j - S i))%nat with j by lia.
Qed.

Lemma sublist_pair_total {A : Type} (l : list A) (a b : A) :
  a ∈ l → b ∈ l → a ≠ b →
  [a; b] `sublist_of` l ∨ [b; a] `sublist_of` l.
Proof.
  induction l as [|x l IH]; intros Ha Hb Hne; [by apply elem_of_nil in Ha |].
  apply elem_of_cons in Ha as [->|Ha], Hb as [->|Hb]; [done | | |].
  - left. by apply sublist_skip, singleton_sublist_l.
  - right. by apply sublist_skip, singleton_sublist_l.
  - destruct (IH Ha Hb Hne); [left | right]; by apply sublist_cons.
Qed.

Lemma sublist_pair_antisym {A : Type} (l : list A) (a b : A) :
  NoDup l → [a; b] `sublist_of` l → [b; a] `sublist_of` l → False.
Proof.
  induction 1 as [|x l Hx Hnd IH]; intros Hab Hba.
  { apply sublist_length in Hab. simpl in Hab. lia. }
  apply sublist_cons_r in Hab as [Hab|(l1 & [= <- <-] & Hb)],
    Hba as [Hba|(l2 & [= ? <-] & Ha)].
  - by apply IH.
  - subst x. apply Hx. apply (elem_of_sublist [a; b]); [| done].
    right. by left.
  - apply Hx. apply (elem_of_sublist [b; a]); [| done]. right. by left.
  - subst b. apply Hx. by apply singleton_sublist_l.
Qed.

Lemma best_of_order (scored : list (float * Passage)) :
  (∀ key : Key,
     key ∈ (best_of scored).*1
     ↔ key ∈ (λ sp : float * Passage, passage_key sp.2) <$> scored)
  ∧ ∀ ka kb : Key,
      [ka; kb] `sublist_of` (best_of scored).*1 → seen_before scored ka kb.
Proof.
  unfold best_of. induction scored as [|x l [IH1 IH2]] using rev_ind.
  { split; [done |]. intros ka kb H. apply sublist_length in H. simpl in H. lia. }
  rewrite fold_left_app. cbn [fold_left]. rewrite best_step_keys.
  assert (Hext : ∀ (ka kb : Key), seen_before l ka kb →
            seen_before (l ++ [x]) ka kb).
  { intros ka kb (n & sp & Hn & Hk & Hlt). exists n, sp.
    split; [by apply lookup_app_l_Some |]. split; [done |].
    intros m sp' Hm Hk'. apply lookup_app_Some in Hm as [Hm|[Hge Hm]].
    - by eapply Hlt.
    - apply lookup_lt_Some in Hn. lia. }
  split.
  - intros key. rewrite fmap_app, elem_of_app. cbn [fmap list_fmap].
    rewrite list_elem_of_singleton, <- IH1.
    case_decide as Hx; [| rewrite elem_of_app, list_elem_of_singleton; tauto].
    split; [tauto |]. intros [H| ->]; done.
  - intros ka kb H. case_decide as Hx; [by apply Hext, IH2 |].
    apply sublist_pair_snoc in H as [H|[Ha ->]]; [by apply Hext, IH2 |].
    apply IH1, list_elem_of_fmap in Ha as (sp & -> & Hsp).
    apply list_elem_of_lookup in Hsp as [n Hn].
    exists n, sp. split; [by apply lookup_app_l_Some |]. split; [done |].
    intros m sp' Hm Hk'. apply lookup_app_Some in Hm as [Hm|[Hge Hm]].
    + exfalso. apply Hx, IH1, list_elem_of_fmap. exists sp'.
      split; [done |]. by eapply list_elem_of_lookup_2.
    + apply lookup_lt_Some in Hn. lia.
Qed.

Lemma insert_desc_sublist (x : float * Passage) (l : list (float * Passage)) :
  l `sublist_of` insert_desc x l.
Proof.
  induction l as [|y l IH]; simpl; [apply sublist_nil_l |].
  destruct (PyFloat.lt x.1 y.1); [by apply sublist_skip | by apply sublist_cons].
Qed.

Lemma insert_desc_front (x y : float * Passage) (l : list (float * Passage)) :
  y ∈ l → PyFloat.lt x.1 y.1 = false → [x; y] `sublist_of` insert_desc x l.
Proof.
  induction l as [|z l IH]; intros Hy Hxy; [by apply elem_of_nil in Hy |].
  simpl. destruct (PyFloat.lt x.1 z.1) eqn:Hxz.
  - apply elem_of_cons in Hy as [->|Hy]; [congruence |].
    apply sublist_cons. by apply IH.
  - by apply sublist_skip, singleton_sublist_l.
Qed.

(** The sort is stable: an entry that stands before another and is not
    below it stays before it. *)
Lemma sorted_desc_stable (l : list (float * Passage)) (a b : float * Passage) :
  [a; b] `sublist_of` l → PyFloat.lt a.1 b.1 = false →
  [a; b] `sublist_of` sorted_desc l.
Proof.
  induction l as [|x l IH]; intros Hab Hlt.
  { apply sublist_length in Hab. simpl in Hab. lia. }
  simpl. apply sublist_cons_r in Hab as [Hab|(l' & [= <- <-] & Hb)].
  - etrans; [by apply IH | apply insert_desc_sublist].
  - apply insert_desc_front; [| done].
    rewrite sorted_desc_perm. by apply singleton_sublist_l.
Qed.

(** X24: entries of the fused list whose scores tie stand in the order in
    which their keys were first seen: if an entry stands before another
    and the other's score is not below its own, then some source pair
    with the key of the first precedes every source pair with the key of
    the second. The dictionary keeps insertion order and the sort is
    stable. *)
Theorem fusion_tie_order (self : HybridRetriever) (query : string) (k : Z)
    (i j : nat) (a b : float * Passage) :
  let scored := scored_of self query k in
  let merged := merged_of scored k in
  Forall (λ sp : float * Passage, PyFloat.is_nan sp.1 = false) scored →
  (i < j)%nat →
  merged !! i = Some a →
  merged !! j = Some b →
  PyFloat.lt b.1 a.1 = false →
  seen_before scored (passage_key a.2) (passage_key b.2).
Proof.
  intros scored merged Hnan Hij Ha Hb Htie.
  pose proof (best_of_inv scored Hnan) as Hinv.
  pose proof Hinv as (Hnd & _ & _).
  pose proof (best_keys _ _ Hinv) as Hkeys.
  set (vals := (best_of scored).*2) in *.
  assert (Hvnd : NoDup vals).
  { apply (NoDup_fmap_1 (λ sp : float * Passage, passage_key sp.2)).
    by rewrite Hkeys. }
  assert (Hsnd : NoDup (sorted_desc vals)) by (by rewrite sorted_desc_perm).
  destruct (slice_to_take (sorted_desc vals) k) as [m Hm].
  assert (Hsab : [a; b] `sublist_of` sorted_desc vals).
  { etrans; [apply (sublist_pair_lookup merged i j a b Hij Ha Hb) |].
    subst merged. unfold merged_of. fold vals. rewrite Hm. apply sublist_take. }
  assert (Hin : a ∈ vals ∧ b ∈ vals).
  { rewrite <- !(sorted_desc_perm vals).
    split; apply (elem_of_sublist [a; b]); try done; [by left | right; by left]. }
  assert (Hne : a ≠ b).
  { intros ->. apply (sublist_NoDup _ _ Hsnd) in Hsab.
    apply NoDup_cons in Hsab as [Hsab _]. apply Hsab. by left. }
  destruct (sublist_pair_total vals a b (proj1 Hin) (proj2 Hin) Hne) as [Hv|Hv].
  - apply (proj2 (best_of_order scored)). rewrite <- Hkeys.
    exact (fmap_sublist (λ sp : float * Passage, passage_key sp.2) _ _ Hv).
  - exfalso. apply (sublist_pair_antisym (sorted_desc vals) a b Hsnd Hsab).
    by apply sorted_desc_stable.
Qed.

Lemma fusion_tie_order_witness :
  ∃ a b : float * Passage,
    Forall (λ sp : float * Passage, PyFloat.is_nan sp.1 = false)
      (scored_of demo_tied demo_query 5)
    ∧ (0 < 1)%nat
    ∧ merged_of (scored_of demo_tied demo_query 5) 5 !! 0%nat = Some a
    ∧ merged_of (scored_of demo_tied demo_query 5) 5 !! 1%nat = Some b
    ∧ PyFloat.lt b.1 a.1 = false
    ∧ seen_before (scored_of demo_tied demo_query 5)
        (passage_key a.2) (passage_key b.2).
Proof.
  eexists _, _.
  assert (H1 : Forall (λ sp : float * Passage, PyFloat.is_nan sp.1 = false)
                 (scored_of demo_tied demo_query 5)).
  { repeat constructor. }
  assert (H2 : (0 < 1)%nat) by lia.
  split; [exact H1 |]. split; [exact H2 |].
  split; [reflexivity |]. split; [reflexivity |].
  assert (H5 : PyFloat.lt 1.0%float 1.0%float = false) by reflexivity.
  split; [exact H5 |].
  exact (fusion_tie_order demo_tied demo_query 5 0 1 _ _ H1 H2 eq_refl eq_refl H5).
Defined.

(** ** Multi mode in the pipeline *)

(** X25: the verifier of the pipeline keeps [top_n_multi] at 5, so multi
    mode reads the first five passages only: two passage lists with the
    same first five passages get the same verification, whatever
    [top_n_verify] let through. *)
Theorem pipeline_multi_reads_five (nli : string → string → NLI.scores)
    (cfg : RunCfg) (query : string) (passages passages' : list Passage) :
  take 5 passages = take 5 passages' →
  analyze (pipeline_verifier nli cfg) query passages "multi"
  = analyze (pipeline_verifier nli cfg) query passages' "multi".
Proof.
  intros H. unfold analyze. rewrite String.eqb_refl.
  unfold _analyze_multi, pipeline_verifier. cbn [top_n_multi].
  rewrite !slice_to_nonneg by lia.
  change (Z.to_nat 5) with 5%nat. by rewrite H.
Qed.

Lemma pipeline_multi_reads_five_witness :
  take 5 (replicate 5 (∅ : Passage) ++ demo_passages)
  = take 5 (replicate 5 (∅ : Passage))
  ∧ analyze (pipeline_verifier (nli demo_verifier) demo_cfg) demo_query
      (replicate 5 (∅ : Passage) ++ demo_passages) "multi"
    = analyze (pipeline_verifier (nli demo_verifier) demo_cfg) demo_query
        (replicate 5 (∅ : Passage)) "multi".
Proof.
  assert (H : take 5 (replicate 5 (∅ : Passage) ++ demo_passages)
              = take 5 (replicate 5 (∅ : Passage))) by reflexivity.
  split; [exact H |].
  exact (pipeline_multi_reads_five (nli demo_verifier) demo_cfg demo_query
           _ _ H).
Defined.
